(** * aws-batch/entrypoint.py: the job-orchestration handler

    A shallow embedding of [src/aws-batch/entrypoint.py].  The three AWS
    services the handler talks to are part of an explicit [World]:

    - DynamoDB (the lease store) is a finite map from cache keys to rows,
      with the conditional [update_item] / [delete_item] semantics the
      code relies on;
    - S3 (the blob store) is a finite map from object keys to bodies;
    - AWS Batch (the compute service) is an oracle that answers each call
      from the history of all calls made so far, and may raise.

    Every call to a service is appended to [trace], so that statements of
    the form "this service is not touched" or "this call happens" can be
    read off the final world.  Python exceptions are values of [exn] and
    the code runs in a state-and-exception monad [M] over [World].

    What the model leaves out: logging; failures of DynamoDB and S3 other
    than the failed condition check and the missing object; and the time
    an invocation takes, so that [now()] gives the same value throughout
    one invocation and invocations do not overlap.  The stored state is
    kept decoded, [json.loads (json.dumps v) = v]. *)

From stdpp Require Import gmap strings list pretty.

Set Warnings "-register-all".
Local Open Scope Z_scope.

(** ** Python values *)

(** The JSON-like values that travel through the handler: what
    [json.loads] gives back for the stored state, the request parameters
    and the response.  Dictionaries keep insertion order.  Floats and
    booleans do not occur in the code's own data and are left out. *)
Inductive val : Type :=
  | VNone
  | VInt (n : Z)
  | VStr (s : string)
  | VList (l : list val)
  | VDict (d : list (string * val)).

(** The exceptions that the embedded code can raise.  [ClientError] is
    botocore's, with the [Error.Code] and [Error.Message] of its response
    and the operation name. *)
Inductive exn : Type :=
  | KeyError (key : string)
  | KeyErrorInt (key : Z)
  | IndexError (msg : string)
  | TypeError (msg : string)
  | AttributeError (msg : string)
  | ClientError (code msg op : string).

Inductive outcome (A : Type) : Type :=
  | Ok (a : A)
  | Raise (e : exn).
Arguments Ok {A} a.
Arguments Raise {A} e.

(** [str(e)] *)
Definition exn_str (e : exn) : string :=
  match e with
  | KeyError k => "'" +:+ k +:+ "'"
  | KeyErrorInt k => pretty k
  | IndexError m | TypeError m | AttributeError m => m
  | ClientError code msg op =>
      "An error occurred (" +:+ code +:+ ") when calling the " +:+ op
        +:+ " operation: " +:+ msg
  end.

(** Library functions of Python that the code calls and whose text
    processing is not part of this repository. *)
Class PyLib : Type := {
  (** [json.dumps(v, separators=(",", ":"))] *)
  json_dumps : val → string;
  (** [textwrap.dedent(s).strip()] *)
  dedent_strip : string → string;
  (** [repr(v)], used by [str] on lists and dictionaries *)
  py_repr : val → string;
}.

(** [str(v)], as used by f-strings. *)
Definition py_str `{!PyLib} (v : val) : string :=
  match v with
  | VNone => "None"
  | VInt n => pretty n
  | VStr s => s
  | _ => py_repr v
  end.

(** Truthiness, [bool(v)]. *)
Definition truthy (v : val) : bool :=
  match v with
  | VNone => false
  | VInt n => negb (Z.eqb n 0)
  | VStr s => negb (String.eqb s "")
  | VList l => match l with [] => false | _ => true end
  | VDict d => match d with [] => false | _ => true end
  end.

(** [v == s] for a string literal [s]. *)
Definition val_eq_str (v : val) (s : string) : bool :=
  match v with
  | VStr s' => String.eqb s' s
  | _ => false
  end.

(** [v == n] for an integer literal [n]. *)
Definition val_eq_int (v : val) (n : Z) : bool :=
  match v with
  | VInt n' => Z.eqb n' n
  | _ => false
  end.

(** ** Dictionaries as association lists *)

Fixpoint dict_get {A} (d : list (string * A)) (k : string) : option A :=
  match d with
  | [] => None
  | (k', v) :: d' => if String.eqb k' k then Some v else dict_get d' k
  end.

(** [d[k] = v]: replaces in place, or appends a new key at the end. *)
Fixpoint dict_set {A} (d : list (string * A)) (k : string) (v : A)
  : list (string * A) :=
  match d with
  | [] => [(k, v)]
  | (k', v') :: d' =>
      if String.eqb k' k then (k', v) :: d' else (k', v') :: dict_set d' k v
  end.

(** [{**d1, **d2}] *)
Definition dict_merge {A} (d1 d2 : list (string * A)) : list (string * A) :=
  foldl (λ acc kv, dict_set acc kv.1 kv.2) d1 d2.

Definition dict_keys {A} (d : list (string * A)) : list string := d.*1.

(** [v[k]] for a string key. *)
Definition getitem_str (v : val) (k : string) : outcome val :=
  match v with
  | VDict d =>
      match dict_get d k with
      | Some x => Ok x
      | None => Raise (KeyError k)
      end
  | VList _ => Raise (TypeError "list indices must be integers or slices, not str")
  | VStr _ => Raise (TypeError "string indices must be integers, not 'str'")
  | VInt _ => Raise (TypeError "'int' object is not subscriptable")
  | VNone => Raise (TypeError "'NoneType' object is not subscriptable")
  end.

(** [l[-1]] on a list. *)
Definition last_item {A} (l : list A) : outcome A :=
  match last l with
  | Some x => Ok x
  | None => Raise (IndexError "list index out of range")
  end.

(** [l[0]] on a list. *)
Definition first_item {A} (l : list A) : outcome A :=
  match l with
  | x :: _ => Ok x
  | [] => Raise (IndexError "list index out of range")
  end.

(** [needle in haystack] on strings. *)
Fixpoint is_prefix (p s : string) : bool :=
  match p, s with
  | EmptyString, _ => true
  | String a p', String b s' => Ascii.eqb a b && is_prefix p' s'
  | String _ _, EmptyString => false
  end.

Fixpoint str_contains (needle haystack : string) : bool :=
  is_prefix needle haystack ||
  match haystack with
  | EmptyString => false
  | String _ rest => str_contains needle rest
  end.

(** ** Module-level constants *)

Definition TIMEOUT : Z := 5.
Definition MAX_ITERS : Z := 10.
Definition DFLT_PROP : list (string * val) :=
  [("vcpus", VInt 1); ("memory", VInt 512)].
Definition PENDING_STATES : list string :=
  ["SUBMITTED"; "PENDING"; "RUNNABLE"; "STARTING"; "RUNNING"].
Definition SUCCESS_STATE : string := "SUCCEEDED".
Definition FAILED_STATE : string := "FAILED".

(** The process environment.  [JOB_BUCKET] is read with [os.environ[...]]
    when the module is imported, so it is always there once the handler
    runs; the variables read at call time may be missing. *)
Record Environ : Type := {
  S3_BUCKET : string;
  S3_PREFIX : option string;
  DELETE_DYNAMO_ON_FAIL : option string;
  BATCH_TASK_ROLE_ARN : option string;
  GPU_QUEUE : option string;
  CPU_QUEUE : option string;
}.

(** ** The services *)

(** One row of the DynamoDB table, without its key.  [obj] holds the
    decoded state: [put] stores [json.dumps(obj)] and [get] returns
    [json.loads] of it, which is the identity on [val]. *)
Record Row : Type := {
  lock_key : option string;
  update_time : option Z;
  obj : option val;
}.

Definition empty_row : Row :=
  {| lock_key := None; update_time := None; obj := None |}.

(** Condition expressions over the attributes [lock_key] and
    [update_time], and the update actions the code uses. *)
Inductive cond : Type :=
  | attribute_not_exists_lk
  | lk_eq (owner : string)
  | ut_lt (bound : Z)
  | c_or (a b : cond).

Inductive action : Type :=
  | SET_lk (owner : string)
  | SET_ut (t : Z)
  | SET_obj (v : val)
  | REMOVE_lk.

(** A comparison with a missing attribute is false; [attribute_not_exists]
    is true on a missing item. *)
Fixpoint eval_cond (c : cond) (item : option Row) : bool :=
  match c with
  | attribute_not_exists_lk =>
      match item ≫= lock_key with None => true | Some _ => false end
  | lk_eq owner =>
      match item ≫= lock_key with
      | Some o => String.eqb o owner
      | None => false
      end
  | ut_lt bound =>
      match item ≫= update_time with
      | Some t => Z.ltb t bound
      | None => false
      end
  | c_or a b => eval_cond a item || eval_cond b item
  end.

Definition apply_action (r : Row) (a : action) : Row :=
  match a with
  | SET_lk o => {| lock_key := Some o; update_time := update_time r; obj := obj r |}
  | SET_ut t => {| lock_key := lock_key r; update_time := Some t; obj := obj r |}
  | SET_obj v => {| lock_key := lock_key r; update_time := update_time r; obj := Some v |}
  | REMOVE_lk => {| lock_key := None; update_time := update_time r; obj := obj r |}
  end.

(** What AWS Batch returns. *)
Record RegisterResponse : Type := {
  jobDefinitionName : option string;
  jobDefinitionArn : option string;
}.

Record Container : Type := { reason : option string }.
Record Attempt : Type := { container : option Container }.
Record JobDetail : Type := {
  jd_status : option string;
  attempts : option (list Attempt);
  statusReason : option string;
}.

(** Every call that leaves the process. *)
Inductive Call : Type :=
  | UpdateItem (key : string) (c : cond) (acts : list action)
  | GetItem (key : string)
  | DeleteItem (key : string) (c : cond)
  | HeadObject (key : string)
  | GetObject (key : string)
  | PutObject (key : string) (body : string)
  | RegisterJobDefinition (name : string) (props : list (string * val))
  | SubmitJob (name queue : string) (job_definition : val)
  | DescribeJobs (job : val)
  | DeregisterJobDefinition (job_definition : val).

(** AWS Batch: each operation answers from the calls made so far, the
    current one first. *)
Record BatchApi : Type := {
  register_job_definition : list Call → outcome RegisterResponse;
  submit_job : list Call → outcome (option string);
  describe_jobs : list Call → outcome (list JobDetail);
  deregister_job_definition : list Call → outcome ();
}.

Record World : Type := {
  environ : Environ;
  table : gmap string Row;
  bucket : gmap string string;
  clock : Z;
  batch_api : BatchApi;
  trace : list Call;
}.

Definition set_table (t : gmap string Row) (w : World) : World :=
  {| environ := environ w; table := t; bucket := bucket w; clock := clock w;
     batch_api := batch_api w; trace := trace w |}.

Definition set_bucket (b : gmap string string) (w : World) : World :=
  {| environ := environ w; table := table w; bucket := b; clock := clock w;
     batch_api := batch_api w; trace := trace w |}.

Definition log (c : Call) (w : World) : World :=
  {| environ := environ w; table := table w; bucket := bucket w;
     clock := clock w; batch_api := batch_api w; trace := c :: trace w |}.

(** ** The monad *)

Definition M (A : Type) : Type := World → outcome A * World.

Definition ret {A} (a : A) : M A := λ w, (Ok a, w).
Definition raise {A} (e : exn) : M A := λ w, (Raise e, w).
Definition lift {A} (o : outcome A) : M A := λ w, (o, w).

Definition bind {A B} (m : M A) (k : A → M B) : M B :=
  λ w, match m w with
       | (Ok a, w') => k a w'
       | (Raise e, w') => (Raise e, w')
       end.

(** [try: m  except Exception as e: h e] *)
Definition catch {A} (m : M A) (h : exn → M A) : M A :=
  λ w, match m w with
       | (Ok a, w') => (Ok a, w')
       | (Raise e, w') => h e w'
       end.

(** [try: m  finally: f]: [f] runs on every exit of [m]; the outcome is
    that of [m] unless [f] itself raises. *)
Definition finally {A B} (m : M A) (f : M B) : M A :=
  λ w, match m w with
       | (r, w') =>
           match f w' with
           | (Ok _, w'') => (r, w'')
           | (Raise e, w'') => (Raise e, w'')
           end
       end.

Notation "'let*' x ':=' m 'in' k" := (bind m (λ x, k))
  (at level 10, x name, m at level 100, k at level 200,
   format "'[v' 'let*'  x  ':='  m  'in' '/' k ']'").
Notation "m ';;;' k" := (bind m (λ _, k))
  (at level 100, k at level 200, right associativity,
   format "'[v' m  ';;;' '/' k ']'").

Definition get_world : M World := λ w, (Ok w, w).

(** [now()]: the clock does not advance within one invocation. *)
Definition now : M Z := λ w, (Ok (clock w), w).

(** [os.environ[name]] for a variable read at call time. *)
Definition os_environ (name : string) (field : Environ → option string)
  : M string :=
  λ w, match field (environ w) with
       | Some v => (Ok v, w)
       | None => (Raise (KeyError name), w)
       end.

(** [d[key]] on a dictionary whose entry [key] may be missing. *)
Definition getitem {A} (key : string) (o : option A) : M A :=
  match o with
  | Some a => ret a
  | None => raise (KeyError key)
  end.

(** *** DynamoDB *)

(** [update_item] with a [ConditionExpression]: the condition is checked
    against the current item (or its absence); when it holds the actions
    are applied, creating the item if needed. *)
Definition update_item (key : string) (c : cond) (acts : list action) : M () :=
  λ w,
    let w1 := log (UpdateItem key c acts) w in
    if eval_cond c (table w !! key) then
      let r := foldl apply_action (default empty_row (table w !! key)) acts in
      (Ok (), set_table (<[key := r]> (table w)) w1)
    else
      (Raise (ClientError "ConditionalCheckFailedException"
                "The conditional request failed" "UpdateItem"), w1).

(** [get_item]: the response has an ["Item"] entry only when the item
    exists. *)
Definition get_item (key : string) : M (option Row) :=
  λ w, (Ok (table w !! key), log (GetItem key) w).

Definition delete_item (key : string) (c : cond) : M () :=
  λ w,
    let w1 := log (DeleteItem key c) w in
    if eval_cond c (table w !! key) then
      (Ok (), set_table (delete key (table w)) w1)
    else
      (Raise (ClientError "ConditionalCheckFailedException"
                "The conditional request failed" "DeleteItem"), w1).

(** *** S3 *)

Definition head_object (key : string) : M () :=
  λ w,
    let w1 := log (HeadObject key) w in
    match bucket w !! key with
    | Some _ => (Ok (), w1)
    | None => (Raise (ClientError "404" "Not Found" "HeadObject"), w1)
    end.

Definition get_object (key : string) : M string :=
  λ w,
    let w1 := log (GetObject key) w in
    match bucket w !! key with
    | Some body => (Ok body, w1)
    | None =>
        (Raise (ClientError "NoSuchKey" "The specified key does not exist."
                  "GetObject"), w1)
    end.

Definition put_object (key body : string) : M () :=
  λ w, (Ok (), set_bucket (<[key := body]> (bucket w)) (log (PutObject key body) w)).

(** *** AWS Batch *)

Definition batch_call {A} (c : Call)
    (op : BatchApi → list Call → outcome A) : M A :=
  λ w, let w1 := log c w in (op (batch_api w) (trace w1), w1).

(** ** Module-level functions *)

Definition s3_get (key : string) : M (option string) :=
  let* found :=
    catch (head_object key ;;; ret true)
      (λ e, match e with
            | ClientError code _ _ =>
                if String.eqb code "404" then ret false else raise e
            | _ => raise e
            end) in
  if found : bool then
    let* body := get_object key in
    ret (Some body)
  else ret None.

Definition s3_put (data : val) (key : string) : M string :=
  let* w := get_world in
  let* body :=
    match data with
    | VStr s => ret s
    | VNone => raise (AttributeError "'NoneType' object has no attribute 'encode'")
    | VInt _ => raise (AttributeError "'int' object has no attribute 'encode'")
    | VList _ => raise (AttributeError "'list' object has no attribute 'encode'")
    | VDict _ => raise (AttributeError "'dict' object has no attribute 'encode'")
    end in
  put_object key body ;;;
  ret ("s3://" +:+ S3_BUCKET (environ w) +:+ "/" +:+ key).

(** ** class Dynamo *)

Module Dynamo.

(** [run_id] is the [uuid4().hex] drawn when the object is built; [db]
    is the DynamoDB of the world. *)
Record t : Type := {
  cache_key : string;
  run_id : string;
}.

(** [key or self.cache_key] *)
Definition key_or (key : option string) (d : t) : string :=
  match key with
  | Some k => if String.eqb k "" then cache_key d else k
  | None => cache_key d
  end.

Definition _update (d : t) (key : option string) (c : cond)
    (acts : list action) : M bool :=
  catch (update_item (key_or key d) c acts ;;; ret true)
    (λ e, match e with
          | ClientError code _ _ =>
              if String.eqb code "ConditionalCheckFailedException"
              then ret false else raise e
          | _ => raise e
          end).

(** ["attribute_not_exists(#lk) OR #lk = :lk OR #ut < :to"] *)
Definition lease_cond (d : t) (ut : Z) : cond :=
  c_or (c_or attribute_not_exists_lk (lk_eq (run_id d))) (ut_lt (ut - TIMEOUT)).

Definition put (d : t) (o : val) : M bool :=
  let* ut := now in
  _update d None (lease_cond d ut)
    [SET_lk (run_id d); SET_ut ut; SET_obj o].

Definition get (d : t) : M val :=
  let* item := get_item (cache_key d) in
  match item with
  | None => raise (KeyError "Item")
  | Some r =>
      match obj r with
      | None => ret VNone
      | Some v => ret v
      end
  end.

Definition lock (d : t) (key : option string) : M bool :=
  let* ut := now in
  _update d key (lease_cond d ut) [SET_lk (run_id d); SET_ut ut].

Definition unlock (d : t) (key : option string) : M bool :=
  let* t := now in
  _update d key (lk_eq (run_id d)) [REMOVE_lk; SET_ut t].

Definition delete (d : t) : M () :=
  let* ut := now in
  delete_item (cache_key d) (lease_cond d ut).

End Dynamo.

(** ** class Batch *)

Module Batch.

(** The fields are dynamically typed: they are filled from the stored
    JSON.  [client] is [None] for the default AWS Batch client and
    [Some v] when the stored state overrides it with a JSON value. *)
Record t : Type := {
  cache_key : string;
  job_id : val;
  job_def : val;
  status : val;
  iters : val;
  client : option val;
}.

Definition set_job_id (v : val) (b : t) : t :=
  {| cache_key := cache_key b; job_id := v; job_def := job_def b;
     status := status b; iters := iters b; client := client b |}.
Definition set_job_def (v : val) (b : t) : t :=
  {| cache_key := cache_key b; job_id := job_id b; job_def := v;
     status := status b; iters := iters b; client := client b |}.
Definition set_status (v : val) (b : t) : t :=
  {| cache_key := cache_key b; job_id := job_id b; job_def := job_def b;
     status := v; iters := iters b; client := client b |}.
Definition set_iters (v : val) (b : t) : t :=
  {| cache_key := cache_key b; job_id := job_id b; job_def := job_def b;
     status := status b; iters := v; client := client b |}.
Definition set_client (v : val) (b : t) : t :=
  {| cache_key := cache_key b; job_id := job_id b; job_def := job_def b;
     status := status b; iters := iters b; client := Some v |}.

(** The defaults of the dataclass. *)
Definition new (cache_key : string) : t :=
  {| cache_key := cache_key; job_id := VNone; job_def := VNone;
     status := VNone; iters := VInt 0; client := None |}.

Fixpoint init_kwargs (b : t) (kw : list (string * val)) : outcome t :=
  match kw with
  | [] => Ok b
  | (k, v) :: kw' =>
      if String.eqb k "job_id" then init_kwargs (set_job_id v b) kw'
      else if String.eqb k "job_def" then init_kwargs (set_job_def v b) kw'
      else if String.eqb k "status" then init_kwargs (set_status v b) kw'
      else if String.eqb k "iters" then init_kwargs (set_iters v b) kw'
      else if String.eqb k "client" then init_kwargs (set_client v b) kw'
      else if String.eqb k "cache_key" then
        Raise (TypeError "Batch.__init__() got multiple values for argument 'cache_key'")
      else
        Raise (TypeError ("Batch.__init__() got an unexpected keyword argument '"
                            +:+ k +:+ "'"))
  end.

(** [Batch(cache_key, **info)].  For an [info] that is no mapping the
    interpreter's text also names the class with its module and the type
    of [info]; the module's name depends on how the file is loaded, so
    the text is kept short. *)
Definition init (cache_key : string) (info : val) : outcome t :=
  match info with
  | VDict kw => init_kwargs (new cache_key) kw
  | _ => Raise (TypeError "argument after ** must be a mapping")
  end.

Definition prefix (e : Environ) (b : t) : string :=
  match S3_PREFIX e with
  | None => cache_key b
  | Some p => p +:+ "/" +:+ cache_key b
  end.

Definition result_key (e : Environ) (b : t) : string :=
  prefix e b +:+ "/result.dump".

(** [self.client.<op>(...)]: an overridden client is a JSON value and
    has no such attribute. *)
Definition client_call {A} (b : t) (c : Call)
    (op : BatchApi → list Call → outcome A) : M A :=
  match client b with
  | None => batch_call c op
  | Some _ => raise (AttributeError "object has no attribute of the client")
  end.

Definition _create_job_def (b : t) (name : string)
    (props : list (string * val)) : M t :=
  let* response := client_call b (RegisterJobDefinition name props)
                     register_job_definition in
  getitem "jobDefinitionName" (jobDefinitionName response) ;;;
  getitem "jobDefinitionArn" (jobDefinitionArn response) ;;;
  let* job_def := getitem "jobDefinitionArn" (jobDefinitionArn response) in
  ret (set_job_def (VStr job_def) b).

(** The values that [for x in v] goes through. *)
Definition iter_values (v : val) : outcome (list val) :=
  match v with
  | VList l => Ok l
  | VDict d => Ok (VStr <$> dict_keys d)
  | VStr s => Ok ((λ a, VStr (String a EmptyString)) <$> String.list_ascii_of_string s)
  | VInt _ => Raise (TypeError "'int' object is not iterable")
  | VNone => Raise (TypeError "'NoneType' object is not iterable")
  end.

(** [any(x["type"] == "GPU" for x in l)] *)
Fixpoint any_gpu (l : list val) : outcome bool :=
  match l with
  | [] => Ok false
  | x :: l' =>
      match getitem_str x "type" with
      | Raise e => Raise e
      | Ok ty => if val_eq_str ty "GPU" then Ok true else any_gpu l'
      end
  end.

Definition submit `{!PyLib} (b : t) (dump script image requirements : val)
    : M t :=
  let* w := get_world in
  let e := environ w in
  let* dump_ps := s3_put dump (prefix e b +:+ "/input.data") in
  let* container_props :=
    match requirements with
    | VDict r => ret (dict_merge DFLT_PROP r)
    | _ => raise (TypeError "object is not a mapping")
    end in
  let* reqs :=
    lift (iter_values
            (default (VList []) (dict_get container_props "resourceRequirements"))) in
  let* needs_gpu := lift (any_gpu reqs) in
  let* command :=
    match script with
    | VStr s => ret (VList [VStr "python3"; VStr "-c"; VStr (dedent_strip s)])
    | _ => raise (TypeError "expected string or bytes-like object")
    end in
  let* role := os_environ "BATCH_TASK_ROLE_ARN" BATCH_TASK_ROLE_ARN in
  let* b :=
    _create_job_def b ("fn-" +:+ cache_key b)
      (dict_merge
         [("image", image);
          ("command", command);
          ("environment",
           VList [VDict [("name", VStr "DML_INPUT"); ("value", VStr dump_ps)];
                  VDict [("name", VStr "DML_OUTPUT");
                         ("value", VStr ("s3://" +:+ S3_BUCKET e +:+ "/"
                                           +:+ result_key e b))]]);
          ("jobRoleArn", VStr role)]
         container_props) in
  let* queue :=
    if needs_gpu : bool then os_environ "GPU_QUEUE" GPU_QUEUE
    else os_environ "CPU_QUEUE" CPU_QUEUE in
  let* response :=
    client_call b (SubmitJob ("fn-" +:+ cache_key b) queue (job_def b))
      submit_job in
  getitem "jobId" response ;;;
  let* job_id := getitem "jobId" response in
  ret (set_status (VStr "submitted") (set_job_id (VStr job_id) b)).

(** [update] returns the message and leaves the polled status in the
    object. *)
Definition update `{!PyLib} (b : t) : M (string * t) :=
  let* response := client_call b (DescribeJobs (job_id b)) describe_jobs in
  let* job := lift (first_item response) in
  let* st := getitem "status" (jd_status job) in
  let b := set_status (VStr st) b in
  if String.eqb st SUCCESS_STATE then
    ret ("Job " +:+ py_str (job_id b) +:+ " succeeded.", b)
  else if String.eqb st FAILED_STATE then
    let* last_attempt :=
      lift (last_item (default [{| container := None |}] (attempts job))) in
    let failure_reason :=
      default "Unknown failure reason"
        (reason (default {| reason := None |} (container last_attempt))) in
    let status_reason :=
      default "No additional status reason provided." (statusReason job) in
    ret (json_dumps
           (VDict [("job_id", job_id b);
                   ("cache_key", VStr (cache_key b));
                   ("failure_reason", VStr failure_reason);
                   ("status_reason", VStr status_reason)]), b)
  else
    ret ("Job " +:+ py_str (job_id b) +:+ " is processing with status: "
           +:+ st, b).

Definition gc (b : t) : M () :=
  catch
    (client_call b (DeregisterJobDefinition (job_def b))
       deregister_job_definition)
    (λ e, match e with
          | ClientError code msg _ =>
              if negb (String.eqb code "ClientException") then raise e
              else if negb (str_contains "DEREGISTERED" msg) then raise e
              else ret ()
          | _ => raise e
          end).

Definition state_dict (b : t) : val :=
  VDict [("job_id", job_id b); ("job_def", job_def b); ("status", status b)].

End Batch.

(** ** The handler *)

(** The invocation event.  A field is [None] when the key is missing from
    the event; every value of [kwargs] is a list. *)
Record Event : Type := {
  ev_cache_key : option string;
  ev_dump : option val;
  ev_kwargs : option (list (string * list val));
}.

Definition response (status : Z) (message : string) (dump : val) : val :=
  VDict [("status", VInt status); ("message", VStr message); ("dump", dump)].

(** [v > n] and [v += 1] on a dynamically typed counter. *)
Definition py_gt (v : val) (n : Z) : outcome bool :=
  match v with
  | VInt m => Ok (Z.ltb n m)
  | _ => Raise (TypeError "'>' not supported between instances")
  end.

Definition py_incr (v : val) : outcome val :=
  match v with
  | VInt m => Ok (VInt (m + 1))
  | _ => Raise (TypeError "unsupported operand type(s) for +=")
  end.

(** Returns the response together with the [batch] object as the call
    leaves it, since [batch.iters += 1] mutates the caller's object. *)
Definition success_pipeline (dynamo : Dynamo.t) (batch : Batch.t)
    : M (val * Batch.t) :=
  (if val_eq_int (Batch.iters batch) 0 then Batch.gc batch else ret ()) ;;;
  let* w := get_world in
  let* dump := s3_get (Batch.result_key (environ w) batch) in
  match dump with
  | None =>
      let* over := lift (py_gt (Batch.iters batch) MAX_ITERS) in
      if over : bool then
        ret (response 422 "task failed to write output" VNone, batch)
      else
        let* n := lift (py_incr (Batch.iters batch)) in
        let batch := Batch.set_iters n batch in
        Dynamo.put dynamo (Batch.state_dict batch) ;;;
        ret (response 204 "waiting for task to write output" VNone, batch)
  | Some d => ret (response 200 "Job finished" (VStr d), batch)
  end.

(** [{k: v[-1] for k, v in items}] *)
Fixpoint last_of_each (items : list (string * list val))
    (kw : list (string * val)) : outcome (list (string * val)) :=
  match items with
  | [] => Ok kw
  | (k, v) :: rest =>
      match last_item v with
      | Ok x => last_of_each rest (dict_set kw k x)
      | Raise e => Raise e
      end
  end.

(** The interpreter's text for parameters left without a value. *)
Definition missing_arguments (names : list string) : string :=
  match names with
  | [a] => "missing 1 required positional argument: '" +:+ a +:+ "'"
  | [a; b] =>
      "missing 2 required positional arguments: '" +:+ a +:+ "' and '"
        +:+ b +:+ "'"
  | _ =>
      "missing " +:+ pretty (length names)
        +:+ " required positional arguments: "
        +:+ (fix items (l : list string) : string :=
               match l with
               | [] => ""
               | [a] => "and '" +:+ a +:+ "'"
               | a :: l' => "'" +:+ a +:+ "', " +:+ items l'
               end) names
  end.

(** Binding [**kw] to the parameters [script], [image] and
    [requirements] of [Batch.submit], next to the explicit [dump=].  In
    the text for a repeated [dump] the interpreter puts the name of the
    module before [Batch.submit()]; that name depends on how the file is
    loaded and is left out. *)
Definition submit_kwargs (kw : list (string * val)) : outcome (val * val * val) :=
  match dict_get kw "dump" with
  | Some _ =>
      Raise (TypeError "Batch.submit() got multiple values for keyword argument 'dump'")
  | None =>
      match filter (λ k, k ∉ ["script"; "image"; "requirements"]) (dict_keys kw) with
      | k :: _ =>
          Raise (TypeError ("Batch.submit() got an unexpected keyword argument '"
                              +:+ k +:+ "'"))
      | [] =>
          match dict_get kw "script", dict_get kw "image",
                dict_get kw "requirements" with
          | Some script, Some image, Some requirements =>
              Ok (script, image, requirements)
          | _, _, _ =>
              Raise (TypeError
                       ("Batch.submit() " +:+
                        missing_arguments
                          (List.filter
                             (λ k, match dict_get kw k with
                                   | None => true
                                   | Some _ => false
                                   end)
                             ["script"; "image"; "requirements"])))
          end
      end
  end.

Definition is_none (v : val) : bool :=
  match v with VNone => true | _ => false end.

(** [bool(os.getenv(...))] *)
Definition env_flag (o : option string) : bool :=
  match o with
  | Some s => negb (String.eqb s "")
  | None => false
  end.

(** Lines 300-314: no status yet, the job is submitted. *)
Definition submit_branch `{!PyLib} (dynamo : Dynamo.t) (event : Event)
    (batch : Batch.t) : M val :=
  let* kwargs := getitem "kwargs" (ev_kwargs event) in
  let* kw := lift (last_of_each kwargs []) in
  let kw :=
    match dict_get kw "requirements" with
    | None => dict_set kw "requirements" (VDict [])
    | Some _ => kw
    end in
  let* dump := getitem "dump" (ev_dump event) in
  let* args := lift (submit_kwargs kw) in
  let '(script, image, requirements) := args in
  let* batch := Batch.submit batch dump script image requirements in
  Dynamo.put dynamo (Batch.state_dict batch) ;;;
  ret (response 201 "job created and submitted" VNone).

(** Lines 323-324: [if DELETE_DYNAMO_ON_FAIL: dynamo.delete()] *)
Definition delete_on_fail (dynamo : Dynamo.t) : M () :=
  let* w := get_world in
  if env_flag (DELETE_DYNAMO_ON_FAIL (environ w))
  then Dynamo.delete dynamo else ret ().

(** Lines 315-326: the job has a status. *)
Definition poll_branch `{!PyLib} (dynamo : Dynamo.t) (batch : Batch.t) : M val :=
  if val_eq_str (Batch.status batch) SUCCESS_STATE then
    let* r := success_pipeline dynamo batch in
    ret r.1
  else
    let* r := Batch.update batch in
    let '(msg, batch) := r in
    Dynamo.put dynamo (Batch.state_dict batch) ;;;
    if existsb (val_eq_str (Batch.status batch)) PENDING_STATES then
      Dynamo.put dynamo (Batch.state_dict batch) ;;;
      ret (response 202 msg VNone)
    else if val_eq_str (Batch.status batch) FAILED_STATE then
      delete_on_fail dynamo ;;;
      ret (response 400 msg VNone)
    else
      let* r := success_pipeline dynamo batch in
      ret r.1.

(** The body of the [try] block, lines 296-326. *)
Definition handler_body `{!PyLib} (dynamo : Dynamo.t) (event : Event) : M val :=
  let* stored := Dynamo.get dynamo in
  let info := if truthy stored then stored else VDict [] in
  let* cache_key := getitem "cache_key" (ev_cache_key event) in
  let* batch := lift (Batch.init cache_key info) in
  if is_none (Batch.status batch)
  then submit_branch dynamo event batch
  else poll_branch dynamo batch.

(** [run_id] is the identifier that [Dynamo(...)] draws for this
    invocation. *)
Definition handler `{!PyLib} (run_id : string) (event : Event) : M val :=
  let* cache_key := getitem "cache_key" (ev_cache_key event) in
  let dynamo := {| Dynamo.cache_key := cache_key; Dynamo.run_id := run_id |} in
  let* locked := Dynamo.lock dynamo None in
  if negb locked then
    ret (VDict [("status", VInt 204);
                ("message", VStr "Could not acquire job lock")])
  else
    finally
      (catch (handler_body dynamo event)
         (λ e, ret (response 400 (exn_str e) VNone)))
      (Dynamo.unlock dynamo None).

(** Lines 293-330 with the three steps of the invocation left open: the
    lock attempt, the guarded body and the release.  Any of them may
    raise; [handler] is this with the calls of its [Dynamo] object. *)
Definition handler_with (lock : M bool) (body : M val) (unlock : M bool)
    : M val :=
  let* locked := lock in
  if negb locked then
    ret (VDict [("status", VInt 204);
                ("message", VStr "Could not acquire job lock")])
  else
    finally (catch body (λ e, ret (response 400 (exn_str e) VNone))) unlock.

(** The rest of an invocation from line 300 on, once the lock is taken
    and the [Batch] object is built. *)
Definition resume `{!PyLib} (dynamo : Dynamo.t) (event : Event)
    (batch : Batch.t) : M val :=
  finally
    (catch (if is_none (Batch.status batch)
            then submit_branch dynamo event batch
            else poll_branch dynamo batch)
       (λ e, ret (response 400 (exn_str e) VNone)))
    (Dynamo.unlock dynamo None).

(** ** Sequences of invocations *)

(** Between two invocations the outside world moves: time passes and
    jobs write objects to the bucket.  The table is only written by the
    handler. *)
Inductive step : Type :=
  | Invoke (run_id : string) (event : Event)
  | Outside (time : Z) (objects : gmap string string).

Definition set_outside (time : Z) (objects : gmap string string) (w : World)
    : World :=
  {| environ := environ w; table := table w; bucket := objects;
     clock := time; batch_api := batch_api w; trace := trace w |}.

(** Runs the steps in order and collects, for each invocation, its event
    and what the handler gave back. *)
Fixpoint run `{!PyLib} (steps : list step) (w : World)
    : list (Event * outcome val) * World :=
  match steps with
  | [] => ([], w)
  | Invoke run_id event :: rest =>
      let '(r, w1) := handler run_id event w in
      let '(rs, w2) := run rest w1 in
      ((event, r) :: rs, w2)
  | Outside time objects :: rest => run rest (set_outside time objects w)
  end.

(** The invocation completed the submission branch: it answered 201. *)
Definition created (ck : string) (r : Event * outcome val) : bool :=
  match ev_cache_key r.1, r.2 with
  | Some ck', Ok (VDict d) =>
      String.eqb ck' ck &&
      match dict_get d "status" with
      | Some v => val_eq_int v 201
      | None => false
      end
  | _, _ => false
  end.

Definition is_submit_job (ck : string) (c : Call) : bool :=
  match c with
  | SubmitJob name _ _ => String.eqb name ("fn-" +:+ ck)
  | _ => false
  end.

Definition is_deregister (c : Call) : bool :=
  match c with
  | DeregisterJobDefinition _ => true
  | _ => false
  end.

(** The state blobs written to the table by the calls of a trace. *)
Definition blob_of (a : action) : option val :=
  match a with
  | SET_obj v => Some v
  | _ => None
  end.

Definition blobs_written (c : Call) : list val :=
  match c with
  | UpdateItem _ _ acts => omap blob_of acts
  | _ => []
  end.

(** The stored state of a cache key, if any. *)
Definition stored (w : World) (ck : string) : option val :=
  table w !! ck ≫= obj.

(** ** The lease condition in the words of the specification *)

(** A lock call by [owner] at time [now] may take the row when no lock
    owner is recorded, or the recorded owner is [owner], or the recorded
    update time is older than [now - TIMEOUT]. *)
Definition lease_available (owner : string) (now : Z) (item : option Row)
    : Prop :=
  item ≫= lock_key = None ∨
  item ≫= lock_key = Some owner ∨
  match item ≫= update_time with
  | Some t => t < now - TIMEOUT
  | None => False
  end.

Global Instance lease_available_dec owner now item :
  Decision (lease_available owner now item).
Proof.
  unfold lease_available. destruct (item ≫= update_time); apply _.
Defined.

(** The row as a successful [lock] leaves it. *)
Definition locked_row (owner : string) (now : Z) (item : option Row) : Row :=
  {| lock_key := Some owner; update_time := Some now; obj := item ≫= obj |}.

Definition lock_call (d : Dynamo.t) (key : string) (now : Z) : Call :=
  UpdateItem key (Dynamo.lease_cond d now)
    [SET_lk (Dynamo.run_id d); SET_ut now].

Definition unlock_call (d : Dynamo.t) (key : string) (now : Z) : Call :=
  UpdateItem key (lk_eq (Dynamo.run_id d)) [REMOVE_lk; SET_ut now].

Definition put_call (d : Dynamo.t) (now : Z) (o : val) : Call :=
  UpdateItem (Dynamo.cache_key d) (Dynamo.lease_cond d now)
    [SET_lk (Dynamo.run_id d); SET_ut now; SET_obj o].

(** ** Reasoning about every run *)

(** What a call does to the world: it is logged, and the three writing
    calls change the table or the bucket. *)
Definition effect (c : Call) (w : World) : World :=
  log c
    match c with
    | UpdateItem k cnd acts =>
        if eval_cond cnd (table w !! k)
        then set_table
               (<[k := foldl apply_action (default empty_row (table w !! k)) acts]>
                  (table w)) w
        else w
    | DeleteItem k cnd =>
        if eval_cond cnd (table w !! k)
        then set_table (delete k (table w)) w else w
    | PutObject k body => set_bucket (<[k := body]> (bucket w)) w
    | _ => w
    end.

(** [spec R m Q]: from any world, [m] ends in a world related to it by
    [R], whatever the outcome, and a returned value satisfies [Q]. *)
Definition spec (R : relation World) {A} (m : M A) (Q : A → Prop) : Prop :=
  ∀ w, R w (m w).2 ∧ ∀ a, (m w).1 = Ok a → Q a.

Definition stable (R : relation World) {A} (m : M A) : Prop :=
  spec R m (λ _, True).

(** [R] is kept by every call that [okc] allows. *)
Record closed (R : relation World) (okc : Call → Prop) : Prop := {
  closed_preorder : PreOrder R;
  closed_effect c w : okc c → R w (effect c w);
}.

(** The calls that the parts of the engine can make. *)
Inductive lease_call (d : Dynamo.t) : Call → Prop :=
  | lease_lock t : lease_call d (lock_call d (Dynamo.cache_key d) t)
  | lease_unlock t : lease_call d (unlock_call d (Dynamo.cache_key d) t)
  | lease_get : lease_call d (GetItem (Dynamo.cache_key d)).

Inductive delete_call (d : Dynamo.t) : Call → Prop :=
  | delete_row t :
      delete_call d (DeleteItem (Dynamo.cache_key d) (Dynamo.lease_cond d t)).

(** The object has a string as its status. *)
Definition has_status (b : Batch.t) : Prop := ∃ s, Batch.status b = VStr s.

Inductive poll_call : Call → Prop :=
  | poll_head k : poll_call (HeadObject k)
  | poll_get k : poll_call (GetObject k)
  | poll_describe j : poll_call (DescribeJobs j)
  | poll_deregister j : poll_call (DeregisterJobDefinition j).

Inductive submit_call : Call → Prop :=
  | submit_put k body : submit_call (PutObject k body)
  | submit_register n p : submit_call (RegisterJobDefinition n p)
  | submit_submit n q j : submit_call (SubmitJob n q j).

Inductive put_state_call (d : Dynamo.t) (P : Batch.t → Prop) : Call → Prop :=
  | put_state t b : P b → put_state_call d P (put_call d t (Batch.state_dict b)).

Definition engine_call (d : Dynamo.t) (c : Call) : Prop :=
  lease_call d c ∨ delete_call d c ∨ poll_call c ∨ submit_call c ∨
  put_state_call d has_status c.

(** The trace grows by calls that all satisfy [P]. *)
Definition extends (P : Call → Prop) (w w' : World) : Prop :=
  ∃ delta, trace w' = delta ++ trace w ∧ Forall P delta.

(** Everything but the table, the bucket and the trace stays. *)
Definition same_setting (w w' : World) : Prop :=
  clock w' = clock w ∧ environ w' = environ w ∧ batch_api w' = batch_api w.

(** The row of [k] stays. *)
Definition same_row (k : string) (w w' : World) : Prop :=
  table w' !! k = table w !! k.

Definition same_table (w w' : World) : Prop := table w' = table w.

(** The call does not write the row of [k]. *)
Definition off_row (k : string) (c : Call) : Prop :=
  match c with
  | UpdateItem k' _ _ | DeleteItem k' _ => k' ≠ k
  | _ => True
  end.

Definition no_table_write (c : Call) : Prop :=
  match c with
  | UpdateItem _ _ _ | DeleteItem _ _ => False
  | _ => True
  end.

(** A response of the handler other than "created". *)
Definition not_created (r : val) : Prop :=
  ∃ st msg dump, r = response st msg dump ∧ st ≠ 201.

(** A JSON object with exactly the keys [job_id], [job_def], [status]. *)
Definition is_state_blob (v : val) : Prop :=
  ∃ d, v = VDict d ∧ dict_keys d = ["job_id"; "job_def"; "status"].

(** The call writes no state, or a state of that shape. *)
Definition writes_state_blobs (c : Call) : Prop :=
  Forall is_state_blob (blobs_written c).

(** The worlds that a successful [lock] and a successful [unlock] of the
    row of [d] lead to. *)
Definition after_lock (d : Dynamo.t) (w : World) : World :=
  let k := Dynamo.cache_key d in
  set_table (<[k := locked_row (Dynamo.run_id d) (clock w) (table w !! k)]>
               (table w))
    (log (lock_call d k (clock w)) w).

Definition after_unlock (d : Dynamo.t) (w : World) : World :=
  let k := Dynamo.cache_key d in
  set_table
    (<[k := {| lock_key := None; update_time := Some (clock w);
               obj := table w !! k ≫= obj |}]> (table w))
    (log (unlock_call d k (clock w)) w).

Definition after_put (d : Dynamo.t) (o : val) (w : World) : World :=
  let k := Dynamo.cache_key d in
  set_table
    (<[k := {| lock_key := Some (Dynamo.run_id d);
               update_time := Some (clock w); obj := Some o |}]> (table w))
    (log (put_call d (clock w) o) w).

(** The [except] and [finally] clauses applied to what the body did. *)
Definition finish (d : Dynamo.t) (body : outcome val * World)
    : outcome val * World :=
  (Ok match body.1 with
      | Ok r => r
      | Raise e => response 400 (exn_str e) VNone
      end,
   (Dynamo.unlock d None body.2).2).

(** The row of [d] is held by [d]. *)
Definition holds_lease (d : Dynamo.t) (w : World) : Prop :=
  table w !! Dynamo.cache_key d ≫= lock_key = Some (Dynamo.run_id d).

(** How many calls of a trace satisfy [f]. *)
Definition count_calls (f : Call → bool) (tr : list Call) : nat :=
  length (List.filter f tr).

(** The [Batch] object that an invocation builds from the stored state
    of [ck]: [Batch(cache_key, **(dynamo.get() or {}))]. *)
Definition load (ck : string) (w : World) : outcome Batch.t :=
  let state := default VNone (stored w ck) in
  Batch.init ck (if truthy state then state else VDict []).

(** The state of a job that has a status. *)
Definition job_state (v : val) : Prop :=
  ∃ b, v = Batch.state_dict b ∧ has_status b.

(** The table holds the state of a job with a status for [ck]. *)
Definition has_job (ck : string) (w : World) : Prop :=
  ∃ v, stored w ck = Some v ∧ job_state v.

(** While cleanup on failure is off, the environment stays and a job
    recorded for [ck] stays recorded. *)
Definition keeps_job (ck : string) (w w' : World) : Prop :=
  env_flag (DELETE_DYNAMO_ON_FAIL (environ w)) = false →
  environ w' = environ w ∧ (has_job ck w → has_job ck w').

(** The call neither deletes the row of [ck] nor writes anything but a
    job state with a status. *)
Definition job_safe (ck : string) (c : Call) : Prop :=
  match c with
  | DeleteItem k _ => k ≠ ck
  | _ => Forall job_state (blobs_written c)
  end.

Definition no_submission (c : Call) : Prop := ¬ submit_call c.

(** ** A small deployment to run the handler on *)

Definition quote : string := String (Ascii.ascii_of_nat 34) EmptyString.

(** Compact JSON text of a value, without escaping inside strings. *)
Fixpoint json_text (v : val) : string :=
  match v with
  | VNone => "null"
  | VInt n => pretty n
  | VStr s => quote +:+ s +:+ quote
  | VList l =>
      "[" +:+
      (fix items (l : list val) : string :=
         match l with
         | [] => ""
         | [x] => json_text x
         | x :: l' => json_text x +:+ "," +:+ items l'
         end) l +:+ "]"
  | VDict d =>
      "{" +:+
      (fix items (d : list (string * val)) : string :=
         match d with
         | [] => ""
         | [(k, x)] => quote +:+ k +:+ quote +:+ ":" +:+ json_text x
         | (k, x) :: d' =>
             quote +:+ k +:+ quote +:+ ":" +:+ json_text x +:+ "," +:+ items d'
         end) d +:+ "}"
  end.

Definition example_lib : PyLib :=
  {| json_dumps := json_text; dedent_strip := λ s, s; py_repr := json_text |}.

Definition example_environ (delete_on_fail : option string) : Environ :=
  {| S3_BUCKET := "jobs"; S3_PREFIX := None;
     DELETE_DYNAMO_ON_FAIL := delete_on_fail;
     BATCH_TASK_ROLE_ARN := Some "arn:role/task";
     GPU_QUEUE := Some "gpu-queue"; CPU_QUEUE := Some "cpu-queue" |}.

(** A compute service that accepts everything and reports every job in
    the given status. *)
Definition example_api (status : string) : BatchApi :=
  {| register_job_definition := λ _,
       Ok {| jobDefinitionName := Some "fn-k1";
             jobDefinitionArn := Some "arn:job-definition/fn-k1:1" |};
     submit_job := λ _, Ok (Some "job-1");
     describe_jobs := λ _,
       Ok [{| jd_status := Some status; attempts := None;
              statusReason := None |}];
     deregister_job_definition := λ _, Ok () |}.

(** A compute service whose first [submit_job] is throttled. *)
Definition throttled_api : BatchApi :=
  {| register_job_definition := register_job_definition (example_api "RUNNING");
     submit_job := λ history,
       if decide (count_calls (is_submit_job "k1") history = 1%nat)
       then Raise (ClientError "TooManyRequestsException" "Too Many Requests"
                     "SubmitJob")
       else Ok (Some "job-1");
     describe_jobs := describe_jobs (example_api "RUNNING");
     deregister_job_definition :=
       deregister_job_definition (example_api "RUNNING") |}.

Definition example_world (delete_on_fail : option string) (status : string)
    (rows : gmap string Row) (objects : gmap string string) (time : Z)
    : World :=
  {| environ := example_environ delete_on_fail; table := rows;
     bucket := objects; clock := time; batch_api := example_api status;
     trace := [] |}.

Definition example_event : Event :=
  {| ev_cache_key := Some "k1"; ev_dump := Some (VStr "payload");
     ev_kwargs := Some [("script", [VStr "print(1)"]);
                        ("image", [VStr "python:3"])] |}.

(** The state that the engine stores for job "job-1" of "k1". *)
Definition example_state (status : string) : val :=
  VDict [("job_id", VStr "job-1");
         ("job_def", VStr "arn:job-definition/fn-k1:1");
         ("status", VStr status)].

(** A row whose lease was last taken by [owner] at time [t]. *)
Definition example_row (owner : option string) (t : Z) (o : option val) : Row :=
  {| lock_key := owner; update_time := Some t; obj := o |}.

Definition example_dynamo (run_id : string) : Dynamo.t :=
  {| Dynamo.cache_key := "k1"; Dynamo.run_id := run_id |}.

(** ** The answers of the handler *)

(** A response whose status is one of [codes] and which carries a dump
    exactly when the status is 200. *)
Definition answer_of (codes : list Z) (r : val) : Prop :=
  ∃ st msg dump, r = response st msg dump ∧ st ∈ codes ∧
    if Z.eqb st 200 then ∃ body, dump = VStr body else dump = VNone.

(** The relation that holds between any two worlds. *)
Definition any_world : relation World := λ _ _, True.

(** ** Cleanup of the job definition *)

(** The answers of [deregister_job_definition] that [gc] lets pass: a
    success, or a [ClientException] whose message says that the
    definition is already DEREGISTERED. *)
Definition tolerated (o : outcome ()) : Prop :=
  o = Ok () ∨
  ∃ msg op, o = Raise (ClientError "ClientException" msg op) ∧
            str_contains "DEREGISTERED" msg = true.

(** The [Batch] object of a stored state with the three persisted
    fields. *)
Definition loaded (ck : string) (j jd st : val) : Batch.t :=
  {| Batch.cache_key := ck; Batch.job_id := j; Batch.job_def := jd;
     Batch.status := st; Batch.iters := VInt 0; Batch.client := None |}.

(** The world after a successful [delete] of the row of [d]. *)
Definition after_delete (d : Dynamo.t) (w : World) : World :=
  let k := Dynamo.cache_key d in
  set_table (delete k (table w))
    (log (DeleteItem k (Dynamo.lease_cond d (clock w))) w).

(** ** The submission, step by step *)

(** Where [submit] uploads the input. *)
Definition input_key (e : Environ) (b : Batch.t) : string :=
  Batch.prefix e b +:+ "/input.data".

(** The [containerProperties] that [submit] registers. *)
Definition job_properties `{!PyLib} (e : Environ) (b : Batch.t)
    (script : string) (image : val) (role : string)
    (requirements : list (string * val)) : list (string * val) :=
  dict_merge
    [("image", image);
     ("command", VList [VStr "python3"; VStr "-c"; VStr (dedent_strip script)]);
     ("environment",
      VList [VDict [("name", VStr "DML_INPUT");
                    ("value", VStr ("s3://" +:+ S3_BUCKET e +:+ "/"
                                      +:+ input_key e b))];
             VDict [("name", VStr "DML_OUTPUT");
                    ("value", VStr ("s3://" +:+ S3_BUCKET e +:+ "/"
                                      +:+ Batch.result_key e b))]]);
     ("jobRoleArn", VStr role)]
    (dict_merge DFLT_PROP requirements).

(** [x["type"] == "GPU"] on an entry that has a type. *)
Definition is_gpu (x : val) : bool :=
  match getitem_str x "type" with
  | Ok ty => val_eq_str ty "GPU"
  | Raise _ => false
  end.

(** The world after the upload, the registration under [arn] and the
    call of [submit_job] on [queue]. *)
Definition after_submit `{!PyLib} (b : Batch.t) (body script : string)
    (image : val) (requirements : list (string * val))
    (role queue arn : string) (w : World) : World :=
  let e := environ w in
  let name := "fn-" +:+ Batch.cache_key b in
  log (SubmitJob name queue (VStr arn))
    (log (RegisterJobDefinition name
            (job_properties e b script image role requirements))
       (set_bucket (<[input_key e b := body]> (bucket w))
          (log (PutObject (input_key e b) body) w))).

(** Lines 302-306: the arguments that the event gives to [submit]
    besides the dump. *)
Definition submit_arguments (kwargs : list (string * list val))
    : outcome (val * val * val) :=
  match last_of_each kwargs [] with
  | Ok kw =>
      submit_kwargs
        match dict_get kw "requirements" with
        | None => dict_set kw "requirements" (VDict [])
        | Some _ => kw
        end
  | Raise e => Raise e
  end.

(** * aws-batch/batch_dag.py: the deployment of the stack

    The tool talks to CloudFormation only.  Its progress line on the
    terminal is left out, and the two files it reads (the handler's
    source and the stack template) are taken to be in place: [template]
    stands for the template body built from them. *)

Module batch_dag.

(** What CloudFormation returns. *)
Record Output : Type := {
  OutputKey : option string;
  OutputValue : option string;
}.

Record Stack : Type := {
  StackStatus : option string;
  StackId : option string;
  Outputs : option (list Output);
}.

Record StackEvent : Type := { ResourceStatusReason : option string }.

(** The calls of the tool and its waits, newest first in a history. *)
Inductive CfnCall : Type :=
  | DescribeStacks (name : string)
  | DescribeStackEvents (name : string)
  | CreateStack (name template : string)
  | UpdateStack (name template : string)
  | Sleep (seconds : Z).

(** CloudFormation: each operation answers from the calls made so far,
    the current one first. *)
Record CloudFormation : Type := {
  describe_stacks : list CfnCall → outcome (list Stack);
  describe_stack_events : list CfnCall → outcome (list StackEvent);
  create_stack : list CfnCall → outcome ();
  update_stack : list CfnCall → outcome ();
}.

(** [s.endswith(suffix)] *)
Fixpoint str_ends_with (suffix s : string) : bool :=
  String.eqb suffix s ||
  match s with
  | EmptyString => false
  | String _ rest => str_ends_with suffix rest
  end.

(** [{o["OutputKey"]: o["OutputValue"] for o in outputs}] *)
Fixpoint outputs_dict (outputs : list Output) (acc : list (string * val))
    : outcome (list (string * val)) :=
  match outputs with
  | [] => Ok acc
  | o :: rest =>
      match OutputKey o, OutputValue o with
      | None, _ => Raise (KeyError "OutputKey")
      | Some _, None => Raise (KeyError "OutputValue")
      | Some k, Some v => outputs_dict rest (dict_set acc k (VStr v))
      end
  end.

(** The two lists of statuses in [describe_stack]. *)
Definition COMPLETE : list string := ["CREATE_COMPLETE"; "UPDATE_COMPLETE"].
Definition FAILED : list string :=
  ["ROLLBACK_COMPLETE"; "ROLLBACK_FAILED"; "CREATE_FAILED"; "DELETE_FAILED"].

Definition creating : val := VDict [("status", VStr "creating")].

(** Returns [VNone] for Python's [None]. *)
Definition describe_stack (client : CloudFormation) (name : string)
    (h : list CfnCall) : outcome val * list CfnCall :=
  let h1 := DescribeStacks name :: h in
  match describe_stacks client h1 with
  | Raise e =>
      match e with
      | ClientError _ _ _ =>
          if str_contains "does not exist" (exn_str e)
          then (Ok VNone, h1) else (Raise e, h1)
      | _ => (Raise e, h1)
      end
  | Ok stacks =>
      match first_item stacks with
      | Raise e => (Raise e, h1)
      | Ok stack =>
          match StackStatus stack with
          | None => (Raise (KeyError "StackStatus"), h1)
          | Some status =>
              if bool_decide (status ∈ COMPLETE) then
                match StackId stack with
                | None => (Raise (KeyError "StackId"), h1)
                | Some id =>
                    match outputs_dict (default [] (Outputs stack)) [] with
                    | Raise e => (Raise e, h1)
                    | Ok outputs =>
                        (Ok (VDict [("status", VStr "success");
                                    ("stack_id", VStr id);
                                    ("outputs", VDict outputs)]), h1)
                    end
                end
              else if bool_decide (status ∈ FAILED) then
                let h2 := DescribeStackEvents name :: h1 in
                match describe_stack_events client h2 with
                | Raise e => (Raise e, h2)
                | Ok events =>
                    (Ok (VDict [("status", VStr "failed");
                                ("error_reasons",
                                 VList (VStr <$> omap ResourceStatusReason
                                                   events))]), h2)
                end
              else (Ok creating, h1)
          end
      end
  end.

(** The [while] loop of [deploy], lines 81-88, run for at most [fuel]
    rounds: [None] when the loop is still going after them. *)
Fixpoint poll (client : CloudFormation) (name : string) (fuel : nat)
    (response : val) (h : list CfnCall)
    : option (outcome val * list CfnCall) :=
  match getitem_str response "status" with
  | Raise e => Some (Raise e, h)
  | Ok st =>
      if val_eq_str st "creating" then
        match fuel with
        | O => None
        | S fuel' =>
            match describe_stack client name (Sleep 10 :: h) with
            | (Ok r, h') => poll client name fuel' r h'
            | (Raise e, h') =>
                match e with
                | ClientError _ _ _ =>
                    Some (Ok (VDict [("status", VStr "error");
                                     ("message", VStr (exn_str e))]), h')
                | _ => Some (Raise e, h')
                end
            end
        end
      else Some (Ok response, h)
  end.

Definition deploy (client : CloudFormation) (template : string)
    (name : string) (update : bool) (fuel : nat) (h : list CfnCall)
    : option (outcome val * list CfnCall) :=
  match describe_stack client name h with
  | (Raise e, h1) => Some (Raise e, h1)
  | (Ok response, h1) =>
      if is_none response || update then
        let updating := update && negb (is_none response) in
        let h2 :=
          (if updating then UpdateStack name template
           else CreateStack name template) :: h1 in
        match (if updating then update_stack client h2
               else create_stack client h2) with
        | Ok _ => poll client name fuel creating h2
        | Raise e =>
            match e with
            | ClientError _ msg _ =>
                if str_ends_with "No updates are to be performed." msg
                   && negb (is_none response)
                then Some (Ok response, h2)
                else Some (Raise e, h2)
            | _ => Some (Raise e, h2)
            end
        end
      else poll client name fuel response h1
  end.

(** A CloudFormation that reports the stack in [status] at every call,
    with one output, and accepts every change. *)
Definition example_cloudformation (status : string) : CloudFormation :=
  {| describe_stacks := λ _,
       Ok [{| StackStatus := Some status; StackId := Some "arn:stack/dml-batch";
              Outputs := Some [{| OutputKey := Some "LambdaFunctionArn";
                                  OutputValue := Some "arn:lambda/fn" |}] |}];
     describe_stack_events := λ _, Ok [];
     create_stack := λ _, Ok ();
     update_stack := λ _, Ok () |}.

Definition is_change (c : CfnCall) : bool :=
  match c with
  | CreateStack _ _ | UpdateStack _ _ => true
  | _ => false
  end.

(** A CloudFormation without the stack: it accepts its creation and
    answers [after] to every description from then on. *)
Definition fresh_cloudformation (after : outcome (list Stack)) : CloudFormation :=
  {| describe_stacks := λ history,
       if existsb is_change history then after
       else Raise (ClientError "ValidationError"
                     "Stack with id dml-batch does not exist" "DescribeStacks");
     describe_stack_events := λ _, Ok [];
     create_stack := λ _, Ok ();
     update_stack := λ _, Ok () |}.

(** A CloudFormation whose stack is in [status] and needs no update. *)
Definition settled_cloudformation (status : string) : CloudFormation :=
  {| describe_stacks := describe_stacks (example_cloudformation status);
     describe_stack_events := λ _, Ok [];
     create_stack := λ _, Ok ();
     update_stack := λ _,
       Raise (ClientError "ValidationError" "No updates are to be performed."
                "UpdateStack") |}.

End batch_dag.

(** * Properties *)

(** ** The lease store *)

Lemma lease_cond_true (d : Dynamo.t) (now : Z) (item : option Row) :
  eval_cond (Dynamo.lease_cond d now) item = true
  ↔ lease_available (Dynamo.run_id d) now item.
Proof.
  unfold lease_available, Dynamo.lease_cond. cbn [eval_cond].
  rewrite !orb_true_iff.
  destruct (item ≫= lock_key) as [o|], (item ≫= update_time) as [t|];
    rewrite ?String.eqb_eq, ?Z.ltb_lt; intuition congruence.
Qed.

Lemma lease_cond_spec (d : Dynamo.t) (now : Z) (item : option Row) :
  eval_cond (Dynamo.lease_cond d now) item
  = bool_decide (lease_available (Dynamo.run_id d) now item).
Proof.
  destruct (eval_cond _ _) eqn:E; symmetry.
  - apply bool_decide_eq_true, lease_cond_true, E.
  - apply bool_decide_eq_false. rewrite <- lease_cond_true, E. done.
Qed.

Lemma lock_unfold (d : Dynamo.t) (key : option string) (w : World) :
  let k := Dynamo.key_or key d in
  Dynamo.lock d key w =
    if eval_cond (Dynamo.lease_cond d (clock w)) (table w !! k) then
      (Ok true,
       set_table (<[k := locked_row (Dynamo.run_id d) (clock w) (table w !! k)]>
                    (table w))
         (log (lock_call d k (clock w)) w))
    else (Ok false, log (lock_call d k (clock w)) w).
Proof.
  unfold Dynamo.lock, Dynamo._update, bind, catch, now, update_item, ret.
  cbn zeta. destruct (eval_cond _ _); [|done].
  do 2 f_equal. f_equal. unfold locked_row.
  destruct (table w !! Dynamo.key_or key d) as [r|]; done.
Qed.

(** C3. A [lock] call returns true, recording the caller as lock owner
    and the current time as update time, exactly when the row has no
    lock owner, or its owner is the caller, or its update time is older
    than now minus TIMEOUT (5 seconds); otherwise it returns false and
    the table is left as it was. *)
Theorem lock_succeeds_iff_lease_available
    (d : Dynamo.t) (key : option string) (w : World) :
  let k := Dynamo.key_or key d in
  let free := lease_available (Dynamo.run_id d) (clock w) (table w !! k) in
  TIMEOUT = 5 ∧
  ((Dynamo.lock d key w).1 = Ok true ↔ free) ∧
  ((Dynamo.lock d key w).1 = Ok false ↔ ¬ free) ∧
  table (Dynamo.lock d key w).2 =
    (if bool_decide free
     then <[k := locked_row (Dynamo.run_id d) (clock w) (table w !! k)]> (table w)
     else table w).
Proof.
  cbn zeta. rewrite lock_unfold. cbn zeta. rewrite lease_cond_spec.
  split; [done|].
  case_bool_decide as Hfree; cbn [fst snd]; repeat split; done.
Qed.

(** ** Rules for [spec] *)

Section rules.
Context (R : relation World) (okc : Call → Prop) (HR : closed R okc).

Local Instance rules_preorder : PreOrder R := closed_preorder R okc HR.

Lemma spec_ret {A} (a : A) (Q : A → Prop) : Q a → spec R (ret a) Q.
Proof. intros HQ w. split; [reflexivity|]. by intros ? [= <-]. Qed.

Lemma spec_raise {A} (e : exn) (Q : A → Prop) : spec R (raise e) Q.
Proof. intros w. split; [reflexivity|]. intros ? [=]. Qed.

Lemma spec_lift {A} (o : outcome A) (Q : A → Prop) :
  (∀ a, o = Ok a → Q a) → spec R (lift o) Q.
Proof. intros HQ w. split; [reflexivity|]. apply HQ. Qed.

Lemma stable_lift {A} (o : outcome A) : stable R (lift o).
Proof. by apply spec_lift. Qed.

Lemma spec_weaken {A} (m : M A) (Q Q' : A → Prop) :
  spec R m Q → (∀ a, Q a → Q' a) → spec R m Q'.
Proof. intros Hm HQ w. destruct (Hm w). split; auto. Qed.

Lemma spec_bind {A B} (m : M A) (k : A → M B) (Q : A → Prop) (Q' : B → Prop) :
  spec R m Q → (∀ a, Q a → spec R (k a) Q') → spec R (bind m k) Q'.
Proof.
  intros Hm Hk w. unfold bind. destruct (Hm w) as [HR1 HQ].
  destruct (m w) as [[a|e] w1]; cbn in *.
  - destruct (Hk a (HQ a eq_refl) w1) as [HR2 HQ'].
    split; [by etrans|done].
  - split; [done|]. intros ? [=].
Qed.

Lemma spec_catch {A} (m : M A) (h : exn → M A) (Q : A → Prop) :
  spec R m Q → (∀ e, spec R (h e) Q) → spec R (catch m h) Q.
Proof.
  intros Hm Hh w. unfold catch. destruct (Hm w) as [HR1 HQ].
  destruct (m w) as [[a|e] w1]; cbn in *; [done|].
  destruct (Hh e w1). split; [by etrans|done].
Qed.

Lemma spec_finally {A B} (m : M A) (f : M B) (Q : A → Prop) :
  spec R m Q → stable R f → spec R (finally m f) Q.
Proof.
  intros Hm Hf w. unfold finally. destruct (Hm w) as [HR1 HQ].
  destruct (m w) as [r w1]; cbn in *.
  destruct (Hf w1) as [HR2 _]. destruct (f w1) as [[b|e] w2]; cbn in *.
  - split; [by etrans|done].
  - split; [by etrans|]. intros ? [=].
Qed.

Lemma spec_if {A} (c : bool) (m1 m2 : M A) (Q : A → Prop) :
  spec R m1 Q → spec R m2 Q → spec R (if c then m1 else m2) Q.
Proof. by destruct c. Qed.

Lemma stable_get_world : stable R get_world.
Proof. intros w. split; [reflexivity|done]. Qed.

Lemma stable_now : stable R now.
Proof. intros w. split; [reflexivity|done]. Qed.

Lemma stable_os_environ name field : stable R (os_environ name field).
Proof.
  intros w. unfold os_environ. destruct (field _); split; (reflexivity || done).
Qed.

Lemma stable_getitem {A} key (o : option A) : stable R (getitem key o).
Proof. destruct o; [by apply spec_ret|apply spec_raise]. Qed.

(** The service operations: the world after them is the [effect] of
    their call. *)
Lemma stable_update_item k c acts :
  okc (UpdateItem k c acts) → stable R (update_item k c acts).
Proof.
  intros Hok w. split; [|done].
  pose proof (closed_effect R okc HR _ w Hok) as H.
  unfold update_item, effect in *. by destruct (eval_cond _ _).
Qed.

Lemma stable_delete_item k c :
  okc (DeleteItem k c) → stable R (delete_item k c).
Proof.
  intros Hok w. split; [|done].
  pose proof (closed_effect R okc HR _ w Hok) as H.
  unfold delete_item, effect in *. by destruct (eval_cond _ _).
Qed.

Lemma stable_get_item k : okc (GetItem k) → stable R (get_item k).
Proof. intros Hok w. split; [|done]. apply (closed_effect R okc HR _ w Hok). Qed.

Lemma stable_head_object k : okc (HeadObject k) → stable R (head_object k).
Proof.
  intros Hok w. split; [|done].
  pose proof (closed_effect R okc HR _ w Hok) as H.
  unfold head_object. by destruct (bucket w !! k).
Qed.

Lemma stable_get_object k : okc (GetObject k) → stable R (get_object k).
Proof.
  intros Hok w. split; [|done].
  pose proof (closed_effect R okc HR _ w Hok) as H.
  unfold get_object. by destruct (bucket w !! k).
Qed.

Lemma stable_put_object k body :
  okc (PutObject k body) → stable R (put_object k body).
Proof. intros Hok w. split; [|done]. apply (closed_effect R okc HR _ w Hok). Qed.

Lemma stable_batch_call {A} c (op : BatchApi → list Call → outcome A) :
  no_table_write c → (∀ k b, c ≠ PutObject k b) → okc c → stable R (batch_call c op).
Proof.
  intros Hc Hp Hok w. split; [|done].
  pose proof (closed_effect R okc HR _ w Hok) as H.
  unfold batch_call. cbn. destruct c; try done. by destruct (Hp key body).
Qed.
End rules.

(** ** The calls each function makes *)

Section footprints.
Context `{!PyLib} (R : relation World) (okc : Call → Prop) (HR : closed R okc).

Local Ltac step_with lem :=
  eapply (spec_bind R okc HR); [apply lem|intros ? _].
Local Ltac step_stable :=
  eapply (spec_bind R okc HR);
  [ first
      [ apply (stable_now R okc HR)
      | apply (stable_get_world R okc HR)
      | apply (stable_os_environ R okc HR)
      | apply (stable_getitem R okc HR)
      | apply (stable_lift R okc HR) ]
  | intros ? _ ].

Lemma stable__update d c acts :
  okc (UpdateItem (Dynamo.cache_key d) c acts) →
  stable R (Dynamo._update d None c acts).
Proof.
  intros Hok. apply (spec_catch R okc HR).
  - step_with (stable_update_item R okc HR); [done|]. by apply (spec_ret R okc HR).
  - intros [| | | | |code msg op]; try apply (spec_raise R okc HR).
    destruct (String.eqb _ _); [by apply (spec_ret R okc HR)|apply (spec_raise R okc HR)].
Qed.

Section dynamo.
Context (d : Dynamo.t) (Hl : ∀ c, lease_call d c → okc c).

Lemma stable_lock : stable R (Dynamo.lock d None).
Proof.
  eapply (spec_bind R okc HR); [apply (stable_now R okc HR)|intros t _].
  apply stable__update, Hl, lease_lock.
Qed.

Lemma stable_unlock : stable R (Dynamo.unlock d None).
Proof.
  eapply (spec_bind R okc HR); [apply (stable_now R okc HR)|intros t _].
  apply stable__update, Hl, lease_unlock.
Qed.

Lemma stable_get : stable R (Dynamo.get d).
Proof.
  step_with (stable_get_item R okc HR); [apply Hl, lease_get|].
  destruct a as [r|]; [|apply (spec_raise R okc HR)].
  destruct (obj r); by apply (spec_ret R okc HR).
Qed.

Lemma stable_delete :
  (∀ c, delete_call d c → okc c) → stable R (Dynamo.delete d).
Proof.
  intros Hd.
  eapply (spec_bind R okc HR); [apply (stable_now R okc HR)|intros t _].
  apply (stable_delete_item R okc HR), Hd, delete_row.
Qed.

Lemma stable_delete_on_fail :
  (∀ c, delete_call d c → okc c) → stable R (delete_on_fail d).
Proof.
  intros Hd. step_stable.
  apply (spec_if R); [by apply stable_delete|by apply (spec_ret R okc HR)].
Qed.

Lemma stable_put (P : Batch.t → Prop) (b : Batch.t) :
  (∀ c, put_state_call d P c → okc c) → P b →
  stable R (Dynamo.put d (Batch.state_dict b)).
Proof.
  intros Hput Hb.
  eapply (spec_bind R okc HR); [apply (stable_now R okc HR)|intros t _].
  apply stable__update, Hput. by constructor.
Qed.
End dynamo.

Section polling.
Context (Hp : ∀ c, poll_call c → okc c).

Lemma stable_s3_get key : stable R (s3_get key).
Proof.
  eapply (spec_bind R okc HR) with (Q := λ _, True).
  - apply (spec_catch R okc HR).
    + step_with (stable_head_object R okc HR); [apply Hp; constructor|].
      by apply (spec_ret R okc HR).
    + intros [| | | | |code msg op]; try apply (spec_raise R okc HR).
      destruct (String.eqb _ _); [by apply (spec_ret R okc HR)|apply (spec_raise R okc HR)].
  - intros [] _; [|by apply (spec_ret R okc HR)].
    step_with (stable_get_object R okc HR); [apply Hp; constructor|].
    by apply (spec_ret R okc HR).
Qed.

Lemma stable_client_call {A} b c (op : BatchApi → list Call → outcome A) :
  no_table_write c → (∀ k body, c ≠ PutObject k body) → okc c →
  stable R (Batch.client_call b c op).
Proof.
  intros. unfold Batch.client_call. destruct (Batch.client b).
  - apply (spec_raise R okc HR).
  - by apply (stable_batch_call R okc HR).
Qed.

Lemma stable_gc b : stable R (Batch.gc b).
Proof.
  apply (spec_catch R okc HR).
  - apply stable_client_call; [done..|apply Hp; constructor].
  - intros [| | | | |code msg op]; try apply (spec_raise R okc HR).
    destruct (negb _); [apply (spec_raise R okc HR)|].
    destruct (negb _); [apply (spec_raise R okc HR)|by apply (spec_ret R okc HR)].
Qed.

(** [update] only changes the status of the object, to a string. *)
Lemma spec_update b :
  spec R (Batch.update b) (λ r, ∃ st, r.2 = Batch.set_status (VStr st) b).
Proof.
  unfold Batch.update.
  step_with (stable_client_call (A := list JobDetail));
    [done..|apply Hp; constructor|].
  step_stable. step_stable.
  repeat (apply (spec_if R));
    try (apply (spec_ret R okc HR); by eexists).
  step_stable. apply (spec_ret R okc HR). by eexists.
Qed.
End polling.

Section submitting.
Context (Hs : ∀ c, submit_call c → okc c).

Lemma stable_s3_put data key : stable R (s3_put data key).
Proof.
  unfold s3_put. step_stable.
  eapply (spec_bind R okc HR) with (Q := λ _, True).
  { destruct data; (by apply (spec_ret R okc HR)) || apply (spec_raise R okc HR). }
  intros body _.
  step_with (stable_put_object R okc HR); [apply Hs; constructor|].
  by apply (spec_ret R okc HR).
Qed.

Lemma spec__create_job_def b name props :
  spec R (Batch._create_job_def b name props)
    (λ b', ∃ jd, b' = Batch.set_job_def (VStr jd) b).
Proof.
  unfold Batch._create_job_def.
  step_with (stable_client_call (A := RegisterResponse));
    [done| |done..|apply Hs; constructor|]; [done|].
  step_stable. step_stable. step_stable.
  apply (spec_ret R okc HR). by eexists.
Qed.

(** [submit] fills in the job definition and the job identifier and sets
    the status to "submitted". *)
Lemma spec_submit b dump script image requirements :
  spec R (Batch.submit b dump script image requirements)
    (λ b', ∃ j jd,
       b' = Batch.set_status (VStr "submitted")
              (Batch.set_job_id (VStr j) (Batch.set_job_def (VStr jd) b))).
Proof.
  unfold Batch.submit. step_stable.
  step_with stable_s3_put.
  eapply (spec_bind R okc HR) with (Q := λ _, True).
  { destruct requirements; (by apply (spec_ret R okc HR)) || apply (spec_raise R okc HR). }
  intros props _. step_stable. step_stable.
  eapply (spec_bind R okc HR) with (Q := λ _, True).
  { destruct script; (by apply (spec_ret R okc HR)) || apply (spec_raise R okc HR). }
  intros command _. step_stable.
  eapply (spec_bind R okc HR); [apply spec__create_job_def|].
  intros b1 [jd ->].
  eapply (spec_bind R okc HR) with (Q := λ _, True).
  { destruct a2; apply (stable_os_environ R okc HR). }
  intros queue _.
  step_with (stable_client_call (A := option string));
    [done| |done..|apply Hs; constructor|]; [done|].
  step_stable. step_stable.
  apply (spec_ret R okc HR). by eexists _, _.
Qed.
End submitting.
End footprints.

Lemma val_eq_str_true (v : val) (s : string) :
  val_eq_str v s = true → v = VStr s.
Proof.
  destruct v; try done. cbn. by intros ->%String.eqb_eq.
Qed.

Section engine.
Context `{!PyLib} (R : relation World) (okc : Call → Prop) (HR : closed R okc).
Context (d : Dynamo.t)
  (Hl : ∀ c, lease_call d c → okc c)
  (Hp : ∀ c, poll_call c → okc c)
  (Hs : ∀ c, submit_call c → okc c)
  (Hput : ∀ c, put_state_call d has_status c → okc c)
  (Hdel : stable R (delete_on_fail d)).

Local Ltac step_with lem :=
  eapply (spec_bind R okc HR); [apply lem|intros ? _].
Local Ltac step_stable :=
  eapply (spec_bind R okc HR);
  [ first
      [ apply (stable_now R okc HR)
      | apply (stable_get_world R okc HR)
      | apply (stable_getitem R okc HR)
      | apply (stable_lift R okc HR) ]
  | intros ? _ ].
Local Ltac answer := apply (spec_ret R okc HR); by eexists _, _, _.

Lemma spec_success_pipeline b :
  has_status b → spec R (success_pipeline d b) (λ r, not_created r.1).
Proof.
  intros Hb. unfold success_pipeline.
  eapply (spec_bind R okc HR) with (Q := λ _, True).
  { apply (spec_if R); [by apply (stable_gc R okc HR)|by apply (spec_ret R okc HR)]. }
  intros _ _. step_stable. step_with (stable_s3_get R okc HR Hp).
  destruct a0 as [body|]; [answer|].
  step_stable. destruct a0; [answer|]. step_stable.
  step_with (stable_put R okc HR d has_status); [done..|]. answer.
Qed.

Lemma spec_poll_branch b : spec R (poll_branch d b) not_created.
Proof.
  unfold poll_branch. destruct (val_eq_str _ _) eqn:Hst.
  - apply val_eq_str_true in Hst.
    eapply (spec_bind R okc HR); [apply spec_success_pipeline; by eexists|].
    intros r Hr. by apply (spec_ret R okc HR).
  - eapply (spec_bind R okc HR); [by apply (spec_update R okc HR)|].
    intros [msg b'] [st Hb']. cbn in Hb'. subst b'.
    step_with (stable_put R okc HR d has_status); [done|by eexists|].
    repeat apply (spec_if R).
    + step_with (stable_put R okc HR d has_status); [done|by eexists|]. answer.
    + step_with Hdel. answer.
    + eapply (spec_bind R okc HR); [apply spec_success_pipeline; by eexists|].
      intros r Hr. by apply (spec_ret R okc HR).
Qed.

Lemma spec_submit_branch ev b :
  spec R (submit_branch d ev b)
    (λ r, r = response 201 "job created and submitted" VNone).
Proof.
  unfold submit_branch. do 4 step_stable. destruct a2 as [[script image] reqs].
  eapply (spec_bind R okc HR); [by apply (spec_submit R okc HR)|].
  intros b' (j & jd & ->).
  step_with (stable_put R okc HR d has_status); [done|by eexists|].
  by apply (spec_ret R okc HR).
Qed.

Lemma stable_handler_body ev : stable R (handler_body d ev).
Proof.
  unfold handler_body. step_with (stable_get R okc HR d Hl).
  do 2 step_stable. apply (spec_if R).
  - eapply (spec_weaken R); [apply spec_submit_branch|done].
  - eapply (spec_weaken R); [apply spec_poll_branch|done].
Qed.
End engine.

(** Every call of an invocation is one of the engine's calls. *)
Lemma stable_handler `{!PyLib} (R : relation World) (okc : Call → Prop)
    (HR : closed R okc) (run_id : string) (ev : Event) :
  (∀ ck, ev_cache_key ev = Some ck →
     let d := {| Dynamo.cache_key := ck; Dynamo.run_id := run_id |} in
     (∀ c, lease_call d c → okc c) ∧
     (∀ c, put_state_call d has_status c → okc c) ∧
     stable R (delete_on_fail d) ∧
     (∀ c, poll_call c → okc c) ∧
     (∀ c, submit_call c → okc c)) →
  stable R (handler run_id ev).
Proof.
  intros Hd. unfold handler.
  destruct (ev_cache_key ev) as [ck|]; [|apply (spec_raise R okc HR)].
  destruct (Hd ck eq_refl) as (Hl & Hput & Hdel & Hp & Hs). cbn [getitem].
  eapply (spec_bind R okc HR) with (Q := λ a, a = ck);
    [by apply (spec_ret R okc HR)|]. intros ? ->.
  eapply (spec_bind R okc HR); [by apply (stable_lock R okc HR)|].
  intros locked _. apply (spec_if R); [by apply (spec_ret R okc HR)|].
  apply (spec_finally R okc HR); [|by apply (stable_unlock R okc HR)].
  apply (spec_catch R okc HR); [by apply (stable_handler_body R okc HR)|].
  intros e. by apply (spec_ret R okc HR).
Qed.

(** ** Relations kept by the calls *)

Lemma closed_same_setting : closed same_setting (λ _, True).
Proof.
  split.
  - split; [done|]. intros x y z (?&?&?) (?&?&?). repeat split; congruence.
  - intros c w _. unfold effect.
    destruct c; try done; by destruct (eval_cond _ _).
Qed.

Lemma closed_extends (P : Call → Prop) : closed (extends P) P.
Proof.
  split.
  - split.
    + intros w. by exists [].
    + intros x y z (d1 & E1 & F1) (d2 & E2 & F2). exists (d2 ++ d1). split.
      * by rewrite E2, E1, (assoc_L (++)).
      * by apply Forall_app.
  - intros c w Hc. exists [c]. split; [|by constructor].
    unfold effect.
    destruct c; try done; by destruct (eval_cond _ _).
Qed.

Lemma closed_same_row (k : string) : closed (same_row k) (off_row k).
Proof.
  split.
  - split; [done|]. unfold same_row. intros x y z H1 H2. congruence.
  - intros c w Hc. unfold effect, same_row.
    destruct c; try done; cbn in Hc; destruct (eval_cond _ _); try done; cbn.
    + by rewrite lookup_insert_ne.
    + by rewrite lookup_delete_ne.
Qed.

Lemma closed_same_table : closed same_table no_table_write.
Proof.
  split.
  - split; [done|]. unfold same_table. intros x y z H1 H2. congruence.
  - intros c w Hc. unfold effect, same_table. by destruct c.
Qed.

(** ** The lease operations, step by step *)

(** The row as [unlock] leaves it when the caller owned the lease. *)
Lemma unlock_unfold (d : Dynamo.t) (w : World) :
  let k := Dynamo.cache_key d in
  Dynamo.unlock d None w =
    if eval_cond (lk_eq (Dynamo.run_id d)) (table w !! k) then
      (Ok true,
       set_table
         (<[k := {| lock_key := None; update_time := Some (clock w);
                    obj := table w !! k ≫= obj |}]> (table w))
         (log (unlock_call d k (clock w)) w))
    else (Ok false, log (unlock_call d k (clock w)) w).
Proof.
  unfold Dynamo.unlock, Dynamo._update, bind, catch, now, update_item, ret.
  cbn. destruct (table w !! Dynamo.cache_key d) as [r|]; cbn; [|done].
  by destruct (lock_key r) as [o|]; cbn; [destruct (String.eqb o _)|].
Qed.

Lemma put_unfold (d : Dynamo.t) (o : val) (w : World) :
  let k := Dynamo.cache_key d in
  Dynamo.put d o w =
    if eval_cond (Dynamo.lease_cond d (clock w)) (table w !! k) then
      (Ok true,
       set_table
         (<[k := {| lock_key := Some (Dynamo.run_id d);
                    update_time := Some (clock w); obj := Some o |}]> (table w))
         (log (put_call d (clock w) o) w))
    else (Ok false, log (put_call d (clock w) o) w).
Proof.
  unfold Dynamo.put, Dynamo._update, bind, catch, now, update_item, ret.
  cbn zeta. fold (put_call d (clock w) o).
  by destruct (eval_cond _ _).
Qed.

Lemma get_unfold (d : Dynamo.t) (w : World) :
  Dynamo.get d w =
    (match table w !! Dynamo.cache_key d with
     | None => Raise (KeyError "Item")
     | Some r => Ok (default VNone (obj r))
     end, log (GetItem (Dynamo.cache_key d)) w).
Proof.
  unfold Dynamo.get, bind, get_item.
  destruct (table w !! _) as [r|]; [|done]. by destruct (obj r).
Qed.

(** After [unlock], the caller is not the lock owner of the row, whatever
    the row was. *)
Lemma unlock_releases (d : Dynamo.t) (w : World) :
  table (Dynamo.unlock d None w).2 !! Dynamo.cache_key d ≫= lock_key
  ≠ Some (Dynamo.run_id d).
Proof.
  rewrite unlock_unfold. cbn zeta.
  destruct (eval_cond _ _) eqn:E; cbn.
  - by rewrite lookup_insert_eq.
  - cbn in E. destruct (table w !! _ ≫= lock_key) as [o|]; [|done].
    intros [= ->]. by rewrite String.eqb_refl in E.
Qed.

Lemma handler_body_same_setting `{!PyLib} (d : Dynamo.t) (ev : Event) (w : World) :
  same_setting w (handler_body d ev w).2.
Proof.
  apply (stable_handler_body same_setting (λ _, True) closed_same_setting);
    try done.
  apply (stable_delete_on_fail _ _ closed_same_setting). done.
Qed.

(** ** Lock contention (C7) *)

Lemma handler_contended `{!PyLib}
    (run_id : string) (ev : Event) (ck : string) (w : World) :
  ev_cache_key ev = Some ck →
  ¬ lease_available run_id (clock w) (table w !! ck) →
  let d := {| Dynamo.cache_key := ck; Dynamo.run_id := run_id |} in
  handler run_id ev w =
    (Ok (VDict [("status", VInt 204);
                ("message", VStr "Could not acquire job lock")]),
     log (lock_call d ck (clock w)) w).
Proof.
  intros Hck Hheld. cbn zeta.
  unfold handler. rewrite Hck. unfold bind at 1. cbn [getitem ret].
  unfold bind. rewrite lock_unfold. cbn zeta. rewrite lease_cond_spec.
  cbn [Dynamo.key_or Dynamo.cache_key Dynamo.run_id].
  by rewrite bool_decide_eq_false_2.
Qed.

(** C7.  When the initial lock attempt fails, the handler returns at once
    with status 204 and the message "Could not acquire job lock", and the
    only call it has made is the failed conditional update: the table and
    the bucket are as before and the compute service is not called.  The
    response has no "dump" entry, where the specification and every other
    response of the handler have [dump] null. *)
Theorem handler_lock_contention `{!PyLib}
    (run_id : string) (ev : Event) (ck : string) (w : World) :
  ev_cache_key ev = Some ck →
  ¬ lease_available run_id (clock w) (table w !! ck) →
  let d := {| Dynamo.cache_key := ck; Dynamo.run_id := run_id |} in
  let resp := VDict [("status", VInt 204);
                     ("message", VStr "Could not acquire job lock")] in
  handler run_id ev w = (Ok resp, log (lock_call d ck (clock w)) w) ∧
  getitem_str resp "status" = Ok (VInt 204) ∧
  getitem_str resp "message" = Ok (VStr "Could not acquire job lock") ∧
  getitem_str resp "dump" = Raise (KeyError "dump") ∧
  resp ≠ response 204 "Could not acquire job lock" VNone.
Proof.
  intros Hck Hheld. cbn zeta. split; [|done].
  by apply handler_contended.
Qed.

Lemma handler_lock_contention_witness :
  let w := example_world None "RUNNING"
             {["k1" := example_row (Some "other") 100 None]} ∅ 102 in
  let resp := VDict [("status", VInt 204);
                     ("message", VStr "Could not acquire job lock")] in
  @handler example_lib "me" example_event w
    = (Ok resp, log (lock_call (example_dynamo "me") "k1" 102) w) ∧
  getitem_str resp "status" = Ok (VInt 204) ∧
  getitem_str resp "message" = Ok (VStr "Could not acquire job lock") ∧
  getitem_str resp "dump" = Raise (KeyError "dump") ∧
  resp ≠ response 204 "Could not acquire job lock" VNone.
Proof.
  apply (@handler_lock_contention example_lib "me" example_event "k1"
           (example_world None "RUNNING"
              {["k1" := example_row (Some "other") 100 None]} ∅ 102)).
  - reflexivity.
  - vm_compute. intros [H|[H|H]]; [discriminate H|discriminate H|discriminate H].
Defined.

(** ** Release of the lease (C5) *)

Lemma handler_acquired `{!PyLib}
    (run_id : string) (ev : Event) (ck : string) (w : World) :
  ev_cache_key ev = Some ck →
  lease_available run_id (clock w) (table w !! ck) →
  let d := {| Dynamo.cache_key := ck; Dynamo.run_id := run_id |} in
  handler run_id ev w =
    finally
      (catch (handler_body d ev) (λ e, ret (response 400 (exn_str e) VNone)))
      (Dynamo.unlock d None) (Dynamo.lock d None w).2.
Proof.
  intros Hck Hfree. cbn zeta.
  unfold handler. rewrite Hck. unfold bind at 1. cbn [getitem ret].
  unfold bind at 1. rewrite lock_unfold. cbn zeta. rewrite lease_cond_spec.
  cbn [Dynamo.key_or Dynamo.cache_key Dynamo.run_id].
  by rewrite bool_decide_eq_true_2.
Qed.

Lemma handler_is_handler_with `{!PyLib} (run_id : string) (ev : Event)
    (ck : string) :
  ev_cache_key ev = Some ck →
  let d := {| Dynamo.cache_key := ck; Dynamo.run_id := run_id |} in
  handler run_id ev =
    handler_with (Dynamo.lock d None) (handler_body d ev) (Dynamo.unlock d None).
Proof. intros Hck. unfold handler. by rewrite Hck. Qed.

(** C5, as the code has it.  The handler is the lock attempt, the guarded
    body and the release put together as in lines 293-330, and for
    whatever these three steps do, errors of DynamoDB included: when the
    lock attempt raises, the error reaches the caller and nothing else
    runs; when it returns false, the answer is 204 and nothing else runs,
    so [unlock] is not called; when it returns true, the body runs, then
    the release runs exactly once in the world the body left, whether
    the body returned or raised, and the answer is what the body
    returned, or status 400 with the text of the error the body raised;
    only an error of the release itself reaches the caller.  With the
    DynamoDB of the model: an available lease is taken, the last call of
    the invocation is [unlock(run_id)] and afterwards the caller is not
    the lock owner of the row; a lease that is not available gives the
    answer 204 after the one lock attempt. *)
Theorem handler_unlocks_once_locked `{!PyLib}
    (run_id : string) (ev : Event) (ck : string) :
  ev_cache_key ev = Some ck →
  let d := {| Dynamo.cache_key := ck; Dynamo.run_id := run_id |} in
  let busy := VDict [("status", VInt 204);
                     ("message", VStr "Could not acquire job lock")] in
  handler run_id ev =
    handler_with (Dynamo.lock d None) (handler_body d ev)
      (Dynamo.unlock d None) ∧
  (∀ (lock unlock : M bool) (body : M val) (w : World),
     handler_with lock body unlock w =
       match lock w with
       | (Raise e, w1) => (Raise e, w1)
       | (Ok false, w1) => (Ok busy, w1)
       | (Ok true, w1) =>
           match unlock (body w1).2 with
           | (Ok _, w3) =>
               (Ok match (body w1).1 with
                   | Ok r => r
                   | Raise e => response 400 (exn_str e) VNone
                   end, w3)
           | (Raise e, w3) => (Raise e, w3)
           end
       end) ∧
  (∀ w, lease_available run_id (clock w) (table w !! ck) →
     let body := handler_body d ev (Dynamo.lock d None w).2 in
     let final := (handler run_id ev w).2 in
     (Dynamo.lock d None w).1 = Ok true ∧
     trace final = unlock_call d ck (clock w) :: trace body.2 ∧
     table final !! ck ≫= lock_key ≠ Some run_id) ∧
  (∀ w, ¬ lease_available run_id (clock w) (table w !! ck) →
     handler run_id ev w = (Ok busy, log (lock_call d ck (clock w)) w)).
Proof.
  intros Hck. cbn zeta. split_and!.
  - by apply handler_is_handler_with.
  - intros lock unlock body w. unfold handler_with, bind, finally, catch.
    destruct (lock w) as [[[]|e] w1]; cbn [negb]; [|done..].
    destruct (body w1) as [[r|e] w2]; cbn [fst snd ret];
      by destruct (unlock w2) as [[u|e'] w3].
  - intros w Hfree. cbn zeta. split.
    { rewrite lock_unfold. cbn zeta. rewrite lease_cond_spec.
      cbn [Dynamo.key_or Dynamo.cache_key Dynamo.run_id].
      by rewrite bool_decide_eq_true_2. }
    rewrite (handler_acquired _ _ ck) by done.
    set (d := {| Dynamo.cache_key := ck; Dynamo.run_id := run_id |}).
    set (w1 := (Dynamo.lock d None w).2).
    assert (clock w1 = clock w) as Hc1.
    { subst w1. rewrite lock_unfold. cbn zeta. by destruct (eval_cond _ _). }
    pose proof (handler_body_same_setting d ev w1) as (Hclock & _).
    unfold finally, catch.
    destruct (handler_body d ev w1) as [[r|e] w2] eqn:Hbody;
      cbn [fst snd ret] in *.
    all: assert (clock w2 = clock w) as Hc2 by congruence.
    all: pose proof (unlock_releases d w2) as Hrel.
    all: rewrite unlock_unfold in *; cbn zeta in *; rewrite Hc2 in *.
    all: destruct (eval_cond _ _); cbn [fst snd trace log set_table] in *.
    all: split; [done|exact Hrel].
  - intros w Hheld. by apply handler_contended.
Qed.

Lemma handler_unlocks_once_locked_witness :
  let w := example_world None "RUNNING" ∅ ∅ 102 in
  let ev := {| ev_cache_key := Some "k1"; ev_dump := Some (VStr "payload");
               ev_kwargs := None |} in
  (@handler example_lib "me" ev w).1 = Ok (response 400 "'kwargs'" VNone) ∧
  (Dynamo.lock (example_dynamo "me") None w).1 = Ok true ∧
  trace (@handler example_lib "me" ev w).2
    = [unlock_call (example_dynamo "me") "k1" 102; GetItem "k1";
       lock_call (example_dynamo "me") "k1" 102] ∧
  table (@handler example_lib "me" ev w).2 !! "k1" ≫= lock_key ≠ Some "me".
Proof.
  destruct (@handler_unlocks_once_locked example_lib "me"
              {| ev_cache_key := Some "k1"; ev_dump := Some (VStr "payload");
                 ev_kwargs := None |} "k1" eq_refl) as (Heq & Hsteps & Hfree & _).
  pose proof (Hfree (example_world None "RUNNING" ∅ ∅ 102) (or_introl eq_refl))
    as H.
  split; [by rewrite Heq, Hsteps|].
  vm_compute in H |- *. exact H.
Defined.

(** C5 as stated fails on the lock-contention path: the handler returns
    before the guarded block and [unlock] is not among its calls. *)
Lemma handler_contention_skips_unlock :
  let w := example_world None "RUNNING"
             {["k1" := example_row (Some "other") 100 None]} ∅ 102 in
  let out := @handler example_lib "me" example_event w in
  out.1 = Ok (VDict [("status", VInt 204);
                     ("message", VStr "Could not acquire job lock")]) ∧
  trace out.2 = [lock_call (example_dynamo "me") "k1" 102] ∧
  ¬ (∃ t, unlock_call (example_dynamo "me") "k1" t ∈ trace out.2).
Proof.
  cbn zeta. split; [by vm_compute|]. split; [by vm_compute|].
  intros [t Hin]. vm_compute in Hin.
  apply list_elem_of_singleton in Hin. discriminate Hin.
Qed.

(** ** The stored state *)

Lemma state_dict_is_state_blob (b : Batch.t) : is_state_blob (Batch.state_dict b).
Proof. by eexists. Qed.

Lemma engine_call_writes_state_blobs (d : Dynamo.t) (c : Call) :
  engine_call d c → writes_state_blobs c.
Proof.
  unfold writes_state_blobs.
  intros [H|[H|[H|[H|H]]]]; destruct H; cbn; try done.
  constructor; [apply state_dict_is_state_blob|done].
Qed.

Lemma handler_calls `{!PyLib} (P : Call → Prop) (run_id : string) (ev : Event)
    (w : World) :
  (∀ ck c, ev_cache_key ev = Some ck →
     engine_call {| Dynamo.cache_key := ck; Dynamo.run_id := run_id |} c → P c) →
  extends P w (handler run_id ev w).2.
Proof.
  intros HP.
  apply (stable_handler (extends P) P (closed_extends P)).
  intros ck Hck d. split_and!.
  - intros c Hc. apply (HP ck c Hck). by left.
  - intros c Hc. apply (HP ck c Hck). by do 4 right.
  - apply (stable_delete_on_fail _ _ (closed_extends P)).
    intros c Hc. apply (HP ck c Hck). right. by left.
  - intros c Hc. apply (HP ck c Hck). do 2 right. by left.
  - intros c Hc. apply (HP ck c Hck). do 3 right. by left.
Qed.

(** ** An empty parameter list (C10) *)

Lemma last_of_each_empty (items : list (string * list val)) (name : string)
    (kw : list (string * val)) :
  (name, []) ∈ items →
  last_of_each items kw = Raise (IndexError "list index out of range").
Proof.
  revert kw. induction items as [|[k v] items IH]; intros kw Hin.
  - by apply elem_of_nil in Hin.
  - cbn. unfold last_item. destruct (last v) as [x|] eqn:Hlast; [|done].
    apply elem_of_cons in Hin as [[= -> <-]|Hin]; [done|]. by apply IH.
Qed.

Lemma lock_acquired (d : Dynamo.t) (w : World) :
  lease_available (Dynamo.run_id d) (clock w) (table w !! Dynamo.cache_key d) →
  Dynamo.lock d None w = (Ok true, after_lock d w).
Proof.
  intros Hfree. rewrite lock_unfold. cbn zeta. rewrite lease_cond_spec.
  by rewrite bool_decide_eq_true_2.
Qed.

Lemma unlock_owned (d : Dynamo.t) (w : World) :
  holds_lease d w → Dynamo.unlock d None w = (Ok true, after_unlock d w).
Proof.
  unfold holds_lease. intros Hown. rewrite unlock_unfold. cbn zeta. cbn [eval_cond].
  by rewrite Hown, String.eqb_refl.
Qed.

Lemma put_owned (d : Dynamo.t) (o : val) (w : World) :
  holds_lease d w → Dynamo.put d o w = (Ok true, after_put d o w).
Proof.
  unfold holds_lease. intros Hown. rewrite put_unfold. cbn zeta.
  unfold Dynamo.lease_cond. cbn [eval_cond].
  by rewrite Hown, String.eqb_refl.
Qed.

Lemma holds_lease_after_lock (d : Dynamo.t) (w : World) :
  holds_lease d (after_lock d w).
Proof. unfold holds_lease, after_lock. cbn. by rewrite lookup_insert_eq. Qed.

Lemma holds_lease_after_put (d : Dynamo.t) (o : val) (w : World) :
  holds_lease d (after_put d o w).
Proof. unfold holds_lease, after_put. cbn. by rewrite lookup_insert_eq. Qed.

Lemma holds_lease_log (d : Dynamo.t) (c : Call) (w : World) :
  holds_lease d w → holds_lease d (log c w).
Proof. done. Qed.

Lemma handler_finish `{!PyLib}
    (run_id : string) (ev : Event) (ck : string) (w : World) :
  ev_cache_key ev = Some ck →
  lease_available run_id (clock w) (table w !! ck) →
  let d := {| Dynamo.cache_key := ck; Dynamo.run_id := run_id |} in
  handler run_id ev w = finish d (handler_body d ev (after_lock d w)).
Proof.
  intros Hck Hfree. cbn zeta. rewrite (handler_acquired _ _ ck) by done.
  rewrite lock_acquired by done. cbn [snd]. unfold finish, finally, catch.
  destruct (handler_body _ _ _) as [[r|e] w2]; cbn [fst snd ret].
  - rewrite unlock_unfold. cbn zeta. by destruct (eval_cond _ _).
  - rewrite unlock_unfold. cbn zeta. by destruct (eval_cond _ _).
Qed.

(** The body up to the choice of the branch, on a row that exists. *)
Lemma handler_body_load `{!PyLib} (d : Dynamo.t) (ev : Event) (w : World)
    (r : Row) :
  table w !! Dynamo.cache_key d = Some r →
  ev_cache_key ev = Some (Dynamo.cache_key d) →
  let stored := default VNone (obj r) in
  let w1 := log (GetItem (Dynamo.cache_key d)) w in
  handler_body d ev w =
    match Batch.init (Dynamo.cache_key d)
            (if truthy stored then stored else VDict []) with
    | Ok b =>
        if is_none (Batch.status b)
        then submit_branch d ev b w1 else poll_branch d b w1
    | Raise e => (Raise e, w1)
    end.
Proof.
  intros Hrow Hck. cbn zeta. unfold handler_body. unfold bind at 1.
  rewrite get_unfold, Hrow, Hck. unfold bind, getitem, ret, lift.
  destruct (Batch.init _ _) as [b|e]; [|done]. by destruct (is_none _).
Qed.

(** C10.  When the lock is acquired, no job state is stored and some
    parameter of the event's [kwargs] is bound to an empty list, the
    handler answers with status 400 and the description of the indexing
    error as message; it has only locked, read and unlocked the row, so
    no job is submitted and the bucket is untouched, and the lease is
    released. *)
Theorem empty_parameter_list_is_reported `{!PyLib}
    (run_id : string) (ev : Event) (ck : string) (w : World)
    (kwargs : list (string * list val)) (name : string) :
  ev_cache_key ev = Some ck →
  lease_available run_id (clock w) (table w !! ck) →
  stored w ck = None →
  ev_kwargs ev = Some kwargs →
  (name, []) ∈ kwargs →
  let d := {| Dynamo.cache_key := ck; Dynamo.run_id := run_id |} in
  let out := handler run_id ev w in
  out.1 = Ok (response 400 "list index out of range" VNone) ∧
  trace out.2 =
    [unlock_call d ck (clock w); GetItem ck; lock_call d ck (clock w)]
      ++ trace w ∧
  bucket out.2 = bucket w ∧
  table out.2 !! ck ≫= lock_key = None.
Proof.
  intros Hck Hfree Hnone Hkw Hin. cbn zeta.
  rewrite (handler_finish _ _ ck) by done.
  set (d := {| Dynamo.cache_key := ck; Dynamo.run_id := run_id |}).
  assert (handler_body d ev (after_lock d w)
          = (Raise (IndexError "list index out of range"),
             log (GetItem ck) (after_lock d w))) as ->.
  { erewrite (handler_body_load d ev (after_lock d w));
      [|unfold after_lock; cbn; apply lookup_insert_eq|done].
    unfold stored in Hnone. cbn [locked_row obj Dynamo.cache_key d].
    rewrite Hnone. cbn.
    unfold submit_branch, bind, getitem, lift, ret. rewrite Hkw.
    by rewrite (last_of_each_empty _ name). }
  unfold finish. cbn [fst snd exn_str].
  rewrite unlock_owned by apply holds_lease_after_lock.
  cbn. by rewrite lookup_insert_eq.
Qed.

Lemma empty_parameter_list_is_reported_witness :
  let w := example_world None "RUNNING" ∅ ∅ 102 in
  let ev := {| ev_cache_key := Some "k1"; ev_dump := Some (VStr "payload");
               ev_kwargs := Some [("script", [VStr "print(1)"]);
                                  ("image", [])] |} in
  let out := @handler example_lib "me" ev w in
  out.1 = Ok (response 400 "list index out of range" VNone) ∧
  trace out.2 =
    [unlock_call (example_dynamo "me") "k1" 102; GetItem "k1";
     lock_call (example_dynamo "me") "k1" 102] ∧
  bucket out.2 = ∅ ∧
  table out.2 !! "k1" ≫= lock_key = None.
Proof.
  assert (("image", []) ∈ [("script", [VStr "print(1)"]); ("image", [])])
    as Hin by (right; left).
  pose proof (@empty_parameter_list_is_reported example_lib "me"
                {| ev_cache_key := Some "k1"; ev_dump := Some (VStr "payload");
                   ev_kwargs := Some [("script", [VStr "print(1)"]);
                                      ("image", [])] |} "k1"
                (example_world None "RUNNING" ∅ ∅ 102) _ "image"
                eq_refl (or_introl eq_refl) eq_refl eq_refl Hin) as H.
  exact H.
Defined.

(** ** A pending job (C8) *)

Lemma pending_state (s : string) :
  s ∈ PENDING_STATES →
  String.eqb s SUCCESS_STATE = false ∧ String.eqb s FAILED_STATE = false ∧
  existsb (val_eq_str (VStr s)) PENDING_STATES = true.
Proof.
  unfold PENDING_STATES. intros Hs.
  repeat (apply elem_of_cons in Hs as [->|Hs]); [done..|].
  by apply elem_of_nil in Hs.
Qed.

Lemma update_pending `{!PyLib} (b : Batch.t) (w : World) (job : JobDetail)
    (jobs : list JobDetail) (s : string) :
  Batch.client b = None →
  describe_jobs (batch_api w) (DescribeJobs (Batch.job_id b) :: trace w)
    = Ok (job :: jobs) →
  jd_status job = Some s →
  s ∈ PENDING_STATES →
  Batch.update b w =
    (Ok ("Job " +:+ py_str (Batch.job_id b) +:+ " is processing with status: "
           +:+ s, Batch.set_status (VStr s) b),
     log (DescribeJobs (Batch.job_id b)) w).
Proof.
  intros Hclient Hdescribe Hstatus (Hs1 & Hs2 & _)%pending_state.
  unfold Batch.update, Batch.client_call. rewrite Hclient.
  unfold bind at 1. unfold batch_call. cbn [trace log batch_api].
  rewrite Hdescribe. unfold bind, lift, first_item, getitem, ret.
  rewrite Hstatus. by rewrite Hs1, Hs2.
Qed.

(** C8.  An invocation that acquires the lock and finds a stored status
    that is neither absent nor SUCCEEDED polls the compute service; when
    the job is reported in one of the states SUBMITTED, PENDING, RUNNABLE,
    STARTING or RUNNING, the refreshed status is stored in the table and
    the answer has status 202, a message naming the job and its current
    status, and a null dump. *)
Theorem pending_job_is_reported `{!PyLib}
    (run_id : string) (ev : Event) (ck : string) (w : World)
    (j jd st0 : val) (job : JobDetail) (jobs : list JobDetail) (s : string) :
  ev_cache_key ev = Some ck →
  lease_available run_id (clock w) (table w !! ck) →
  stored w ck = Some (VDict [("job_id", j); ("job_def", jd); ("status", st0)]) →
  st0 ≠ VNone →
  st0 ≠ VStr SUCCESS_STATE →
  let d := {| Dynamo.cache_key := ck; Dynamo.run_id := run_id |} in
  describe_jobs (batch_api w)
    (DescribeJobs j :: GetItem ck :: lock_call d ck (clock w) :: trace w)
    = Ok (job :: jobs) →
  jd_status job = Some s →
  s ∈ PENDING_STATES →
  let out := handler run_id ev w in
  let state := VDict [("job_id", j); ("job_def", jd); ("status", VStr s)] in
  out.1 = Ok (response 202
                ("Job " +:+ py_str j +:+ " is processing with status: " +:+ s)
                VNone) ∧
  stored out.2 ck = Some state ∧
  trace out.2 =
    [unlock_call d ck (clock w); put_call d (clock w) state;
     put_call d (clock w) state; DescribeJobs j; GetItem ck;
     lock_call d ck (clock w)] ++ trace w.
Proof.
  intros Hck Hfree Hstored Hst0 Hst1 d Hdescribe Hstatus Hs. cbn zeta.
  rewrite (handler_finish _ _ ck) by done. fold d.
  set (b1 := {| Batch.cache_key := ck; Batch.job_id := j; Batch.job_def := jd;
                Batch.status := VStr s; Batch.iters := VInt 0;
                Batch.client := None |}).
  assert (handler_body d ev (after_lock d w)
          = (Ok (response 202
                   ("Job " +:+ py_str j +:+ " is processing with status: " +:+ s)
                   VNone),
             after_put d (Batch.state_dict b1)
               (after_put d (Batch.state_dict b1)
                  (log (DescribeJobs j)
                     (log (GetItem ck) (after_lock d w)))))) as ->.
  { erewrite (handler_body_load d ev (after_lock d w));
      [|unfold after_lock; cbn; apply lookup_insert_eq|done].
    unfold stored in Hstored. cbn [locked_row obj Dynamo.cache_key d].
    rewrite Hstored. cbn [default truthy Batch.init Batch.init_kwargs].
    cbn. replace (is_none st0) with false by by destruct st0.
    unfold poll_branch.
    change (val_eq_str (Batch.status _) SUCCESS_STATE)
      with (val_eq_str st0 SUCCESS_STATE).
    replace (val_eq_str st0 SUCCESS_STATE) with false.
    2:{ symmetry. apply not_true_is_false. intros ->%val_eq_str_true. done. }
    unfold bind at 1.
    erewrite update_pending; [|done|exact Hdescribe|done..].
    destruct (pending_state s Hs) as (_ & _ & Hpend).
    unfold bind at 1. rewrite put_owned by apply holds_lease_after_lock.
    cbn [Batch.status Batch.set_status]. rewrite Hpend.
    unfold bind at 1. rewrite put_owned by apply holds_lease_after_put.
    done. }
  unfold finish. cbn [fst snd].
  rewrite unlock_owned.
  2: apply holds_lease_after_put.
  split_and!; [done| |done].
  unfold stored. cbn. by rewrite !lookup_insert_eq.
Qed.

Lemma pending_job_is_reported_witness :
  let w := example_world None "RUNNABLE"
             {["k1" := example_row None 100 (Some (example_state "submitted"))]}
             ∅ 102 in
  let out := @handler example_lib "me" example_event w in
  out.1 = Ok (response 202 "Job job-1 is processing with status: RUNNABLE"
                VNone) ∧
  stored out.2 "k1" = Some (example_state "RUNNABLE") ∧
  trace out.2 =
    [unlock_call (example_dynamo "me") "k1" 102;
     put_call (example_dynamo "me") 102 (example_state "RUNNABLE");
     put_call (example_dynamo "me") 102 (example_state "RUNNABLE");
     DescribeJobs (VStr "job-1"); GetItem "k1";
     lock_call (example_dynamo "me") "k1" 102].
Proof.
  assert ("RUNNABLE" ∈ PENDING_STATES) as Hs by (do 2 right; left).
  assert (VStr "submitted" ≠ VNone) as H0 by discriminate.
  assert (VStr "submitted" ≠ VStr SUCCESS_STATE) as H1 by discriminate.
  pose proof (@pending_job_is_reported example_lib "me" example_event "k1"
                (example_world None "RUNNABLE"
                   {["k1" := example_row None 100
                               (Some (example_state "submitted"))]} ∅ 102)
                (VStr "job-1") (VStr "arn:job-definition/fn-k1:1")
                (VStr "submitted") _ [] "RUNNABLE"
                eq_refl (or_introl eq_refl) eq_refl H0 H1 eq_refl eq_refl Hs)
    as H.
  exact H.
Defined.

(** ** The retry budget *)

Lemma s3_get_absent (key : string) (w : World) :
  bucket w !! key = None → s3_get key w = (Ok None, log (HeadObject key) w).
Proof.
  intros Hnone. unfold s3_get, bind, catch, head_object. by rewrite Hnone.
Qed.

Lemma exhausted_budget_run (d : Dynamo.t) (b : Batch.t) (w : World) (n : Z) :
  Batch.iters b = VInt n →
  n > MAX_ITERS →
  bucket w !! Batch.result_key (environ w) b = None →
  success_pipeline d b w =
    (Ok (response 422 "task failed to write output" VNone, b),
     log (HeadObject (Batch.result_key (environ w) b)) w) ∧
  table (success_pipeline d b w).2 = table w.
Proof.
  intros Hiters Hover Habsent.
  assert (success_pipeline d b w =
          (Ok (response 422 "task failed to write output" VNone, b),
           log (HeadObject (Batch.result_key (environ w) b)) w)) as ->; [|done].
  unfold success_pipeline. rewrite Hiters. cbn [val_eq_int].
  replace (Z.eqb n 0) with false
    by (symmetry; apply Z.eqb_neq; unfold MAX_ITERS in *; lia).
  unfold bind at 1. cbn [ret]. unfold bind at 1. cbn [get_world].
  unfold bind at 1. rewrite s3_get_absent by done.
  unfold bind, lift, py_gt, ret.
  by replace (Z.ltb MAX_ITERS n) with true by (symmetry; apply Z.ltb_lt; lia).
Qed.

(** ** The iteration counter (C1, C2) *)

Lemma init_state (ck : string) (j jd st : val) :
  Batch.init ck (VDict [("job_id", j); ("job_def", jd); ("status", st)])
  = Ok {| Batch.cache_key := ck; Batch.job_id := j; Batch.job_def := jd;
          Batch.status := st; Batch.iters := VInt 0; Batch.client := None |}.
Proof. reflexivity. Qed.

(** The first entry into the sub-protocol with no output yet. *)
Lemma success_pipeline_first_entry (d : Dynamo.t) (b : Batch.t) (w : World) :
  Batch.iters b = VInt 0 →
  Batch.client b = None →
  deregister_job_definition (batch_api w)
    (DeregisterJobDefinition (Batch.job_def b) :: trace w) = Ok () →
  bucket w !! Batch.result_key (environ w) b = None →
  holds_lease d w →
  success_pipeline d b w =
    (Ok (response 204 "waiting for task to write output" VNone,
         Batch.set_iters (VInt 1) b),
     after_put d (Batch.state_dict b)
       (log (HeadObject (Batch.result_key (environ w) b))
          (log (DeregisterJobDefinition (Batch.job_def b)) w))).
Proof.
  intros Hiters Hclient Hgc Habsent Hown.
  unfold success_pipeline. rewrite Hiters. cbn [val_eq_int Z.eqb].
  unfold bind at 1. unfold Batch.gc, Batch.client_call, batch_call, catch.
  rewrite Hclient. cbn [trace log batch_api]. rewrite Hgc.
  unfold bind at 1. cbn [get_world].
  unfold bind at 1. cbn [environ log]. rewrite s3_get_absent by done.
  unfold bind at 1. cbn [lift py_gt].
  unfold bind at 1. cbn [lift py_incr]. change (0 + 1) with 1.
  change (Z.ltb MAX_ITERS 0) with false. cbn beta iota.
  change (Batch.state_dict (Batch.set_iters (VInt 1) b))
    with (Batch.state_dict b).
  unfold bind at 1. by rewrite put_owned by done.
Qed.

(** C1, what the code does.  An invocation that finds the stored status
    SUCCEEDED and no output blob increments [iters] on its own [Batch]
    object and calls [put], but [state_dict] has no entry for the
    counter: the state stored after the invocation is the state stored
    before it, and a record loaded from it starts again at 0.  The job
    definition is deregistered on the way, as on a first entry. *)
Theorem waiting_does_not_store_iterations `{!PyLib}
    (run_id : string) (ev : Event) (ck : string) (w : World) (j jd : val) :
  let d := {| Dynamo.cache_key := ck; Dynamo.run_id := run_id |} in
  let state := VDict [("job_id", j); ("job_def", jd);
                      ("status", VStr SUCCESS_STATE)] in
  let key := Batch.result_key (environ w) (Batch.new ck) in
  ev_cache_key ev = Some ck →
  lease_available run_id (clock w) (table w !! ck) →
  stored w ck = Some state →
  deregister_job_definition (batch_api w)
    (DeregisterJobDefinition jd :: GetItem ck :: lock_call d ck (clock w)
       :: trace w) = Ok () →
  bucket w !! key = None →
  let out := handler run_id ev w in
  out.1 = Ok (response 204 "waiting for task to write output" VNone) ∧
  stored out.2 ck = Some state ∧
  (∃ b, Batch.init ck state = Ok b ∧ Batch.iters b = VInt 0) ∧
  trace out.2 =
    [unlock_call d ck (clock w); put_call d (clock w) state; HeadObject key;
     DeregisterJobDefinition jd; GetItem ck; lock_call d ck (clock w)]
      ++ trace w.
Proof.
  intros d state key Hck Hfree Hstored Hgc Habsent. cbn zeta.
  rewrite (handler_finish _ _ ck) by done. fold d.
  assert (handler_body d ev (after_lock d w)
          = (Ok (response 204 "waiting for task to write output" VNone),
             after_put d state
               (log (HeadObject key)
                  (log (DeregisterJobDefinition jd)
                     (log (GetItem ck) (after_lock d w)))))) as ->.
  { erewrite (handler_body_load d ev (after_lock d w));
      [|unfold after_lock; cbn; apply lookup_insert_eq|done].
    unfold stored in Hstored. cbn [locked_row obj Dynamo.cache_key d].
    rewrite Hstored. unfold state. cbn [from_option id truthy].
    rewrite init_state.
    cbn [Batch.status is_none]. unfold poll_branch.
    cbn [Batch.status val_eq_str SUCCESS_STATE]. rewrite String.eqb_refl.
    unfold bind at 1.
    rewrite success_pipeline_first_entry;
      [done|done|done|exact Hgc|exact Habsent|apply holds_lease_after_lock]. }
  unfold finish. cbn [fst snd].
  rewrite unlock_owned.
  2: apply holds_lease_after_put.
  split_and!; [done| |by eexists|done].
  unfold stored. cbn. by rewrite !lookup_insert_eq.
Qed.

Lemma waiting_does_not_store_iterations_witness :
  let w := example_world None "SUCCEEDED"
             {["k1" := example_row None 100 (Some (example_state "SUCCEEDED"))]}
             ∅ 102 in
  let out := @handler example_lib "me" example_event w in
  out.1 = Ok (response 204 "waiting for task to write output" VNone) ∧
  stored out.2 "k1" = Some (example_state "SUCCEEDED") ∧
  (∃ b, Batch.init "k1" (example_state "SUCCEEDED") = Ok b ∧
        Batch.iters b = VInt 0) ∧
  trace out.2 =
    [unlock_call (example_dynamo "me") "k1" 102;
     put_call (example_dynamo "me") 102 (example_state "SUCCEEDED");
     HeadObject "k1/result.dump";
     DeregisterJobDefinition (VStr "arn:job-definition/fn-k1:1");
     GetItem "k1"; lock_call (example_dynamo "me") "k1" 102].
Proof.
  pose proof (@waiting_does_not_store_iterations example_lib "me" example_event
                "k1"
                (example_world None "SUCCEEDED"
                   {["k1" := example_row None 100
                               (Some (example_state "SUCCEEDED"))]} ∅ 102)
                (VStr "job-1") (VStr "arn:job-definition/fn-k1:1")
                eq_refl (or_introl eq_refl) eq_refl eq_refl eq_refl) as H.
  exact H.
Defined.

(** C2, what the code does.  Two invocations in a row find the job
    SUCCEEDED and its output missing.  Each of them loads [iters = 0] and
    so each of them deregisters the job definition: the release happens
    twice for the same cache key. *)
Theorem job_definition_released_on_every_entry :
  let w := example_world None "SUCCEEDED"
             {["k1" := example_row None 100 (Some (example_state "SUCCEEDED"))]}
             ∅ 102 in
  let out := @run example_lib
               [Invoke "run-1" example_event; Outside 110 ∅;
                Invoke "run-2" example_event] w in
  out.1.*2 = [Ok (response 204 "waiting for task to write output" VNone);
              Ok (response 204 "waiting for task to write output" VNone)] ∧
  List.filter is_deregister (trace out.2) =
    [DeregisterJobDefinition (VStr "arn:job-definition/fn-k1:1");
     DeregisterJobDefinition (VStr "arn:job-definition/fn-k1:1")] ∧
  count_calls is_deregister (trace out.2) = 2%nat.
Proof. by vm_compute. Qed.

(** ** Submission (C4) *)

(** The state that an update leaves in a row: the last one it writes, or
    the one that was there. *)
Lemma foldl_apply_action_obj (acts : list action) (r : Row) :
  obj (foldl apply_action r acts)
  = match last (omap blob_of acts) with
    | Some v => Some v
    | None => obj r
    end.
Proof.
  revert r. induction acts as [|a acts IH]; intros r; [done|].
  cbn [foldl]. rewrite IH. destruct a; try done.
  cbn [omap list_omap blob_of apply_action obj]. rewrite last_cons.
  by destruct (last _).
Qed.

Lemma closed_keeps_job (ck : string) : closed (keeps_job ck) (job_safe ck).
Proof.
  split.
  - split.
    + by intros w _.
    + intros x y z Hxy Hyz Hoff. destruct (Hxy Hoff) as [Ey Hy].
      rewrite <- Ey in Hoff. destruct (Hyz Hoff) as [Ez Hz].
      split; [congruence|auto].
  - intros c w Hc _.
    assert (environ (effect c w) = environ w) as Henv.
    { unfold effect. destruct c; try done; by destruct (eval_cond _ _). }
    split; [done|]. intros (v & Hv & Hjob). unfold has_job, stored in *.
    unfold effect. destruct c; cbn [table log]; try by eexists.
    + destruct (eval_cond _ _); [|by eexists]. cbn [table set_table].
      destruct (decide (key = ck)) as [->|Hne].
      * rewrite lookup_insert_eq. cbn. rewrite foldl_apply_action_obj.
        cbn in Hc. fold (blobs_written (UpdateItem ck c acts)) in Hc.
        cbn [blobs_written] in Hc.
        destruct (last (omap blob_of acts)) as [v'|] eqn:Hlast.
        -- exists v'. split; [done|].
           apply last_Some_elem_of in Hlast.
           by eapply Forall_forall in Hc.
        -- exists v. split; [|done].
           by destruct (table w !! ck) as [r|].
      * rewrite lookup_insert_ne by done. by eexists.
    + destruct (eval_cond _ _); [|by eexists]. cbn [table set_table].
      cbn in Hc. rewrite lookup_delete_ne by done. by eexists.
Qed.

Lemma engine_call_job_safe (ck : string) (d : Dynamo.t) (c : Call) :
  lease_call d c ∨ poll_call c ∨ submit_call c ∨ put_state_call d has_status c →
  job_safe ck c.
Proof.
  intros [H|[H|[H|H]]]; destruct H; cbn; try done.
  constructor; [by eexists|done].
Qed.

Lemma delete_on_fail_keeps_job (ck : string) (d : Dynamo.t) :
  stable (keeps_job ck) (delete_on_fail d).
Proof.
  intros w. split; [|done]. intros Hoff.
  unfold delete_on_fail, bind, get_world. by rewrite Hoff.
Qed.

(** With cleanup on failure off, no invocation, for any cache key,
    removes the job recorded for [ck]. *)
Lemma handler_keeps_job `{!PyLib} (ck run_id : string) (ev : Event) (w : World) :
  keeps_job ck w (handler run_id ev w).2.
Proof.
  apply (stable_handler (keeps_job ck) (job_safe ck) (closed_keeps_job ck)).
  intros ck' _ d. split_and!.
  - intros c Hc. apply (engine_call_job_safe ck d). by left.
  - intros c Hc. apply (engine_call_job_safe ck d). by do 3 right.
  - apply delete_on_fail_keeps_job.
  - intros c Hc. apply (engine_call_job_safe ck d). right. by left.
  - intros c Hc. apply (engine_call_job_safe ck d). do 2 right. by left.
Qed.

Lemma created_response (ck : string) (ev : Event) (st : Z) (msg : string)
    (dump : val) :
  created ck (ev, Ok (response st msg dump)) = true → st = 201.
Proof.
  unfold created. cbn. destruct (ev_cache_key ev) as [ck'|]; [|done].
  intros [_ H]%andb_true_iff. by apply Z.eqb_eq in H.
Qed.

(** Once the job is recorded, the branch taken is the polling one. *)
Lemma has_job_load (ck : string) (w : World) :
  has_job ck w → ∃ b, load ck w = Ok b ∧ has_status b.
Proof.
  intros (v & Hv & b & -> & s & Hs). unfold load. rewrite Hv.
  unfold Batch.state_dict. cbn [from_option id truthy]. rewrite init_state.
  eexists. split; [done|]. by exists s.
Qed.

Lemma load_after_lock (d : Dynamo.t) (w : World) :
  load (Dynamo.cache_key d) (after_lock d w) = load (Dynamo.cache_key d) w.
Proof.
  unfold load, stored, after_lock. cbn. by rewrite lookup_insert_eq.
Qed.

Lemma handler_body_loaded `{!PyLib} (d : Dynamo.t) (ev : Event) (w : World) :
  ev_cache_key ev = Some (Dynamo.cache_key d) →
  let w1 := log (GetItem (Dynamo.cache_key d)) (after_lock d w) in
  handler_body d ev (after_lock d w) =
    match load (Dynamo.cache_key d) w with
    | Ok b =>
        if is_none (Batch.status b)
        then submit_branch d ev b w1 else poll_branch d b w1
    | Raise e => (Raise e, w1)
    end.
Proof.
  intros Hck. cbn zeta.
  erewrite (handler_body_load d ev (after_lock d w));
    [|unfold after_lock; cbn; apply lookup_insert_eq|done].
  unfold load, stored. cbn [locked_row obj].
  by destruct (table w !! Dynamo.cache_key d ≫= obj).
Qed.

Lemma poll_branch_not_created `{!PyLib} (d : Dynamo.t) (b : Batch.t)
    (w : World) (r : val) :
  (poll_branch d b w).1 = Ok r → not_created r.
Proof.
  intros Hr.
  refine (proj2 (spec_poll_branch same_setting (λ _, True) closed_same_setting
                   d _ _ _ b w) r Hr); try done.
  by apply (stable_delete_on_fail _ _ closed_same_setting).
Qed.

(** An invocation that finds a recorded job does not submit. *)
Lemma has_job_not_created `{!PyLib} (ck run_id : string) (ev : Event)
    (w : World) :
  has_job ck w → created ck (ev, (handler run_id ev w).1) = false.
Proof.
  intros Hjob. apply not_true_is_false. intros Hcreated.
  unfold created in Hcreated. cbn [fst snd] in Hcreated.
  destruct (ev_cache_key ev) as [ck'|] eqn:Hck; [|done].
  destruct (handler run_id ev w).1 as [[| | | |dict]|] eqn:Hout; try done.
  apply andb_true_iff in Hcreated as [->%String.eqb_eq Hst].
  destruct (decide (lease_available run_id (clock w) (table w !! ck)))
    as [Hfree|Hheld].
  - rewrite (handler_finish _ _ ck) in Hout by done.
    unfold finish in Hout. cbn [fst] in Hout.
    rewrite handler_body_loaded in Hout by done.
    cbn [Dynamo.cache_key] in Hout.
    destruct (has_job_load ck w Hjob) as (b & Hload & s & Hs).
    rewrite Hload, Hs in Hout. cbn [is_none] in Hout.
    destruct (poll_branch _ b _).1 as [r|e] eqn:Hpoll.
    + apply poll_branch_not_created in Hpoll as (st & msg & dump & -> & Hne).
      injection Hout as <-. cbn in Hst. by apply Z.eqb_eq in Hst.
    + by injection Hout as <-.
  - pose proof (handler_contended run_id ev ck w Hck Hheld) as E.
    rewrite E in Hout. by injection Hout as <-.
Qed.

Lemma unlock_keeps_stored (d : Dynamo.t) (w : World) (k : string) :
  stored (Dynamo.unlock d None w).2 k = stored w k.
Proof.
  rewrite unlock_unfold. cbn zeta. unfold stored.
  destruct (eval_cond _ _); [|done]. cbn [snd table set_table log].
  destruct (decide (Dynamo.cache_key d = k)) as [<-|Hne].
  - by rewrite lookup_insert_eq.
  - by rewrite lookup_insert_ne.
Qed.

Lemma submit_keeps_lease `{!PyLib} (d : Dynamo.t) (b : Batch.t)
    (dump script image requirements : val) (w : World) :
  holds_lease d w →
  holds_lease d (Batch.submit b dump script image requirements w).2.
Proof.
  unfold holds_lease. intros Hown.
  destruct (spec_submit same_table no_table_write closed_same_table
              (λ c Hc, match Hc with
                       | submit_put _ _ | submit_register _ _
                       | submit_submit _ _ _ => I
                       end)
              b dump script image requirements w) as [Htable _].
  unfold same_table in Htable. by rewrite Htable.
Qed.

(** A completed submission leaves the job recorded. *)
Lemma submit_branch_records `{!PyLib} (d : Dynamo.t) (ev : Event)
    (b : Batch.t) (w : World) (r : val) :
  holds_lease d w →
  (submit_branch d ev b w).1 = Ok r →
  has_job (Dynamo.cache_key d) (submit_branch d ev b w).2.
Proof.
  intros Hown. unfold submit_branch, bind, getitem, lift, ret.
  destruct (ev_kwargs ev) as [kwargs|]; [|done].
  destruct (last_of_each kwargs []) as [kw|]; [|done].
  destruct (ev_dump ev) as [dump|]; [|done].
  destruct (submit_kwargs _) as [[[script image] reqs]|]; [|done].
  pose proof (submit_keeps_lease d b dump script image reqs w Hown) as Hown'.
  destruct (spec_submit same_table no_table_write closed_same_table
              (λ c Hc, match Hc with
                       | submit_put _ _ | submit_register _ _
                       | submit_submit _ _ _ => I
                       end)
              b dump script image reqs w) as [_ Hb'].
  destruct (Batch.submit b dump script image reqs w) as [[b'|e] w3]; [|done].
  cbn [fst snd] in *. destruct (Hb' b' eq_refl) as (j & jd & ->).
  rewrite put_owned by done. intros _. cbn [snd].
  eexists. split.
  - unfold stored, after_put. cbn. by rewrite lookup_insert_eq.
  - eexists. split; [done|]. by eexists.
Qed.

(** An invocation that answers "created" for [ck] leaves the job of [ck]
    recorded. *)
Lemma created_has_job `{!PyLib} (ck run_id : string) (ev : Event) (w : World) :
  created ck (ev, (handler run_id ev w).1) = true →
  has_job ck (handler run_id ev w).2.
Proof.
  intros Hcreated. unfold created in Hcreated. cbn [fst snd] in Hcreated.
  destruct (ev_cache_key ev) as [ck'|] eqn:Hck; [|done].
  destruct (handler run_id ev w).1 as [[| | | |dict]|] eqn:Hout; try done.
  apply andb_true_iff in Hcreated as [->%String.eqb_eq Hst].
  destruct (decide (lease_available run_id (clock w) (table w !! ck)))
    as [Hfree|Hheld].
  2:{ pose proof (handler_contended run_id ev ck w Hck Hheld) as E.
      rewrite E in Hout. by injection Hout as <-. }
  rewrite (handler_finish _ _ ck) in Hout |- * by done.
  set (d := {| Dynamo.cache_key := ck; Dynamo.run_id := run_id |}) in *.
  unfold finish in *. cbn [fst snd] in *.
  unfold has_job. rewrite unlock_keeps_stored.
  rewrite (handler_body_loaded d) in Hout |- * by done.
  cbn [Dynamo.cache_key d] in *.
  destruct (load ck w) as [b|e]; [|by injection Hout as <-].
  destruct (is_none (Batch.status b)).
  - destruct (submit_branch d ev b _).1 as [r|e] eqn:Hsub;
      [|by injection Hout as <-].
    eapply (submit_branch_records d); [|done].
    apply holds_lease_log, holds_lease_after_lock.
  - destruct (poll_branch d b _).1 as [r|e] eqn:Hpoll;
      [|by injection Hout as <-].
    apply poll_branch_not_created in Hpoll as (st & msg & dump & -> & Hne).
    injection Hout as <-. cbn in Hst. by apply Z.eqb_eq in Hst.
Qed.

Lemma lease_call_no_submission (d : Dynamo.t) (c : Call) :
  lease_call d c → no_submission c.
Proof. intros Hc Hs. destruct Hc; inversion Hs. Qed.

Lemma poll_call_no_submission (c : Call) : poll_call c → no_submission c.
Proof. intros Hc Hs. destruct Hc; inversion Hs. Qed.

Lemma put_state_call_no_submission (d : Dynamo.t) (P : Batch.t → Prop)
    (c : Call) :
  put_state_call d P c → no_submission c.
Proof. intros Hc Hs. destruct Hc; inversion Hs. Qed.

Lemma delete_call_no_submission (d : Dynamo.t) (c : Call) :
  delete_call d c → no_submission c.
Proof. intros Hc Hs. destruct Hc; inversion Hs. Qed.

Lemma extends_log (P : Call → Prop) (c : Call) (w : World) :
  P c → extends P w (log c w).
Proof. intros Hc. exists [c]. split; [done|by constructor]. Qed.

(** The submission branch is only reached by an invocation that holds
    the lease and loaded a record without status; any other invocation
    makes none of the calls of a submission. *)
Lemma submission_guard `{!PyLib} (ck run_id : string) (ev : Event) (w : World) :
  ev_cache_key ev = Some ck →
  (lease_available run_id (clock w) (table w !! ck) ∧
   ∃ b, load ck w = Ok b ∧ Batch.status b = VNone) ∨
  extends no_submission w (handler run_id ev w).2.
Proof.
  intros Hck.
  pose proof (closed_extends no_submission) as HR.
  pose proof (closed_preorder _ _ HR) as Hpre.
  set (d := {| Dynamo.cache_key := ck; Dynamo.run_id := run_id |}).
  destruct (decide (lease_available run_id (clock w) (table w !! ck)))
    as [Hfree|Hheld].
  2:{ right. rewrite (handler_contended run_id ev ck w Hck Hheld).
      apply extends_log.
      by apply (lease_call_no_submission d), lease_lock. }
  destruct (load ck w) as [b|e] eqn:Hload.
  - destruct (is_none (Batch.status b)) eqn:Hnone.
    + left. split; [done|]. exists b. split; [done|].
      by destruct (Batch.status b).
    + right. rewrite (handler_finish _ _ ck) by done. fold d.
      unfold finish. cbn [snd]. rewrite (handler_body_loaded d) by done.
      cbn [Dynamo.cache_key d]. rewrite Hload, Hnone.
      etrans; [|apply (stable_unlock _ _ HR d (lease_call_no_submission d))].
      etrans; [|apply (spec_poll_branch _ _ HR d poll_call_no_submission
                         (put_state_call_no_submission d _)
                         (stable_delete_on_fail _ _ HR d
                            (delete_call_no_submission d)))].
      etrans; [apply (stable_lock _ _ HR d (lease_call_no_submission d) w)|].
      rewrite lock_acquired by done. cbn [snd].
      apply extends_log.
      by apply (lease_call_no_submission d), lease_get.
  - right. rewrite (handler_finish _ _ ck) by done. fold d.
    unfold finish. cbn [snd]. rewrite (handler_body_loaded d) by done.
    cbn [Dynamo.cache_key d]. rewrite Hload. cbn [snd].
    etrans; [|apply (stable_unlock _ _ HR d (lease_call_no_submission d))].
    etrans; [apply (stable_lock _ _ HR d (lease_call_no_submission d) w)|].
    rewrite lock_acquired by done. cbn [snd].
    apply extends_log.
    by apply (lease_call_no_submission d), lease_get.
Qed.

Lemma run_created_bound `{!PyLib} (ck : string) (steps : list step) (w : World) :
  env_flag (DELETE_DYNAMO_ON_FAIL (environ w)) = false →
  (length (List.filter (created ck) (run steps w).1) ≤ 1)%nat ∧
  (has_job ck w → length (List.filter (created ck) (run steps w).1) = 0%nat).
Proof.
  revert w. induction steps as [|[run_id ev|time objects] steps IH];
    intros w Hoff.
  - cbn. split; [lia|done].
  - cbn [run].
    pose proof (handler_keeps_job ck run_id ev w Hoff) as [Henv Hkeep].
    pose proof (created_has_job ck run_id ev w) as Hcreated.
    pose proof (has_job_not_created ck run_id ev w) as Hnot.
    destruct (handler run_id ev w) as [r w1]. cbn [fst snd] in *.
    rewrite <- Henv in Hoff. destruct (IH w1 Hoff) as [IH1 IH2].
    destruct (run steps w1) as [rs w2]. cbn [fst snd] in *.
    change (List.filter (created ck) ((ev, r) :: rs))
      with (if created ck (ev, r)
            then (ev, r) :: List.filter (created ck) rs
            else List.filter (created ck) rs).
    destruct (created ck (ev, r)) eqn:Hc.
    + cbn [length]. rewrite (IH2 (Hcreated eq_refl)). split; [lia|].
      intros Hjob. by specialize (Hnot Hjob).
    + split; [done|]. intros Hjob. by apply IH2, Hkeep.
  - cbn [run]. apply (IH (set_outside time objects w)). done.
Qed.

(** C4, as the code has it.  The calls of a submission (uploading the
    input, registering a job definition, submitting a job) are only made
    by an invocation that holds the lease and loaded a record without
    status.  In every sequence of invocations that run one after
    another, each returning before the next one starts, for any cache
    keys and with the bucket and the clock changing in between, during
    which cleanup on failure is off, at most one invocation completes a
    submission for a given cache key. *)
Theorem submission_is_guarded_and_completes_once `{!PyLib}
    (ck run_id : string) (ev : Event) (steps : list step) (w : World) :
  ev_cache_key ev = Some ck →
  ((lease_available run_id (clock w) (table w !! ck) ∧
    ∃ b, load ck w = Ok b ∧ Batch.status b = VNone) ∨
   extends no_submission w (handler run_id ev w).2) ∧
  (env_flag (DELETE_DYNAMO_ON_FAIL (environ w)) = false →
   (length (List.filter (created ck) (run steps w).1) ≤ 1)%nat).
Proof.
  intros Hck. split.
  - by apply submission_guard.
  - intros Hoff. by apply run_created_bound.
Qed.

Lemma submission_is_guarded_and_completes_once_witness :
  let w := example_world None "FAILED" ∅ ∅ 102 in
  let steps := [Invoke "run-1" example_event; Outside 110 ∅;
                Invoke "run-2" example_event; Outside 120 ∅;
                Invoke "run-3" example_event] in
  ((lease_available "run-1" (clock w) (table w !! "k1") ∧
    ∃ b, load "k1" w = Ok b ∧ Batch.status b = VNone) ∨
   extends no_submission w (@handler example_lib "run-1" example_event w).2) ∧
  (length (List.filter (created "k1") (@run example_lib steps w).1) ≤ 1)%nat ∧
  created "k1" <$> (@run example_lib steps w).1 = [true; false; false].
Proof.
  pose proof (@submission_is_guarded_and_completes_once example_lib "k1"
                "run-1" example_event
                [Invoke "run-1" example_event; Outside 110 ∅;
                 Invoke "run-2" example_event; Outside 120 ∅;
                 Invoke "run-3" example_event]
                (example_world None "FAILED" ∅ ∅ 102) eq_refl) as [H1 H2].
  split; [exact H1|]. split; [exact (H2 eq_refl)|]. by vm_compute.
Defined.

(** Even with cleanup off, [submit_job] itself can be called twice for a
    cache key: a submission that raises leaves no state behind and the
    next invocation starts it again.  Only one of them completes. *)
Lemma submission_retried_after_error :
  let w := {| environ := example_environ None; table := ∅; bucket := ∅;
              clock := 102; batch_api := throttled_api; trace := [] |} in
  let out := @run example_lib
               [Invoke "run-1" example_event; Outside 110 ∅;
                Invoke "run-2" example_event] w in
  created "k1" <$> out.1 = [false; true] ∧
  count_calls (is_submit_job "k1") (trace out.2) = 2%nat.
Proof. by vm_compute. Qed.

(** ** Rows of other cache keys *)

(** An invocation only writes the row of its own cache key. *)
Lemma handler_other_rows `{!PyLib} (run_id : string) (ev : Event)
    (ck k : string) (w : World) :
  ev_cache_key ev = Some ck → k ≠ ck →
  table (handler run_id ev w).2 !! k = table w !! k.
Proof.
  intros Hck Hne.
  apply (stable_handler (same_row k) (off_row k) (closed_same_row k)).
  intros ck' Hck' d. assert (ck' = ck) as -> by congruence.
  split_and!.
  - intros c Hc. destruct Hc; cbn; try done; by intros <-.
  - intros c Hc. destruct Hc; cbn; try done; by intros <-.
  - apply (stable_delete_on_fail _ _ (closed_same_row k)).
    intros c Hc. destruct Hc; cbn; try done; by intros <-.
  - intros c Hc. by destruct Hc.
  - intros c Hc. by destruct Hc.
Qed.

(** ** The retry budget seen from the handler *)

(** A stored state that carries a counter above the budget makes the
    handler answer 422; it only probes for the output, and the stored
    state stays as it was. *)
Lemma handler_exhausted_budget `{!PyLib}
    (run_id : string) (ev : Event) (ck : string) (w : World) (j jd : val)
    (n : Z) :
  let d := {| Dynamo.cache_key := ck; Dynamo.run_id := run_id |} in
  let state := VDict [("job_id", j); ("job_def", jd);
                      ("status", VStr SUCCESS_STATE); ("iters", VInt n)] in
  let key := Batch.result_key (environ w) (Batch.new ck) in
  ev_cache_key ev = Some ck →
  lease_available run_id (clock w) (table w !! ck) →
  stored w ck = Some state →
  n > MAX_ITERS →
  bucket w !! key = None →
  let out := handler run_id ev w in
  out.1 = Ok (response 422 "task failed to write output" VNone) ∧
  stored out.2 ck = Some state ∧
  trace out.2 =
    [unlock_call d ck (clock w); HeadObject key; GetItem ck;
     lock_call d ck (clock w)] ++ trace w.
Proof.
  intros d state key Hck Hfree Hstored Hover Habsent. cbn zeta.
  rewrite (handler_finish _ _ ck) by done. fold d.
  assert (handler_body d ev (after_lock d w)
          = (Ok (response 422 "task failed to write output" VNone),
             log (HeadObject key) (log (GetItem ck) (after_lock d w)))) as ->.
  { erewrite (handler_body_load d ev (after_lock d w));
      [|unfold after_lock; cbn; apply lookup_insert_eq|done].
    unfold stored in Hstored. cbn [locked_row obj Dynamo.cache_key d].
    rewrite Hstored. unfold state. cbn [from_option id truthy].
    set (b := {| Batch.cache_key := ck; Batch.job_id := j; Batch.job_def := jd;
                 Batch.status := VStr SUCCESS_STATE; Batch.iters := VInt n;
                 Batch.client := None |}).
    change (Batch.init ck _) with (Ok b).
    cbn [Batch.status b is_none]. unfold poll_branch.
    cbn [Batch.status b val_eq_str SUCCESS_STATE]. rewrite String.eqb_refl.
    unfold bind at 1.
    destruct (exhausted_budget_run d b
                (log (GetItem ck) (after_lock d w)) n) as [-> _]; done. }
  unfold finish. cbn [fst snd].
  rewrite unlock_owned.
  2: apply holds_lease_after_lock.
  split_and!; [done| |done].
  unfold stored. cbn. by rewrite !lookup_insert_eq.
Qed.

(** * Further properties of the code *)

(** ** The blob store: [s3_get] and [s3_put] *)

(** [s3_get] never raises on the modelled bucket: it gives back the body
    stored under the key, or [None] when there is none (the 404 of
    [head_object] is swallowed), and it reads only: one probe, followed by
    one read when the object exists. *)
Theorem s3_get_reads_bucket (key : string) (w : World) :
  (s3_get key w).1 = Ok (bucket w !! key) ∧
  bucket (s3_get key w).2 = bucket w ∧
  table (s3_get key w).2 = table w ∧
  trace (s3_get key w).2 =
    match bucket w !! key with
    | Some _ => [GetObject key; HeadObject key]
    | None => [HeadObject key]
    end ++ trace w.
Proof.
  unfold s3_get, bind, catch, head_object, get_object, ret.
  cbn [log bucket trace]. destruct (bucket w !! key) as [body|] eqn:E; cbn.
  - by rewrite E.
  - done.
Qed.

(** What is uploaded with [s3_put] is what [s3_get] reads back under the
    same key; other keys are not affected, and the location handed back
    is the [s3://bucket/key] address of the object. *)
Theorem s3_put_then_get (body key : string) (w : World) :
  let out := s3_put (VStr body) key w in
  out.1 = Ok ("s3://" +:+ S3_BUCKET (environ w) +:+ "/" +:+ key) ∧
  (s3_get key out.2).1 = Ok (Some body) ∧
  (∀ k, k ≠ key → (s3_get k out.2).1 = (s3_get k w).1).
Proof.
  cbn zeta. split_and!.
  - done.
  - destruct (s3_get_reads_bucket key (s3_put (VStr body) key w).2) as [-> _].
    cbn. by rewrite lookup_insert_eq.
  - intros k Hk.
    destruct (s3_get_reads_bucket k (s3_put (VStr body) key w).2) as [-> _].
    destruct (s3_get_reads_bucket k w) as [-> _].
    cbn. by rewrite lookup_insert_ne.
Qed.

(** ** The lease store: [put], [unlock], [delete] *)

(** [put] is guarded like [lock]: it writes the state, the owner and the
    time exactly when the lease is available to the caller; otherwise it
    returns false (the failed condition check is swallowed) and the table
    stays as it was. *)
Theorem put_succeeds_iff_lease_available (d : Dynamo.t) (o : val) (w : World) :
  let k := Dynamo.cache_key d in
  let free := lease_available (Dynamo.run_id d) (clock w) (table w !! k) in
  (Dynamo.put d o w).1 = Ok (bool_decide free) ∧
  table (Dynamo.put d o w).2 =
    (if bool_decide free
     then <[k := {| lock_key := Some (Dynamo.run_id d);
                    update_time := Some (clock w); obj := Some o |}]> (table w)
     else table w).
Proof.
  cbn zeta. rewrite put_unfold. cbn zeta. rewrite lease_cond_spec.
  by case_bool_decide.
Qed.

(** A state written with [put] under an available lease is the state that
    [get] returns, whatever the state is. *)
Theorem put_then_get (d : Dynamo.t) (o : val) (w : World) :
  lease_available (Dynamo.run_id d) (clock w) (table w !! Dynamo.cache_key d) →
  (Dynamo.get d (Dynamo.put d o w).2).1 = Ok o.
Proof.
  intros Hfree. rewrite put_unfold. cbn zeta. rewrite lease_cond_spec.
  rewrite bool_decide_eq_true_2 by done. rewrite get_unfold.
  cbn. by rewrite lookup_insert_eq.
Qed.

Lemma put_then_get_witness :
  let w := example_world None "RUNNING" ∅ ∅ 102 in
  (Dynamo.get (example_dynamo "me")
     (Dynamo.put (example_dynamo "me") (example_state "submitted") w).2).1
  = Ok (example_state "submitted").
Proof.
  apply (put_then_get (example_dynamo "me") (example_state "submitted")
           (example_world None "RUNNING" ∅ ∅ 102)).
  left. reflexivity.
Defined.

(** [unlock] releases the lease only for its owner: it returns true
    exactly when the caller is the recorded lock owner, and then removes
    the owner, refreshes the time and keeps the stored state; for anyone
    else it returns false and the table stays as it was, so a lease
    cannot be released by another invocation. *)
Theorem unlock_only_by_owner (d : Dynamo.t) (w : World) :
  let k := Dynamo.cache_key d in
  let owned := table w !! k ≫= lock_key = Some (Dynamo.run_id d) in
  (Dynamo.unlock d None w).1 = Ok (bool_decide owned) ∧
  table (Dynamo.unlock d None w).2 =
    (if bool_decide owned
     then <[k := {| lock_key := None; update_time := Some (clock w);
                    obj := table w !! k ≫= obj |}]> (table w)
     else table w).
Proof.
  cbn zeta. rewrite unlock_unfold. cbn zeta. cbn [eval_cond].
  destruct (table w !! Dynamo.cache_key d ≫= lock_key) as [o|] eqn:E.
  - destruct (String.eqb_spec o (Dynamo.run_id d)) as [->|Hne].
    + by rewrite bool_decide_eq_true_2.
    + rewrite bool_decide_eq_false_2; [done|]. by intros [= ->].
  - by rewrite bool_decide_eq_false_2.
Qed.

(** A lease taken at time [t] keeps every other owner out up to and
    including time [t + TIMEOUT], and can be taken over by anyone after
    that; its owner can take it again at any time. *)
Theorem lease_excludes_others_until_timeout (d1 d2 : Dynamo.t) (w w' : World) :
  Dynamo.cache_key d2 = Dynamo.cache_key d1 →
  Dynamo.run_id d2 ≠ Dynamo.run_id d1 →
  lease_available (Dynamo.run_id d1) (clock w)
    (table w !! Dynamo.cache_key d1) →
  table w' = table (Dynamo.lock d1 None w).2 →
  (Dynamo.lock d2 None w').1 = Ok (bool_decide (clock w + TIMEOUT < clock w')) ∧
  (Dynamo.lock d1 None w').1 = Ok true.
Proof.
  intros Hkey Hne Hfree Htable.
  rewrite lock_acquired in Htable by done. cbn [snd after_lock table set_table]
    in Htable.
  rewrite !lock_unfold. cbn zeta. rewrite !lease_cond_spec.
  cbn [Dynamo.key_or]. rewrite Hkey, Htable, lookup_insert_eq.
  split.
  - destruct (decide (clock w + TIMEOUT < clock w')) as [Hlate|Hearly].
    + rewrite (bool_decide_eq_true_2 (clock w + _ < _)) by done.
      rewrite bool_decide_eq_true_2; [done|]. right. right. cbn. lia.
    + rewrite (bool_decide_eq_false_2 (clock w + _ < _)) by done.
      rewrite bool_decide_eq_false_2; [done|].
      intros [H|[H|H]]; cbn in H; [done|congruence|lia].
  - rewrite bool_decide_eq_true_2; [done|]. right. by left.
Qed.

Lemma lease_excludes_others_until_timeout_witness :
  let w := example_world None "RUNNING" ∅ ∅ 100 in
  let w' := set_outside 105 ∅ (Dynamo.lock (example_dynamo "me") None w).2 in
  (Dynamo.lock (example_dynamo "other") None w').1
    = Ok (bool_decide (100 + TIMEOUT < 105)) ∧
  (Dynamo.lock (example_dynamo "me") None w').1 = Ok true.
Proof.
  assert ("other" ≠ "me") as Hne by discriminate.
  exact (lease_excludes_others_until_timeout
           (example_dynamo "me") (example_dynamo "other")
           (example_world None "RUNNING" ∅ ∅ 100)
           (set_outside 105 ∅
              (Dynamo.lock (example_dynamo "me") None
                 (example_world None "RUNNING" ∅ ∅ 100)).2)
           eq_refl Hne (or_introl eq_refl) eq_refl).
Defined.

(** [delete] removes the row when the lease is available to the caller.
    When another owner holds a live lease it does not return false like
    the other operations: the failed condition check is raised as a
    [ClientError], and the row stays. *)
Theorem delete_raises_when_lease_is_held (d : Dynamo.t) (w : World) :
  let k := Dynamo.cache_key d in
  let free := lease_available (Dynamo.run_id d) (clock w) (table w !! k) in
  (Dynamo.delete d w).1 =
    (if bool_decide free then Ok ()
     else Raise (ClientError "ConditionalCheckFailedException"
                   "The conditional request failed" "DeleteItem")) ∧
  table (Dynamo.delete d w).2 =
    (if bool_decide free then delete k (table w) else table w).
Proof.
  cbn zeta. unfold Dynamo.delete, bind, now, delete_item.
  rewrite lease_cond_spec. by case_bool_decide.
Qed.

(** ** The answers of the handler *)

Lemma closed_any_world : closed any_world (λ _, True).
Proof. split; [split|]; by repeat intros ?. Qed.

Lemma stable_any_world {A} (m : M A) : stable any_world m.
Proof. by intros w. Qed.

Lemma answer_of_weaken (codes codes' : list Z) (r : val) :
  codes ⊆ codes' → answer_of codes r → answer_of codes' r.
Proof.
  intros Hsub (st & msg & dump & -> & Hst & Hdump).
  exists st, msg, dump. split_and!; [done|by apply Hsub|done].
Qed.

Lemma success_pipeline_answer (d : Dynamo.t) (b : Batch.t) :
  spec any_world (success_pipeline d b) (λ r, answer_of [200; 204; 422] r.1).
Proof.
  pose proof closed_any_world as HR. unfold success_pipeline.
  eapply (spec_bind _ _ HR); [apply stable_any_world|]. intros _ _.
  eapply (spec_bind _ _ HR); [apply stable_any_world|]. intros w' _.
  eapply (spec_bind _ _ HR); [apply stable_any_world|]. intros [body|] _.
  - apply (spec_ret _ _ HR). exists 200, "Job finished", (VStr body).
    split_and!; [done|set_solver|by eexists].
  - eapply (spec_bind _ _ HR); [apply stable_any_world|]. intros [] _.
    + apply (spec_ret _ _ HR). exists 422, "task failed to write output", VNone.
      split_and!; [done|set_solver|done].
    + eapply (spec_bind _ _ HR); [apply stable_any_world|]. intros n _.
      eapply (spec_bind _ _ HR); [apply stable_any_world|]. intros _ _.
      apply (spec_ret _ _ HR).
      exists 204, "waiting for task to write output", VNone.
      split_and!; [done|set_solver|done].
Qed.

Lemma poll_branch_answer `{!PyLib} (d : Dynamo.t) (b : Batch.t) :
  spec any_world (poll_branch d b) (answer_of [200; 202; 204; 400; 422]).
Proof.
  pose proof closed_any_world as HR. unfold poll_branch.
  assert (∀ b', spec any_world (let* r := success_pipeline d b' in ret r.1)
                  (answer_of [200; 202; 204; 400; 422])) as Hsucc.
  { intros b'. eapply (spec_bind _ _ HR); [apply success_pipeline_answer|].
    intros r Hr. apply (spec_ret _ _ HR).
    eapply answer_of_weaken; [|exact Hr].
    intros x. rewrite !elem_of_cons. tauto. }
  apply (spec_if any_world); [apply Hsucc|].
  eapply (spec_bind _ _ HR); [apply stable_any_world|]. intros [msg b'] _.
  eapply (spec_bind _ _ HR); [apply stable_any_world|]. intros _ _.
  repeat apply (spec_if any_world); [| |apply Hsucc].
  - eapply (spec_bind _ _ HR); [apply stable_any_world|]. intros _ _.
    apply (spec_ret _ _ HR). exists 202, msg, VNone.
    split_and!; [done|set_solver|done].
  - eapply (spec_bind _ _ HR); [apply stable_any_world|]. intros _ _.
    apply (spec_ret _ _ HR). exists 400, msg, VNone.
    split_and!; [done|set_solver|done].
Qed.

Lemma handler_body_answer `{!PyLib} (d : Dynamo.t) (ev : Event) :
  spec any_world (handler_body d ev)
    (answer_of [200; 201; 202; 204; 400; 422]).
Proof.
  pose proof closed_any_world as HR. unfold handler_body.
  eapply (spec_bind _ _ HR); [apply stable_any_world|]. intros st _.
  eapply (spec_bind _ _ HR); [apply stable_any_world|]. intros ck _.
  eapply (spec_bind _ _ HR); [apply stable_any_world|]. intros b _.
  apply (spec_if any_world).
  - eapply (spec_weaken any_world);
      [apply (spec_submit_branch any_world (λ _, True) HR); done|].
    intros r ->. exists 201, "job created and submitted", VNone.
    split_and!; [done|set_solver|done].
  - eapply (spec_weaken any_world); [apply poll_branch_answer|].
    intros r Hr. eapply answer_of_weaken; [|exact Hr].
    intros x. rewrite !elem_of_cons. tauto.
Qed.

(** Whatever happens, a response of the handler has one of the statuses
    200, 201, 202, 204, 400 and 422 and a text message, and it carries a
    dump exactly when its status is 200. *)
Theorem handler_answers `{!PyLib}
    (run_id : string) (ev : Event) (w : World) (r : val) :
  (handler run_id ev w).1 = Ok r →
  ∃ st msg,
    getitem_str r "status" = Ok (VInt st) ∧
    getitem_str r "message" = Ok (VStr msg) ∧
    st ∈ [200; 201; 202; 204; 400; 422] ∧
    (st = 200 ↔ ∃ body, getitem_str r "dump" = Ok (VStr body)).
Proof.
  destruct (ev_cache_key ev) as [ck|] eqn:Hck.
  2:{ unfold handler. by rewrite Hck. }
  destruct (decide (lease_available run_id (clock w) (table w !! ck)))
    as [Hfree|Hheld].
  - rewrite (handler_finish _ _ ck) by done. unfold finish. cbn [fst].
    set (d := {| Dynamo.cache_key := ck; Dynamo.run_id := run_id |}).
    destruct (handler_body_answer d ev (after_lock d w)) as [_ Hbody].
    destruct (handler_body d ev (after_lock d w)).1 as [r'|e].
    + intros [= <-].
      destruct (Hbody r' eq_refl) as (st & msg & dump & -> & Hst & Hdump).
      exists st, msg. split_and!; [done..|].
      cbn. destruct (Z.eqb_spec st 200) as [->|Hne].
      * destruct Hdump as [body ->]. split; [by eexists|done].
      * subst dump. split; [done|]. by intros [body [=]].
    + intros [= <-]. exists 400, (exn_str e).
      split_and!; [done|done|set_solver|]. split; [done|]. by intros [body [=]].
  - rewrite (handler_contended _ _ ck) by done. intros [= <-].
    exists 204, "Could not acquire job lock".
    split_and!; [done|done|set_solver|]. split; [done|]. by intros [body [=]].
Qed.

Lemma handler_answers_witness :
  let w := example_world None "RUNNING" ∅ ∅ 102 in
  let r := response 201 "job created and submitted" VNone in
  (@handler example_lib "me" example_event w).1 = Ok r ∧
  ∃ st msg,
    getitem_str r "status" = Ok (VInt st) ∧
    getitem_str r "message" = Ok (VStr msg) ∧
    st ∈ [200; 201; 202; 204; 400; 422] ∧
    (st = 200 ↔ ∃ body, getitem_str r "dump" = Ok (VStr body)).
Proof.
  split; [reflexivity|].
  exact (@handler_answers example_lib "me" example_event
           (example_world None "RUNNING" ∅ ∅ 102)
           (response 201 "job created and submitted" VNone) eq_refl).
Defined.

(** ** Retrieval of the result *)

Lemma s3_get_present (key body : string) (w : World) :
  bucket w !! key = Some body →
  s3_get key w = (Ok (Some body), log (GetObject key) (log (HeadObject key) w)).
Proof.
  intros Hb. unfold s3_get, bind, catch, head_object, get_object, ret.
  rewrite Hb. cbn. by rewrite Hb.
Qed.

Lemma gc_tolerated (b : Batch.t) (w : World) :
  Batch.client b = None →
  tolerated (deregister_job_definition (batch_api w)
               (DeregisterJobDefinition (Batch.job_def b) :: trace w)) →
  Batch.gc b w = (Ok (), log (DeregisterJobDefinition (Batch.job_def b)) w).
Proof.
  intros Hclient Htol. unfold Batch.gc, Batch.client_call, catch, batch_call.
  rewrite Hclient. cbn [log trace batch_api].
  destruct Htol as [->|(msg & op & -> & Hmsg)]; [done|].
  cbn. by rewrite Hmsg.
Qed.

Lemma gc_raises (b : Batch.t) (w : World) (e : exn) :
  Batch.client b = None →
  deregister_job_definition (batch_api w)
    (DeregisterJobDefinition (Batch.job_def b) :: trace w) = Raise e →
  ¬ tolerated (Raise e) →
  Batch.gc b w = (Raise e, log (DeregisterJobDefinition (Batch.job_def b)) w).
Proof.
  intros Hclient He Htol. unfold Batch.gc, Batch.client_call, catch, batch_call.
  rewrite Hclient. cbn [log trace batch_api]. rewrite He.
  destruct e as [| | | | |code msg op]; try done.
  destruct (String.eqb_spec code "ClientException") as [->|Hne]; [|done].
  cbn [negb]. destruct (str_contains "DEREGISTERED" msg) eqn:Hmsg; [|done].
  destruct Htol. right. by eexists _, _.
Qed.

Lemma load_state (ck : string) (w : World) (j jd st : val) :
  stored w ck = Some (VDict [("job_id", j); ("job_def", jd); ("status", st)]) →
  load ck w = Ok (loaded ck j jd st).
Proof. intros Hstored. unfold load. rewrite Hstored. apply init_state. Qed.

(** The result pipeline when the output is there: one attempt to release
    the job definition on the first entry, then the output is read. *)
Lemma success_pipeline_output (d : Dynamo.t) (b : Batch.t) (w : World)
    (body : string) :
  Batch.iters b = VInt 0 →
  Batch.client b = None →
  tolerated (deregister_job_definition (batch_api w)
               (DeregisterJobDefinition (Batch.job_def b) :: trace w)) →
  bucket w !! Batch.result_key (environ w) b = Some body →
  success_pipeline d b w =
    (Ok (response 200 "Job finished" (VStr body), b),
     log (GetObject (Batch.result_key (environ w) b))
       (log (HeadObject (Batch.result_key (environ w) b))
          (log (DeregisterJobDefinition (Batch.job_def b)) w))).
Proof.
  intros Hiters Hclient Htol Hbody. unfold success_pipeline.
  rewrite Hiters. cbn [val_eq_int Z.eqb].
  unfold bind at 1. rewrite gc_tolerated by done.
  unfold bind at 1. unfold get_world at 1.
  unfold bind at 1. cbn [environ log].
  by rewrite (s3_get_present _ body).
Qed.

(** A job stored as SUCCEEDED whose output is in the bucket: the answer
    is 200 with the output as dump.  The job definition is released
    first, and an answer that it is already DEREGISTERED is let pass.
    The stored state stays and the lease is given back. *)
Theorem finished_job_returns_output `{!PyLib}
    (run_id : string) (ev : Event) (ck : string) (w : World) (j jd : val)
    (body : string) :
  let d := {| Dynamo.cache_key := ck; Dynamo.run_id := run_id |} in
  let state := VDict [("job_id", j); ("job_def", jd);
                      ("status", VStr SUCCESS_STATE)] in
  let key := Batch.result_key (environ w) (Batch.new ck) in
  ev_cache_key ev = Some ck →
  lease_available run_id (clock w) (table w !! ck) →
  stored w ck = Some state →
  tolerated (deregister_job_definition (batch_api w)
               (DeregisterJobDefinition jd :: GetItem ck
                  :: lock_call d ck (clock w) :: trace w)) →
  bucket w !! key = Some body →
  let out := handler run_id ev w in
  out.1 = Ok (response 200 "Job finished" (VStr body)) ∧
  stored out.2 ck = Some state ∧
  table out.2 !! ck ≫= lock_key = None ∧
  trace out.2 =
    [unlock_call d ck (clock w); GetObject key; HeadObject key;
     DeregisterJobDefinition jd; GetItem ck; lock_call d ck (clock w)]
      ++ trace w.
Proof.
  intros d state key Hck Hfree Hstored Htol Hbody. cbn zeta.
  rewrite (handler_finish _ _ ck) by done. fold d.
  assert (handler_body d ev (after_lock d w)
          = (Ok (response 200 "Job finished" (VStr body)),
             log (GetObject key)
               (log (HeadObject key)
                  (log (DeregisterJobDefinition jd)
                     (log (GetItem ck) (after_lock d w)))))) as ->.
  { rewrite (handler_body_loaded d ev w) by done.
    cbn [Dynamo.cache_key d]. rewrite (load_state ck w j jd _ Hstored).
    cbn [loaded Batch.status is_none]. unfold poll_branch.
    change (val_eq_str _ SUCCESS_STATE) with (String.eqb SUCCESS_STATE SUCCESS_STATE).
    rewrite String.eqb_refl. unfold bind at 1.
    by rewrite (success_pipeline_output d _ _ body). }
  unfold finish. cbn [fst snd].
  rewrite unlock_owned.
  2: do 3 apply holds_lease_log; apply holds_lease_log, holds_lease_after_lock.
  split_and!; [done| | |done].
  - unfold stored. cbn. rewrite !lookup_insert_eq. cbn. apply Hstored.
  - cbn. by rewrite lookup_insert_eq.
Qed.

Lemma finished_job_returns_output_witness :
  let w := example_world None "SUCCEEDED"
             {["k1" := example_row None 100 (Some (example_state "SUCCEEDED"))]}
             {["k1/result.dump" := "result"]} 102 in
  let out := @handler example_lib "me" example_event w in
  out.1 = Ok (response 200 "Job finished" (VStr "result")) ∧
  stored out.2 "k1" = Some (example_state "SUCCEEDED") ∧
  table out.2 !! "k1" ≫= lock_key = None ∧
  trace out.2 =
    [unlock_call (example_dynamo "me") "k1" 102; GetObject "k1/result.dump";
     HeadObject "k1/result.dump";
     DeregisterJobDefinition (VStr "arn:job-definition/fn-k1:1");
     GetItem "k1"; lock_call (example_dynamo "me") "k1" 102].
Proof.
  pose proof (@finished_job_returns_output example_lib "me" example_event "k1"
                (example_world None "SUCCEEDED"
                   {["k1" := example_row None 100
                               (Some (example_state "SUCCEEDED"))]}
                   {["k1/result.dump" := "result"]} 102)
                (VStr "job-1") (VStr "arn:job-definition/fn-k1:1") "result"
                eq_refl (or_introl eq_refl) eq_refl (or_introl eq_refl) eq_refl)
    as H.
  exact H.
Defined.

Lemma not_tolerated_code (code msg op : string) :
  code ≠ "ClientException" → ¬ tolerated (Raise (ClientError code msg op)).
Proof. intros Hne [[=]|(msg' & op' & [= -> _ _] & _)]. done. Qed.

(** When the release of the job definition fails for another reason,
    the invocation answers 400 with the text of the error and does not
    look for the output at all, whether it is there or not. *)
Theorem failing_cleanup_blocks_the_output `{!PyLib}
    (run_id : string) (ev : Event) (ck : string) (w : World) (j jd : val)
    (e : exn) :
  let d := {| Dynamo.cache_key := ck; Dynamo.run_id := run_id |} in
  let state := VDict [("job_id", j); ("job_def", jd);
                      ("status", VStr SUCCESS_STATE)] in
  ev_cache_key ev = Some ck →
  lease_available run_id (clock w) (table w !! ck) →
  stored w ck = Some state →
  deregister_job_definition (batch_api w)
    (DeregisterJobDefinition jd :: GetItem ck :: lock_call d ck (clock w)
       :: trace w) = Raise e →
  ¬ tolerated (Raise e) →
  let out := handler run_id ev w in
  out.1 = Ok (response 400 (exn_str e) VNone) ∧
  stored out.2 ck = Some state ∧
  trace out.2 =
    [unlock_call d ck (clock w); DeregisterJobDefinition jd; GetItem ck;
     lock_call d ck (clock w)] ++ trace w.
Proof.
  intros d state Hck Hfree Hstored He Htol. cbn zeta.
  rewrite (handler_finish _ _ ck) by done. fold d.
  assert (handler_body d ev (after_lock d w)
          = (Raise e,
             log (DeregisterJobDefinition jd)
               (log (GetItem ck) (after_lock d w)))) as ->.
  { rewrite (handler_body_loaded d ev w) by done.
    cbn [Dynamo.cache_key d]. rewrite (load_state ck w j jd _ Hstored).
    cbn [loaded Batch.status is_none]. unfold poll_branch.
    change (val_eq_str _ SUCCESS_STATE)
      with (String.eqb SUCCESS_STATE SUCCESS_STATE).
    rewrite String.eqb_refl. unfold bind at 1. unfold success_pipeline.
    cbn [loaded Batch.iters val_eq_int Z.eqb].
    unfold bind at 1. by rewrite (gc_raises _ _ e). }
  unfold finish. cbn [fst snd].
  rewrite unlock_owned.
  2: apply holds_lease_log, holds_lease_log, holds_lease_after_lock.
  split_and!; [done| |done].
  unfold stored. cbn. rewrite !lookup_insert_eq. cbn. apply Hstored.
Qed.

Lemma failing_cleanup_blocks_the_output_witness :
  let api := {| register_job_definition :=
                  register_job_definition (example_api "SUCCEEDED");
                submit_job := submit_job (example_api "SUCCEEDED");
                describe_jobs := describe_jobs (example_api "SUCCEEDED");
                deregister_job_definition := λ _,
                  Raise (ClientError "AccessDeniedException" "not authorized"
                           "DeregisterJobDefinition") |} in
  let w := {| environ := example_environ None;
              table := {["k1" := example_row None 100
                                   (Some (example_state "SUCCEEDED"))]};
              bucket := {["k1/result.dump" := "result"]};
              clock := 102; batch_api := api; trace := [] |} in
  let out := @handler example_lib "me" example_event w in
  out.1 = Ok (response 400
                (exn_str (ClientError "AccessDeniedException" "not authorized"
                            "DeregisterJobDefinition")) VNone) ∧
  stored out.2 "k1" = Some (example_state "SUCCEEDED") ∧
  trace out.2 =
    [unlock_call (example_dynamo "me") "k1" 102;
     DeregisterJobDefinition (VStr "arn:job-definition/fn-k1:1");
     GetItem "k1"; lock_call (example_dynamo "me") "k1" 102].
Proof.
  assert ("AccessDeniedException" ≠ "ClientException") as Hne by discriminate.
  pose proof (@failing_cleanup_blocks_the_output example_lib "me" example_event
                "k1"
                {| environ := example_environ None;
                   table := {["k1" := example_row None 100
                                        (Some (example_state "SUCCEEDED"))]};
                   bucket := {["k1/result.dump" := "result"]};
                   clock := 102;
                   batch_api :=
                     {| register_job_definition :=
                          register_job_definition (example_api "SUCCEEDED");
                        submit_job := submit_job (example_api "SUCCEEDED");
                        describe_jobs := describe_jobs (example_api "SUCCEEDED");
                        deregister_job_definition := λ _,
                          Raise (ClientError "AccessDeniedException"
                                   "not authorized" "DeregisterJobDefinition") |};
                   trace := [] |}
                (VStr "job-1") (VStr "arn:job-definition/fn-k1:1") _
                eq_refl (or_introl eq_refl) eq_refl eq_refl
                (not_tolerated_code _ _ _ Hne))
    as H.
  exact H.
Defined.

(** ** A stored state that cannot be loaded *)




(** ** A job that failed, and a job that finished between two polls *)

Lemma not_succeeded (st : val) :
  st ≠ VStr SUCCESS_STATE → val_eq_str st SUCCESS_STATE = false.
Proof.
  intros Hst. apply not_true_is_false. by intros ->%val_eq_str_true.
Qed.

(** With a stored status other than SUCCEEDED the body of the handler is
    the polling branch on the loaded object. *)
Lemma handler_body_polls `{!PyLib} (d : Dynamo.t) (ev : Event) (w : World)
    (j jd st0 : val) :
  ev_cache_key ev = Some (Dynamo.cache_key d) →
  stored w (Dynamo.cache_key d)
    = Some (VDict [("job_id", j); ("job_def", jd); ("status", st0)]) →
  st0 ≠ VNone →
  handler_body d ev (after_lock d w) =
    poll_branch d (loaded (Dynamo.cache_key d) j jd st0)
      (log (GetItem (Dynamo.cache_key d)) (after_lock d w)).
Proof.
  intros Hck Hstored Hst0. rewrite (handler_body_loaded d ev w) by done.
  rewrite (load_state _ w j jd _ Hstored). cbn [loaded Batch.status].
  by destruct st0.
Qed.

Lemma update_failed `{!PyLib} (b : Batch.t) (w : World) (job : JobDetail)
    (jobs : list JobDetail) :
  Batch.client b = None →
  describe_jobs (batch_api w) (DescribeJobs (Batch.job_id b) :: trace w)
    = Ok (job :: jobs) →
  jd_status job = Some FAILED_STATE →
  Batch.update b w =
    (match last_item (default [{| container := None |}] (attempts job)) with
     | Ok a =>
         Ok (json_dumps
               (VDict [("job_id", Batch.job_id b);
                       ("cache_key", VStr (Batch.cache_key b));
                       ("failure_reason",
                        VStr (default "Unknown failure reason"
                                (reason (default {| reason := None |}
                                           (container a)))));
                       ("status_reason",
                        VStr (default "No additional status reason provided."
                                (statusReason job)))]),
             Batch.set_status (VStr FAILED_STATE) b)
     | Raise e => Raise e
     end, log (DescribeJobs (Batch.job_id b)) w).
Proof.
  intros Hclient Hdescribe Hstatus.
  unfold Batch.update, Batch.client_call. rewrite Hclient.
  unfold bind at 1. unfold batch_call. cbn [trace log batch_api].
  rewrite Hdescribe. unfold bind, lift, first_item, getitem, ret.
  rewrite Hstatus. cbn [String.eqb FAILED_STATE SUCCESS_STATE Ascii.eqb Bool.eqb].
  change (String.eqb FAILED_STATE SUCCESS_STATE) with false.
  change (String.eqb FAILED_STATE FAILED_STATE) with true. cbn beta iota.
  by destruct (last_item _).
Qed.

Lemma update_finished `{!PyLib} (b : Batch.t) (w : World) (job : JobDetail)
    (jobs : list JobDetail) (s : string) :
  Batch.client b = None →
  describe_jobs (batch_api w) (DescribeJobs (Batch.job_id b) :: trace w)
    = Ok (job :: jobs) →
  jd_status job = Some s →
  s ≠ FAILED_STATE →
  ∃ msg, Batch.update b w =
           (Ok (msg, Batch.set_status (VStr s) b),
            log (DescribeJobs (Batch.job_id b)) w).
Proof.
  intros Hclient Hdescribe Hstatus Hs.
  unfold Batch.update, Batch.client_call. rewrite Hclient.
  unfold bind at 1. unfold batch_call. cbn [trace log batch_api].
  rewrite Hdescribe. unfold bind, lift, first_item, getitem, ret.
  rewrite Hstatus. destruct (String.eqb s SUCCESS_STATE); [by eexists|].
  destruct (String.eqb_spec s FAILED_STATE); [done|by eexists].
Qed.

Lemma delete_owned (d : Dynamo.t) (w : World) :
  holds_lease d w → Dynamo.delete d w = (Ok (), after_delete d w).
Proof.
  intros Hheld. unfold Dynamo.delete, bind, now, delete_item.
  rewrite lease_cond_spec. rewrite bool_decide_eq_true_2; [done|].
  right. by left.
Qed.

(** A job that the compute service reports as FAILED: the answer is 400
    and its message is the JSON text naming the job, the cache key, the
    reason of the last attempt and the status reason (with their
    defaults when the service gives none).  With cleanup on failure
    switched on the row is deleted; otherwise the state is stored with
    status FAILED and the lease is given back. *)
Theorem failed_job_is_reported `{!PyLib}
    (run_id : string) (ev : Event) (ck : string) (w : World)
    (j jd st0 : val) (job : JobDetail) (jobs : list JobDetail) (a : Attempt) :
  ev_cache_key ev = Some ck →
  lease_available run_id (clock w) (table w !! ck) →
  stored w ck = Some (VDict [("job_id", j); ("job_def", jd); ("status", st0)]) →
  st0 ≠ VNone →
  st0 ≠ VStr SUCCESS_STATE →
  let d := {| Dynamo.cache_key := ck; Dynamo.run_id := run_id |} in
  describe_jobs (batch_api w)
    (DescribeJobs j :: GetItem ck :: lock_call d ck (clock w) :: trace w)
    = Ok (job :: jobs) →
  jd_status job = Some FAILED_STATE →
  last (default [{| container := None |}] (attempts job)) = Some a →
  let out := handler run_id ev w in
  let state := VDict [("job_id", j); ("job_def", jd);
                      ("status", VStr FAILED_STATE)] in
  let msg :=
    json_dumps
      (VDict [("job_id", j); ("cache_key", VStr ck);
              ("failure_reason",
               VStr (default "Unknown failure reason"
                       (reason (default {| reason := None |} (container a)))));
              ("status_reason",
               VStr (default "No additional status reason provided."
                       (statusReason job)))]) in
  out.1 = Ok (response 400 msg VNone) ∧
  if env_flag (DELETE_DYNAMO_ON_FAIL (environ w))
  then table out.2 !! ck = None
  else stored out.2 ck = Some state ∧ table out.2 !! ck ≫= lock_key = None.
Proof.
  intros Hck Hfree Hstored Hst0 Hst1 d Hdescribe Hstatus Hlast. cbn zeta.
  rewrite (handler_finish _ _ ck) by done. fold d.
  set (state := VDict [("job_id", j); ("job_def", jd);
                       ("status", VStr FAILED_STATE)]).
  set (msg := json_dumps _).
  set (w1 := after_put d state
               (log (DescribeJobs j) (log (GetItem ck) (after_lock d w)))).
  assert (handler_body d ev (after_lock d w)
          = (Ok (response 400 msg VNone),
             if env_flag (DELETE_DYNAMO_ON_FAIL (environ w))
             then after_delete d w1 else w1)) as ->.
  { rewrite (handler_body_polls d ev w j jd st0) by done.
    cbn [Dynamo.cache_key d]. unfold poll_branch.
    change (val_eq_str (Batch.status _) SUCCESS_STATE)
      with (val_eq_str st0 SUCCESS_STATE).
    rewrite not_succeeded by done.
    unfold bind at 1.
    erewrite update_failed; [|done|exact Hdescribe|done].
    unfold last_item. rewrite Hlast.
    unfold bind at 1.
    rewrite put_owned by apply holds_lease_log, holds_lease_after_lock.
    cbn [Batch.status Batch.set_status].
    change (existsb _ PENDING_STATES) with false.
    change (val_eq_str (VStr FAILED_STATE) FAILED_STATE) with true.
    cbn beta iota. unfold bind at 1. unfold delete_on_fail.
    unfold bind at 1. unfold get_world at 1.
    change (environ (after_put _ _ _)) with (environ w).
    destruct (env_flag (DELETE_DYNAMO_ON_FAIL (environ w))); [|done].
    by rewrite delete_owned by apply holds_lease_after_put. }
  unfold finish. cbn [fst snd]. split; [done|].
  destruct (env_flag (DELETE_DYNAMO_ON_FAIL (environ w))).
  - rewrite unlock_unfold. cbn zeta. cbn [eval_cond].
    unfold after_delete at 1. cbn [table set_table log Dynamo.cache_key d].
    rewrite lookup_delete_eq. cbn. by rewrite lookup_delete_eq.
  - rewrite unlock_owned by apply holds_lease_after_put.
    cbn [snd]. split.
    + unfold stored. cbn. by rewrite !lookup_insert_eq.
    + cbn. by rewrite lookup_insert_eq.
Qed.

Lemma failed_job_is_reported_witness :
  let w := example_world (Some "1") "FAILED"
             {["k1" := example_row None 100 (Some (example_state "RUNNING"))]}
             ∅ 102 in
  let out := @handler example_lib "me" example_event w in
  out.1 = Ok (response 400
                (json_text
                   (VDict [("job_id", VStr "job-1"); ("cache_key", VStr "k1");
                           ("failure_reason", VStr "Unknown failure reason");
                           ("status_reason",
                            VStr "No additional status reason provided.")]))
                VNone) ∧
  table out.2 !! "k1" = None.
Proof.
  assert (VStr "RUNNING" ≠ VNone) as H0 by discriminate.
  assert (VStr "RUNNING" ≠ VStr SUCCESS_STATE) as H1 by discriminate.
  pose proof (@failed_job_is_reported example_lib "me" example_event "k1"
                (example_world (Some "1") "FAILED"
                   {["k1" := example_row None 100
                               (Some (example_state "RUNNING"))]} ∅ 102)
                (VStr "job-1") (VStr "arn:job-definition/fn-k1:1")
                (VStr "RUNNING") _ [] {| container := None |}
                eq_refl (or_introl eq_refl) eq_refl H0 H1 eq_refl eq_refl
                eq_refl)
    as H.
  exact H.
Defined.

(** A FAILED job for which the service lists no attempt at all (an empty
    [attempts] list) is not reported as such: indexing the last attempt
    raises, the answer is 400 with the text of the [IndexError], the
    stored state keeps its old status and the row is not deleted even
    when cleanup on failure is switched on. *)
Theorem failed_job_without_attempts `{!PyLib}
    (run_id : string) (ev : Event) (ck : string) (w : World)
    (j jd st0 : val) (job : JobDetail) (jobs : list JobDetail) :
  ev_cache_key ev = Some ck →
  lease_available run_id (clock w) (table w !! ck) →
  stored w ck = Some (VDict [("job_id", j); ("job_def", jd); ("status", st0)]) →
  st0 ≠ VNone →
  st0 ≠ VStr SUCCESS_STATE →
  let d := {| Dynamo.cache_key := ck; Dynamo.run_id := run_id |} in
  describe_jobs (batch_api w)
    (DescribeJobs j :: GetItem ck :: lock_call d ck (clock w) :: trace w)
    = Ok (job :: jobs) →
  jd_status job = Some FAILED_STATE →
  attempts job = Some [] →
  let out := handler run_id ev w in
  out.1 = Ok (response 400 "list index out of range" VNone) ∧
  stored out.2 ck
    = Some (VDict [("job_id", j); ("job_def", jd); ("status", st0)]) ∧
  trace out.2 =
    [unlock_call d ck (clock w); DescribeJobs j; GetItem ck;
     lock_call d ck (clock w)] ++ trace w.
Proof.
  intros Hck Hfree Hstored Hst0 Hst1 d Hdescribe Hstatus Hattempts. cbn zeta.
  rewrite (handler_finish _ _ ck) by done. fold d.
  assert (handler_body d ev (after_lock d w)
          = (Raise (IndexError "list index out of range"),
             log (DescribeJobs j) (log (GetItem ck) (after_lock d w)))) as ->.
  { rewrite (handler_body_polls d ev w j jd st0) by done.
    cbn [Dynamo.cache_key d]. unfold poll_branch.
    change (val_eq_str (Batch.status _) SUCCESS_STATE)
      with (val_eq_str st0 SUCCESS_STATE).
    rewrite not_succeeded by done.
    unfold bind at 1.
    erewrite update_failed; [|done|exact Hdescribe|done].
    by rewrite Hattempts. }
  unfold finish. cbn [fst snd].
  rewrite unlock_owned.
  2: apply holds_lease_log, holds_lease_log, holds_lease_after_lock.
  split_and!; [done| |done].
  unfold stored. cbn. rewrite !lookup_insert_eq. cbn. apply Hstored.
Qed.

Lemma failed_job_without_attempts_witness :
  let api := {| register_job_definition :=
                  register_job_definition (example_api "FAILED");
                submit_job := submit_job (example_api "FAILED");
                describe_jobs := λ _,
                  Ok [{| jd_status := Some "FAILED"; attempts := Some [];
                         statusReason := Some "Job cancelled" |}];
                deregister_job_definition :=
                  deregister_job_definition (example_api "FAILED") |} in
  let w := {| environ := example_environ (Some "1");
              table := {["k1" := example_row None 100
                                   (Some (example_state "RUNNABLE"))]};
              bucket := ∅; clock := 102; batch_api := api; trace := [] |} in
  let out := @handler example_lib "me" example_event w in
  out.1 = Ok (response 400 "list index out of range" VNone) ∧
  stored out.2 "k1" = Some (example_state "RUNNABLE") ∧
  trace out.2 =
    [unlock_call (example_dynamo "me") "k1" 102; DescribeJobs (VStr "job-1");
     GetItem "k1"; lock_call (example_dynamo "me") "k1" 102].
Proof.
  assert (VStr "RUNNABLE" ≠ VNone) as H0 by discriminate.
  assert (VStr "RUNNABLE" ≠ VStr SUCCESS_STATE) as H1 by discriminate.
  pose proof (@failed_job_without_attempts example_lib "me" example_event "k1"
                {| environ := example_environ (Some "1");
                   table := {["k1" := example_row None 100
                                        (Some (example_state "RUNNABLE"))]};
                   bucket := ∅; clock := 102;
                   batch_api :=
                     {| register_job_definition :=
                          register_job_definition (example_api "FAILED");
                        submit_job := submit_job (example_api "FAILED");
                        describe_jobs := λ _,
                          Ok [{| jd_status := Some "FAILED";
                                 attempts := Some [];
                                 statusReason := Some "Job cancelled" |}];
                        deregister_job_definition :=
                          deregister_job_definition (example_api "FAILED") |};
                   trace := [] |}
                (VStr "job-1") (VStr "arn:job-definition/fn-k1:1")
                (VStr "RUNNABLE") _ [] eq_refl (or_introl eq_refl) eq_refl
                H0 H1 eq_refl eq_refl eq_refl)
    as H.
  exact H.
Defined.

(** A job that the service reports in a status that is neither pending
    nor FAILED (SUCCEEDED, that is) is collected by the same invocation:
    the new status is stored, the job definition is released and, with
    the output in the bucket, the answer is 200 with the output. *)
Theorem job_finished_between_polls `{!PyLib}
    (run_id : string) (ev : Event) (ck : string) (w : World)
    (j jd st0 : val) (job : JobDetail) (jobs : list JobDetail) (s body : string) :
  ev_cache_key ev = Some ck →
  lease_available run_id (clock w) (table w !! ck) →
  stored w ck = Some (VDict [("job_id", j); ("job_def", jd); ("status", st0)]) →
  st0 ≠ VNone →
  st0 ≠ VStr SUCCESS_STATE →
  let d := {| Dynamo.cache_key := ck; Dynamo.run_id := run_id |} in
  let state := VDict [("job_id", j); ("job_def", jd); ("status", VStr s)] in
  let key := Batch.result_key (environ w) (Batch.new ck) in
  describe_jobs (batch_api w)
    (DescribeJobs j :: GetItem ck :: lock_call d ck (clock w) :: trace w)
    = Ok (job :: jobs) →
  jd_status job = Some s →
  s ∉ PENDING_STATES →
  s ≠ FAILED_STATE →
  tolerated (deregister_job_definition (batch_api w)
               (DeregisterJobDefinition jd :: put_call d (clock w) state
                  :: DescribeJobs j :: GetItem ck :: lock_call d ck (clock w)
                  :: trace w)) →
  bucket w !! key = Some body →
  let out := handler run_id ev w in
  out.1 = Ok (response 200 "Job finished" (VStr body)) ∧
  stored out.2 ck = Some state ∧
  trace out.2 =
    [unlock_call d ck (clock w); GetObject key; HeadObject key;
     DeregisterJobDefinition jd; put_call d (clock w) state; DescribeJobs j;
     GetItem ck; lock_call d ck (clock w)] ++ trace w.
Proof.
  intros Hck Hfree Hstored Hst0 Hst1 d state key Hdescribe Hstatus Hpend Hfail
    Htol Hbody. cbn zeta.
  rewrite (handler_finish _ _ ck) by done. fold d.
  assert (handler_body d ev (after_lock d w)
          = (Ok (response 200 "Job finished" (VStr body)),
             log (GetObject key)
               (log (HeadObject key)
                  (log (DeregisterJobDefinition jd)
                     (after_put d state
                        (log (DescribeJobs j)
                           (log (GetItem ck) (after_lock d w)))))))) as ->.
  { rewrite (handler_body_polls d ev w j jd st0) by done.
    cbn [Dynamo.cache_key d]. unfold poll_branch.
    change (val_eq_str (Batch.status _) SUCCESS_STATE)
      with (val_eq_str st0 SUCCESS_STATE).
    rewrite not_succeeded by done.
    unfold bind at 1.
    destruct (update_finished (loaded ck j jd st0)
                (log (GetItem ck) (after_lock d w)) job jobs s)
      as [msg ->]; [done|exact Hdescribe|done..|].
    unfold bind at 1.
    rewrite put_owned by apply holds_lease_log, holds_lease_after_lock.
    cbn [Batch.status Batch.set_status].
    replace (existsb (val_eq_str (VStr s)) PENDING_STATES) with false.
    2:{ symmetry. apply not_true_is_false. intros (x & Hx & Heq)%existsb_exists.
        apply String.eqb_eq in Heq as ->. by apply Hpend, list_elem_of_In. }
    cbn [val_eq_str]. rewrite (proj2 (String.eqb_neq _ _) Hfail).
    unfold bind at 1.
    by rewrite (success_pipeline_output d _ _ body). }
  unfold finish. cbn [fst snd].
  rewrite unlock_owned.
  2: do 3 apply holds_lease_log; apply holds_lease_after_put.
  split_and!; [done| |done].
  unfold stored. cbn. by rewrite !lookup_insert_eq.
Qed.

Lemma job_finished_between_polls_witness :
  let w := example_world None "SUCCEEDED"
             {["k1" := example_row None 100 (Some (example_state "RUNNING"))]}
             {["k1/result.dump" := "result"]} 102 in
  let out := @handler example_lib "me" example_event w in
  out.1 = Ok (response 200 "Job finished" (VStr "result")) ∧
  stored out.2 "k1" = Some (example_state "SUCCEEDED") ∧
  trace out.2 =
    [unlock_call (example_dynamo "me") "k1" 102; GetObject "k1/result.dump";
     HeadObject "k1/result.dump";
     DeregisterJobDefinition (VStr "arn:job-definition/fn-k1:1");
     put_call (example_dynamo "me") 102 (example_state "SUCCEEDED");
     DescribeJobs (VStr "job-1"); GetItem "k1";
     lock_call (example_dynamo "me") "k1" 102].
Proof.
  assert (VStr "RUNNING" ≠ VNone) as H0 by discriminate.
  assert (VStr "RUNNING" ≠ VStr SUCCESS_STATE) as H1 by discriminate.
  assert ("SUCCEEDED" ∉ PENDING_STATES) as H2.
  { unfold PENDING_STATES. rewrite !elem_of_cons, elem_of_nil.
    intros [H|[H|[H|[H|[H|H]]]]]; done. }
  assert ("SUCCEEDED" ≠ FAILED_STATE) as H3 by discriminate.
  pose proof (@job_finished_between_polls example_lib "me" example_event "k1"
                (example_world None "SUCCEEDED"
                   {["k1" := example_row None 100
                               (Some (example_state "RUNNING"))]}
                   {["k1/result.dump" := "result"]} 102)
                (VStr "job-1") (VStr "arn:job-definition/fn-k1:1")
                (VStr "RUNNING") _ [] "SUCCEEDED" "result"
                eq_refl (or_introl eq_refl) eq_refl H0 H1 eq_refl eq_refl
                H2 H3 (or_introl eq_refl) eq_refl)
    as H.
  exact H.
Defined.

(** ** Waiting within the retry budget *)

(** An entry of the result pipeline with a counter between 1 and the
    budget that finds no output: it does not touch the job definition
    again, probes once for the output, puts the state, answers 204 and
    hands the object back with the counter raised by one. *)
Theorem waiting_within_the_budget
    (d : Dynamo.t) (b : Batch.t) (w : World) (n : Z) :
  Batch.iters b = VInt n →
  n ≠ 0 →
  n ≤ MAX_ITERS →
  bucket w !! Batch.result_key (environ w) b = None →
  let out := success_pipeline d b w in
  out.1 = Ok (response 204 "waiting for task to write output" VNone,
              Batch.set_iters (VInt (n + 1)) b) ∧
  trace out.2 =
    [put_call d (clock w) (Batch.state_dict b);
     HeadObject (Batch.result_key (environ w) b)] ++ trace w.
Proof.
  intros Hiters Hn Hle Habsent. cbn zeta.
  assert (success_pipeline d b w
          = (Ok (response 204 "waiting for task to write output" VNone,
                 Batch.set_iters (VInt (n + 1)) b),
             (Dynamo.put d (Batch.state_dict b)
                (log (HeadObject (Batch.result_key (environ w) b)) w)).2))
    as ->.
  { unfold success_pipeline. rewrite Hiters. cbn [val_eq_int].
    rewrite (proj2 (Z.eqb_neq n 0) Hn).
    unfold bind at 1. unfold ret at 1.
    unfold bind at 1. unfold get_world at 1.
    unfold bind at 1. rewrite s3_get_absent by done.
    unfold bind at 1. unfold lift at 1. cbn [py_gt].
    rewrite (proj2 (Z.ltb_ge MAX_ITERS n) Hle).
    unfold bind at 1. unfold lift at 1. cbn [py_incr].
    unfold bind at 1.
    change (Batch.state_dict (Batch.set_iters _ b)) with (Batch.state_dict b).
    rewrite put_unfold. cbn zeta. by destruct (eval_cond _ _). }
  split; [done|]. cbn [snd]. rewrite put_unfold. cbn zeta.
  by destruct (eval_cond _ _).
Qed.

Lemma waiting_within_the_budget_witness :
  let w := example_world None "SUCCEEDED"
             {["k1" := example_row (Some "me") 102
                         (Some (example_state "SUCCEEDED"))]} ∅ 102 in
  let b := Batch.set_iters (VInt 10)
             (Batch.set_status (VStr "SUCCEEDED") (Batch.new "k1")) in
  let out := success_pipeline (example_dynamo "me") b w in
  out.1 = Ok (response 204 "waiting for task to write output" VNone,
              Batch.set_iters (VInt (10 + 1)) b) ∧
  trace out.2 =
    [put_call (example_dynamo "me") 102 (Batch.state_dict b);
     HeadObject "k1/result.dump"].
Proof.
  assert (10 ≠ 0) as H0 by lia.
  assert (10 ≤ MAX_ITERS) as H1 by (unfold MAX_ITERS; lia).
  pose proof (waiting_within_the_budget (example_dynamo "me")
                (Batch.set_iters (VInt 10)
                   (Batch.set_status (VStr "SUCCEEDED") (Batch.new "k1")))
                (example_world None "SUCCEEDED"
                   {["k1" := example_row (Some "me") 102
                               (Some (example_state "SUCCEEDED"))]} ∅ 102)
                10 eq_refl H0 H1 eq_refl)
    as H.
  exact H.
Defined.

Lemma handler_other_rows_witness :
  let w := example_world None "RUNNING"
             {["k2" := example_row (Some "other") 100
                         (Some (example_state "RUNNING"))]} ∅ 102 in
  table (@handler example_lib "me" example_event w).2 !! "k2"
  = Some (example_row (Some "other") 100 (Some (example_state "RUNNING"))).
Proof.
  assert ("k2" ≠ "k1") as Hne by discriminate.
  pose proof (@handler_other_rows example_lib "me" example_event "k1" "k2"
                (example_world None "RUNNING"
                   {["k2" := example_row (Some "other") 100
                               (Some (example_state "RUNNING"))]} ∅ 102)
                eq_refl Hne)
    as H.
  exact H.
Defined.

Lemma handler_exhausted_budget_witness :
  let state := VDict [("job_id", VStr "job-1");
                      ("job_def", VStr "arn:job-definition/fn-k1:1");
                      ("status", VStr SUCCESS_STATE); ("iters", VInt 11)] in
  let w := example_world None "SUCCEEDED"
             {["k1" := example_row None 100 (Some state)]} ∅ 102 in
  let out := @handler example_lib "me" example_event w in
  out.1 = Ok (response 422 "task failed to write output" VNone) ∧
  stored out.2 "k1" = Some state ∧
  trace out.2 =
    [unlock_call (example_dynamo "me") "k1" 102; HeadObject "k1/result.dump";
     GetItem "k1"; lock_call (example_dynamo "me") "k1" 102].
Proof.
  assert (11 > MAX_ITERS) as Hover by (unfold MAX_ITERS; lia).
  pose proof (@handler_exhausted_budget example_lib "me" example_event "k1"
                (example_world None "SUCCEEDED"
                   {["k1" := example_row None 100
                               (Some (VDict [("job_id", VStr "job-1");
                                             ("job_def",
                                              VStr "arn:job-definition/fn-k1:1");
                                             ("status", VStr SUCCESS_STATE);
                                             ("iters", VInt 11)]))]} ∅ 102)
                (VStr "job-1") (VStr "arn:job-definition/fn-k1:1") 11
                eq_refl (or_introl eq_refl) eq_refl Hover eq_refl)
    as H.
  exact H.
Defined.

(** ** Submission *)

Lemma dict_get_set {A} (d : list (string * A)) (k k' : string) (v : A) :
  dict_get (dict_set d k v) k' = if String.eqb k k' then Some v else dict_get d k'.
Proof.
  induction d as [|[k0 v0] d IH]; cbn.
  - done.
  - destruct (String.eqb_spec k0 k) as [->|Hne]; cbn.
    + by destruct (String.eqb k k').
    + rewrite IH. destruct (String.eqb_spec k0 k') as [->|Hne']; [|done].
      by rewrite (proj2 (String.eqb_neq k k')).
Qed.

Lemma dict_get_absent {A} (d : list (string * A)) (k : string) :
  k ∉ dict_keys d → dict_get d k = None.
Proof.
  unfold dict_keys. induction d as [|[k0 v0] d IH]; cbn; [done|].
  rewrite not_elem_of_cons. intros [Hne Hk].
  rewrite (proj2 (String.eqb_neq k0 k)) by done. by apply IH.
Qed.

Lemma dict_get_merge {A} (d1 d2 : list (string * A)) (k : string) :
  NoDup (dict_keys d2) →
  dict_get (dict_merge d1 d2) k =
    match dict_get d2 k with
    | Some v => Some v
    | None => dict_get d1 k
    end.
Proof.
  unfold dict_merge, dict_keys. revert d1.
  induction d2 as [|[k0 v0] d2 IH]; intros d1 Hnodup; cbn; [done|].
  apply NoDup_cons in Hnodup as [Hk0 Hnodup]. rewrite IH by done.
  rewrite dict_get_set. destruct (String.eqb_spec k0 k) as [->|Hne]; [|done].
  by rewrite dict_get_absent.
Qed.

Lemma any_gpu_existsb (l : list val) :
  Forall (λ x, ∃ ty, getitem_str x "type" = Ok ty) l →
  Batch.any_gpu l = Ok (existsb is_gpu l).
Proof.
  induction 1 as [|x l [ty Hty] _ IH]; cbn; [done|].
  unfold is_gpu at 1. rewrite Hty. by destruct (val_eq_str ty "GPU").
Qed.

(** [submit], call by call. *)
Lemma submit_run `{!PyLib} (b : Batch.t) (w : World) (body script : string)
    (image : val) (reqs : list (string * val)) (l : list val)
    (role queue name arn : string) :
  Batch.client b = None →
  NoDup (dict_keys reqs) →
  default (VList []) (dict_get reqs "resourceRequirements") = VList l →
  Forall (λ x, ∃ ty, getitem_str x "type" = Ok ty) l →
  BATCH_TASK_ROLE_ARN (environ w) = Some role →
  (if existsb is_gpu l then GPU_QUEUE (environ w) else CPU_QUEUE (environ w))
    = Some queue →
  let w' := after_submit b body script image reqs role queue arn w in
  register_job_definition (batch_api w) (tail (trace w'))
    = Ok {| jobDefinitionName := Some name; jobDefinitionArn := Some arn |} →
  Batch.submit b (VStr body) (VStr script) image (VDict reqs) w =
    (match submit_job (batch_api w) (trace w') with
     | Ok (Some j) =>
         Ok (Batch.set_status (VStr "submitted")
               (Batch.set_job_id (VStr j) (Batch.set_job_def (VStr arn) b)))
     | Ok None => Raise (KeyError "jobId")
     | Raise e => Raise e
     end, w').
Proof.
  intros Hclient Hnodup Hreqs Htypes Hrole Hqueue w' Hregister.
  assert (Batch.iter_values
            (default (VList []) (dict_get (dict_merge DFLT_PROP reqs)
                                   "resourceRequirements")) = Ok l) as Hiter.
  { assert (dict_get (dict_merge DFLT_PROP reqs) "resourceRequirements"
            = dict_get reqs "resourceRequirements") as ->.
    { rewrite dict_get_merge by done. by destruct (dict_get reqs _). }
    by rewrite Hreqs. }
  unfold Batch.submit.
  unfold bind at 1. unfold get_world at 1.
  unfold bind at 1. unfold s3_put, bind at 1, get_world at 1.
  unfold bind at 1, ret at 1. unfold bind at 1, put_object at 1.
  unfold ret at 1. unfold bind at 1, ret at 1.
  unfold bind at 1, lift at 1. rewrite Hiter.
  unfold bind at 1, lift at 1. rewrite (any_gpu_existsb l Htypes).
  unfold bind at 1, ret at 1.
  unfold bind at 1, os_environ at 1. cbn [environ set_bucket log].
  rewrite Hrole.
  unfold bind at 1. unfold Batch._create_job_def, Batch.client_call.
  rewrite Hclient. unfold bind at 1, batch_call at 1.
  cbn [batch_api trace set_bucket log].
  unfold w', after_submit in Hregister. cbn [trace log tail set_bucket] in Hregister.
  unfold job_properties, input_key in Hregister. rewrite Hregister.
  unfold bind at 1, getitem at 1, ret at 1. cbn [jobDefinitionName].
  unfold bind at 1, getitem at 1, ret at 1. cbn [jobDefinitionArn].
  unfold bind at 1, getitem at 1, ret at 1. unfold ret at 1.
  unfold bind at 1. cbn [environ set_bucket log].
  assert ((if existsb is_gpu l
           then os_environ "GPU_QUEUE" GPU_QUEUE
           else os_environ "CPU_QUEUE" CPU_QUEUE)
          = λ w0, match (if existsb is_gpu l then GPU_QUEUE (environ w0)
                         else CPU_QUEUE (environ w0)) with
                  | Some v => (Ok v, w0)
                  | None => (Raise (KeyError (if existsb is_gpu l
                                              then "GPU_QUEUE"
                                              else "CPU_QUEUE")), w0)
                  end) as ->.
  { by destruct (existsb is_gpu l). }
  cbn [environ set_bucket log]. rewrite Hqueue.
  change (Batch.client (Batch.set_job_def _ b)) with (Batch.client b).
  rewrite Hclient. unfold bind at 1, batch_call at 1.
  cbn [batch_api trace set_bucket log Batch.cache_key Batch.set_job_def
         Batch.job_def].
  unfold w', after_submit, job_properties, input_key. cbn [trace log].
  destruct (submit_job _ _) as [[j|]|e]; done.
Qed.

(** The job goes to the queue of [GPU_QUEUE] when one of the resource
    requirements has type GPU, and to the queue of [CPU_QUEUE] when none
    has, or when there are no resource requirements; it runs under the
    job definition that was just registered. *)
Theorem submit_selects_the_queue `{!PyLib} (b : Batch.t) (w : World)
    (body script : string) (image : val) (reqs : list (string * val))
    (l : list val) (role queue name arn : string) :
  Batch.client b = None →
  NoDup (dict_keys reqs) →
  default (VList []) (dict_get reqs "resourceRequirements") = VList l →
  Forall (λ x, ∃ ty, getitem_str x "type" = Ok ty) l →
  BATCH_TASK_ROLE_ARN (environ w) = Some role →
  (if existsb is_gpu l then GPU_QUEUE (environ w) else CPU_QUEUE (environ w))
    = Some queue →
  register_job_definition (batch_api w)
    (tail (trace (after_submit b body script image reqs role queue arn w)))
    = Ok {| jobDefinitionName := Some name; jobDefinitionArn := Some arn |} →
  head (trace (Batch.submit b (VStr body) (VStr script) image (VDict reqs) w).2)
  = Some (SubmitJob ("fn-" +:+ Batch.cache_key b) queue (VStr arn)).
Proof.
  intros Hclient Hnodup Hreqs Htypes Hrole Hqueue Hregister.
  by rewrite (submit_run b w body script image reqs l role queue name arn).
Qed.

Lemma submit_selects_the_queue_witness :
  let reqs := [("resourceRequirements",
                VList [VDict [("type", VStr "VCPU"); ("value", VStr "4")];
                       VDict [("type", VStr "GPU"); ("value", VStr "1")]])] in
  let w := example_world None "RUNNING" ∅ ∅ 102 in
  head (trace (@Batch.submit example_lib (Batch.new "k1") (VStr "payload")
                 (VStr "print(1)") (VStr "python:3") (VDict reqs) w).2)
  = Some (SubmitJob "fn-k1" "gpu-queue" (VStr "arn:job-definition/fn-k1:1")).
Proof.
  assert (NoDup (dict_keys
                   [("resourceRequirements",
                     VList [VDict [("type", VStr "VCPU"); ("value", VStr "4")];
                            VDict [("type", VStr "GPU"); ("value", VStr "1")]])]))
    as Hnodup.
  { apply NoDup_singleton. }
  assert (Forall (λ x, ∃ ty, getitem_str x "type" = Ok ty)
            [VDict [("type", VStr "VCPU"); ("value", VStr "4")];
             VDict [("type", VStr "GPU"); ("value", VStr "1")]]) as Htypes.
  { repeat constructor; by eexists. }
  pose proof (@submit_selects_the_queue example_lib (Batch.new "k1")
                (example_world None "RUNNING" ∅ ∅ 102)
                "payload" "print(1)" (VStr "python:3") _ _
                "arn:role/task" "gpu-queue" "fn-k1" "arn:job-definition/fn-k1:1"
                eq_refl Hnodup eq_refl Htypes eq_refl eq_refl eq_refl)
    as H.
  exact H.
Defined.

Lemma dict_set_keys {A} (d : list (string * A)) (k : string) (v : A) :
  NoDup (dict_keys d) → NoDup (dict_keys (dict_set d k v)).
Proof.
  unfold dict_keys. induction d as [|[k0 v0] d IH]; cbn.
  - intros _. apply NoDup_singleton.
  - intros [Hk0 Hd]%NoDup_cons.
    destruct (String.eqb_spec k0 k) as [->|Hne]; cbn.
    + by apply NoDup_cons.
    + apply NoDup_cons. split; [|by apply IH].
      clear -Hk0 Hne. induction d as [|[k1 v1] d IH]; cbn in *.
      * apply not_elem_of_cons. split; [done|apply not_elem_of_nil].
      * apply not_elem_of_cons in Hk0 as [Hk1 Hk0].
        destruct (String.eqb_spec k1 k) as [->|Hne1]; cbn;
          apply not_elem_of_cons; split; auto.
Qed.

Lemma dict_merge_keys {A} (d1 d2 : list (string * A)) :
  NoDup (dict_keys d1) → NoDup (dict_keys (dict_merge d1 d2)).
Proof.
  unfold dict_merge. revert d1.
  induction d2 as [|[k v] d2 IH]; intros d1 Hd1; cbn; [done|].
  by apply IH, dict_set_keys.
Qed.

(** What [submit] registers: every container property given in the
    requirements is registered as given, also [image], [command],
    [environment] and [jobRoleArn], which then replace the values that
    [submit] computes; every other property has the value it has
    without requirements, among them one vCPU and 512 MB of memory. *)
Theorem requirements_override_job_properties `{!PyLib} (b : Batch.t) (w : World)
    (body script : string) (image : val) (reqs : list (string * val))
    (l : list val) (role queue name arn : string) :
  Batch.client b = None →
  NoDup (dict_keys reqs) →
  default (VList []) (dict_get reqs "resourceRequirements") = VList l →
  Forall (λ x, ∃ ty, getitem_str x "type" = Ok ty) l →
  BATCH_TASK_ROLE_ARN (environ w) = Some role →
  (if existsb is_gpu l then GPU_QUEUE (environ w) else CPU_QUEUE (environ w))
    = Some queue →
  register_job_definition (batch_api w)
    (tail (trace (after_submit b body script image reqs role queue arn w)))
    = Ok {| jobDefinitionName := Some name; jobDefinitionArn := Some arn |} →
  ∃ props,
    trace (Batch.submit b (VStr body) (VStr script) image (VDict reqs) w).2
    = [SubmitJob ("fn-" +:+ Batch.cache_key b) queue (VStr arn);
       RegisterJobDefinition ("fn-" +:+ Batch.cache_key b) props;
       PutObject (input_key (environ w) b) body] ++ trace w ∧
    (∀ k, dict_get props k =
            match dict_get reqs k with
            | Some v => Some v
            | None =>
                dict_get (job_properties (environ w) b script image role []) k
            end) ∧
    dict_get (job_properties (environ w) b script image role []) "vcpus"
      = Some (VInt 1) ∧
    dict_get (job_properties (environ w) b script image role []) "memory"
      = Some (VInt 512) ∧
    dict_get (job_properties (environ w) b script image role []) "image"
      = Some image ∧
    dict_get (job_properties (environ w) b script image role []) "jobRoleArn"
      = Some (VStr role).
Proof.
  intros Hclient Hnodup Hreqs Htypes Hrole Hqueue Hregister.
  exists (job_properties (environ w) b script image role reqs).
  rewrite (submit_run b w body script image reqs l role queue name arn) by done.
  split_and!; [done| |done..].
  intros k. unfold job_properties.
  assert (NoDup (dict_keys DFLT_PROP)) as Hd.
  { apply (bool_decide_unpack _). by vm_compute. }
  rewrite (dict_get_merge _ (dict_merge DFLT_PROP reqs))
    by by apply dict_merge_keys.
  rewrite (dict_get_merge _ (dict_merge DFLT_PROP [])) by done.
  rewrite (dict_get_merge DFLT_PROP reqs) by done.
  rewrite (dict_get_merge DFLT_PROP []) by apply NoDup_nil_2.
  cbn [dict_get]. by destruct (dict_get reqs k).
Qed.

Lemma requirements_override_job_properties_witness :
  let reqs := [("vcpus", VInt 4); ("jobRoleArn", VStr "arn:role/other")] in
  let b := Batch.new "k1" in
  let w := example_world None "RUNNING" ∅ ∅ 102 in
  let e := example_environ None in
  ∃ props,
    trace (@Batch.submit example_lib b (VStr "payload") (VStr "print(1)")
             (VStr "python:3") (VDict reqs) w).2
    = [SubmitJob "fn-k1" "cpu-queue" (VStr "arn:job-definition/fn-k1:1");
       RegisterJobDefinition "fn-k1" props;
       PutObject "k1/input.data" "payload"] ∧
    (∀ k, dict_get props k =
            match dict_get reqs k with
            | Some v => Some v
            | None =>
                dict_get (@job_properties example_lib e b "print(1)"
                            (VStr "python:3") "arn:role/task" []) k
            end) ∧
    dict_get (@job_properties example_lib e b "print(1)" (VStr "python:3")
                "arn:role/task" []) "vcpus" = Some (VInt 1) ∧
    dict_get (@job_properties example_lib e b "print(1)" (VStr "python:3")
                "arn:role/task" []) "memory" = Some (VInt 512) ∧
    dict_get (@job_properties example_lib e b "print(1)" (VStr "python:3")
                "arn:role/task" []) "image" = Some (VStr "python:3") ∧
    dict_get (@job_properties example_lib e b "print(1)" (VStr "python:3")
                "arn:role/task" []) "jobRoleArn" = Some (VStr "arn:role/task").
Proof.
  assert (NoDup (dict_keys [("vcpus", VInt 4);
                            ("jobRoleArn", VStr "arn:role/other")])) as Hnodup.
  { apply (bool_decide_unpack _). by vm_compute. }
  pose proof (@requirements_override_job_properties example_lib
                (Batch.new "k1") (example_world None "RUNNING" ∅ ∅ 102)
                "payload" "print(1)" (VStr "python:3") _ []
                "arn:role/task" "cpu-queue" "fn-k1" "arn:job-definition/fn-k1:1"
                eq_refl Hnodup eq_refl (Forall_nil_2 _) eq_refl eq_refl eq_refl)
    as H.
  exact H.
Defined.

(** ** The first invocation for a cache key *)

Lemma load_fresh (ck : string) (w : World) :
  stored w ck = None → load ck w = Ok (Batch.new ck).
Proof. intros Hstored. unfold load. by rewrite Hstored. Qed.

(** Without a stored state the body of the handler is the submission
    branch on a fresh object. *)
Lemma handler_body_submits `{!PyLib} (d : Dynamo.t) (ev : Event) (w : World) :
  ev_cache_key ev = Some (Dynamo.cache_key d) →
  stored w (Dynamo.cache_key d) = None →
  handler_body d ev (after_lock d w) =
    submit_branch d ev (Batch.new (Dynamo.cache_key d))
      (log (GetItem (Dynamo.cache_key d)) (after_lock d w)).
Proof.
  intros Hck Hstored. rewrite (handler_body_loaded d ev w) by done.
  by rewrite load_fresh.
Qed.

Lemma submit_branch_run `{!PyLib} (d : Dynamo.t) (ev : Event) (b : Batch.t)
    (w : World) (kwargs : list (string * list val)) (dump script image reqs : val) :
  ev_kwargs ev = Some kwargs →
  ev_dump ev = Some dump →
  submit_arguments kwargs = Ok (script, image, reqs) →
  submit_branch d ev b w =
    (let* b' := Batch.submit b dump script image reqs in
     Dynamo.put d (Batch.state_dict b') ;;;
     ret (response 201 "job created and submitted" VNone)) w.
Proof.
  intros Hkwargs Hdump Hargs. unfold submit_branch, submit_arguments in *.
  rewrite Hkwargs, Hdump. unfold bind at 1, getitem at 1, ret at 1.
  unfold bind at 1, lift at 1.
  destruct (last_of_each kwargs []) as [kw|e]; [|done].
  unfold bind at 1, getitem at 1, ret at 1.
  unfold bind at 1, lift at 1. by rewrite Hargs.
Qed.

(** The first invocation for a cache key, when every step works: the
    input is uploaded under [input.data], a job definition is registered
    and a job submitted under it; the state with the job identifier, the
    job definition and the status "submitted" is stored, the lease is
    given back and the answer is 201. *)
Theorem new_job_is_submitted `{!PyLib}
    (run_id : string) (ev : Event) (ck : string) (w : World)
    (kwargs : list (string * list val)) (body script : string) (image : val)
    (reqs : list (string * val)) (l : list val)
    (role queue name arn jid : string) :
  let d := {| Dynamo.cache_key := ck; Dynamo.run_id := run_id |} in
  let b := Batch.new ck in
  let state := VDict [("job_id", VStr jid); ("job_def", VStr arn);
                      ("status", VStr "submitted")] in
  ev_cache_key ev = Some ck →
  lease_available run_id (clock w) (table w !! ck) →
  stored w ck = None →
  ev_kwargs ev = Some kwargs →
  ev_dump ev = Some (VStr body) →
  submit_arguments kwargs = Ok (VStr script, image, VDict reqs) →
  NoDup (dict_keys reqs) →
  default (VList []) (dict_get reqs "resourceRequirements") = VList l →
  Forall (λ x, ∃ ty, getitem_str x "type" = Ok ty) l →
  BATCH_TASK_ROLE_ARN (environ w) = Some role →
  (if existsb is_gpu l then GPU_QUEUE (environ w) else CPU_QUEUE (environ w))
    = Some queue →
  let w' := after_submit b body script image reqs role queue arn
              (log (GetItem ck) (after_lock d w)) in
  register_job_definition (batch_api w) (tail (trace w'))
    = Ok {| jobDefinitionName := Some name; jobDefinitionArn := Some arn |} →
  submit_job (batch_api w) (trace w') = Ok (Some jid) →
  let out := handler run_id ev w in
  out.1 = Ok (response 201 "job created and submitted" VNone) ∧
  stored out.2 ck = Some state ∧
  table out.2 !! ck ≫= lock_key = None ∧
  bucket out.2 = <[input_key (environ w) b := body]> (bucket w) ∧
  trace out.2 =
    unlock_call d ck (clock w) :: put_call d (clock w) state :: trace w'.
Proof.
  intros d b state Hck Hfree Hstored Hkwargs Hdump Hargs Hnodup Hreqs Htypes
    Hrole Hqueue w' Hregister Hsubmit. cbn zeta.
  rewrite (handler_finish _ _ ck) by done. fold d.
  assert (handler_body d ev (after_lock d w)
          = (Ok (response 201 "job created and submitted" VNone),
             after_put d state w')) as ->.
  { rewrite (handler_body_submits d ev w) by done.
    cbn [Dynamo.cache_key d]. fold b.
    rewrite (submit_branch_run d ev b _ kwargs (VStr body) (VStr script) image
               (VDict reqs)) by done.
    unfold bind at 1.
    rewrite (submit_run b _ body script image reqs l role queue name arn)
      by done.
    fold w'.
    change (batch_api (log (GetItem ck) (after_lock d w))) with (batch_api w).
    rewrite Hsubmit.
    unfold bind at 1. rewrite put_owned.
    2:{ unfold w', after_submit. cbn zeta.
        do 2 apply holds_lease_log. unfold holds_lease. cbn [table set_bucket].
        apply (holds_lease_log d), holds_lease_log, holds_lease_after_lock. }
    done. }
  unfold finish. cbn [fst snd].
  rewrite unlock_owned by apply holds_lease_after_put.
  split_and!; [done| | |done..].
  - unfold stored. cbn. by rewrite !lookup_insert_eq.
  - cbn. by rewrite lookup_insert_eq.
Qed.

Lemma new_job_is_submitted_witness :
  let w := example_world None "RUNNING" ∅ ∅ 102 in
  let out := @handler example_lib "me" example_event w in
  out.1 = Ok (response 201 "job created and submitted" VNone) ∧
  stored out.2 "k1" = Some (example_state "submitted") ∧
  table out.2 !! "k1" ≫= lock_key = None ∧
  bucket out.2 = {["k1/input.data" := "payload"]} ∧
  trace out.2 =
    unlock_call (example_dynamo "me") "k1" 102
    :: put_call (example_dynamo "me") 102 (example_state "submitted")
    :: trace (@after_submit example_lib (Batch.new "k1") "payload" "print(1)"
                (VStr "python:3") [] "arn:role/task" "cpu-queue"
                "arn:job-definition/fn-k1:1"
                (log (GetItem "k1") (after_lock (example_dynamo "me") w))).
Proof.
  pose proof (@new_job_is_submitted example_lib "me" example_event "k1"
                (example_world None "RUNNING" ∅ ∅ 102) _
                "payload" "print(1)" (VStr "python:3") [] []
                "arn:role/task" "cpu-queue" "fn-k1" "arn:job-definition/fn-k1:1"
                "job-1" eq_refl (or_introl eq_refl) eq_refl eq_refl eq_refl
                eq_refl NoDup_nil_2 eq_refl (Forall_nil_2 _) eq_refl eq_refl
                eq_refl eq_refl)
    as H.
  exact H.
Defined.

(** When [submit_job] fails after the upload and the registration, the
    answer is 400 with the text of the error and no state is stored, so
    the next invocation starts the submission again; the job definition
    that was registered is recorded nowhere. *)
Theorem failed_submission_leaves_no_state `{!PyLib}
    (run_id : string) (ev : Event) (ck : string) (w : World)
    (kwargs : list (string * list val)) (body script : string) (image : val)
    (reqs : list (string * val)) (l : list val)
    (role queue name arn : string) (e : exn) :
  let d := {| Dynamo.cache_key := ck; Dynamo.run_id := run_id |} in
  let b := Batch.new ck in
  ev_cache_key ev = Some ck →
  lease_available run_id (clock w) (table w !! ck) →
  stored w ck = None →
  ev_kwargs ev = Some kwargs →
  ev_dump ev = Some (VStr body) →
  submit_arguments kwargs = Ok (VStr script, image, VDict reqs) →
  NoDup (dict_keys reqs) →
  default (VList []) (dict_get reqs "resourceRequirements") = VList l →
  Forall (λ x, ∃ ty, getitem_str x "type" = Ok ty) l →
  BATCH_TASK_ROLE_ARN (environ w) = Some role →
  (if existsb is_gpu l then GPU_QUEUE (environ w) else CPU_QUEUE (environ w))
    = Some queue →
  let w' := after_submit b body script image reqs role queue arn
              (log (GetItem ck) (after_lock d w)) in
  register_job_definition (batch_api w) (tail (trace w'))
    = Ok {| jobDefinitionName := Some name; jobDefinitionArn := Some arn |} →
  submit_job (batch_api w) (trace w') = Raise e →
  let out := handler run_id ev w in
  out.1 = Ok (response 400 (exn_str e) VNone) ∧
  stored out.2 ck = None ∧
  load ck out.2 = Ok b ∧
  trace out.2 = unlock_call d ck (clock w) :: trace w'.
Proof.
  intros d b Hck Hfree Hstored Hkwargs Hdump Hargs Hnodup Hreqs Htypes
    Hrole Hqueue w' Hregister Hsubmit. cbn zeta.
  rewrite (handler_finish _ _ ck) by done. fold d.
  assert (handler_body d ev (after_lock d w) = (Raise e, w')) as ->.
  { rewrite (handler_body_submits d ev w) by done.
    cbn [Dynamo.cache_key d]. fold b.
    rewrite (submit_branch_run d ev b _ kwargs (VStr body) (VStr script) image
               (VDict reqs)) by done.
    unfold bind at 1.
    rewrite (submit_run b _ body script image reqs l role queue name arn)
      by done.
    fold w'.
    change (batch_api (log (GetItem ck) (after_lock d w))) with (batch_api w).
    by rewrite Hsubmit. }
  unfold finish. cbn [fst snd].
  rewrite unlock_owned.
  2:{ unfold w', after_submit. cbn zeta.
      do 2 apply holds_lease_log. unfold holds_lease. cbn [table set_bucket].
      apply (holds_lease_log d), holds_lease_log, holds_lease_after_lock. }
  assert (stored (after_unlock d w') ck = None) as Hnone.
  { unfold stored. cbn. rewrite !lookup_insert_eq. cbn. apply Hstored. }
  split_and!; [done|done| |done].
  by apply load_fresh.
Qed.

Lemma failed_submission_leaves_no_state_witness :
  let w := {| environ := example_environ None; table := ∅; bucket := ∅;
              clock := 102; batch_api := throttled_api; trace := [] |} in
  let e := ClientError "TooManyRequestsException" "Too Many Requests"
             "SubmitJob" in
  let out := @handler example_lib "me" example_event w in
  out.1 = Ok (response 400 (exn_str e) VNone) ∧
  stored out.2 "k1" = None ∧
  load "k1" out.2 = Ok (Batch.new "k1") ∧
  trace out.2 =
    unlock_call (example_dynamo "me") "k1" 102
    :: trace (@after_submit example_lib (Batch.new "k1") "payload" "print(1)"
                (VStr "python:3") [] "arn:role/task" "cpu-queue"
                "arn:job-definition/fn-k1:1"
                (log (GetItem "k1") (after_lock (example_dynamo "me") w))).
Proof.
  pose proof (@failed_submission_leaves_no_state example_lib "me" example_event
                "k1"
                {| environ := example_environ None; table := ∅; bucket := ∅;
                   clock := 102; batch_api := throttled_api; trace := [] |} _
                "payload" "print(1)" (VStr "python:3") [] []
                "arn:role/task" "cpu-queue" "fn-k1" "arn:job-definition/fn-k1:1"
                _ eq_refl (or_introl eq_refl) eq_refl eq_refl eq_refl
                eq_refl NoDup_nil_2 eq_refl (Forall_nil_2 _) eq_refl eq_refl
                eq_refl eq_refl)
    as H.
  exact H.
Defined.

Lemma last_of_each_get (items : list (string * list val))
    (acc kw : list (string * val)) (k : string) :
  last_of_each items acc = Ok kw → k ∉ items.*1 → dict_get kw k = dict_get acc k.
Proof.
  revert acc. induction items as [|[k0 v0] items IH]; intros acc; cbn.
  - by intros [= ->].
  - destruct (last_item v0) as [x|e]; [|done].
    intros Hkw [Hne Hk]%not_elem_of_cons. rewrite (IH _ Hkw Hk).
    rewrite dict_get_set. by rewrite (proj2 (String.eqb_neq k0 k)).
Qed.

Lemma submit_kwargs_missing (kw : list (string * val)) :
  dict_get kw "script" = None ∨ dict_get kw "image" = None →
  ∃ e, submit_kwargs kw = Raise e.
Proof.
  intros Hmiss. unfold submit_kwargs.
  destruct (dict_get kw "dump"); [by eexists|].
  destruct (filter _ _); [|by eexists].
  destruct Hmiss as [->| ->]; [by eexists|].
  destruct (dict_get kw "script"); by eexists.
Qed.

Lemma submit_arguments_missing (kwargs : list (string * list val)) :
  "script" ∉ kwargs.*1 ∨ "image" ∉ kwargs.*1 →
  ∃ e, submit_arguments kwargs = Raise e.
Proof.
  intros Hmiss. unfold submit_arguments.
  destruct (last_of_each kwargs []) as [kw|e] eqn:Hkw; [|by eexists].
  apply submit_kwargs_missing.
  assert (∀ k, k ≠ "requirements" → k ∉ kwargs.*1 →
            dict_get match dict_get kw "requirements" with
                     | Some _ => kw
                     | None => dict_set kw "requirements" (VDict [])
                     end k = None) as Hget.
  { intros k Hne Hk. pose proof (last_of_each_get _ _ _ k Hkw Hk) as Hnone.
    destruct (dict_get kw "requirements"); [done|].
    rewrite dict_get_set. by rewrite (proj2 (String.eqb_neq _ k)). }
  destruct Hmiss; [left|right]; by apply Hget.
Qed.

(** A first invocation whose parameters lack the script or the image is
    answered 400 before anything is uploaded, registered or submitted:
    the only calls are those that take the lease, read the row and give
    the lease back, and no state is stored. *)
Theorem incomplete_request_makes_no_call `{!PyLib}
    (run_id : string) (ev : Event) (ck : string) (w : World)
    (kwargs : list (string * list val)) :
  let d := {| Dynamo.cache_key := ck; Dynamo.run_id := run_id |} in
  ev_cache_key ev = Some ck →
  lease_available run_id (clock w) (table w !! ck) →
  stored w ck = None →
  ev_kwargs ev = Some kwargs →
  "script" ∉ kwargs.*1 ∨ "image" ∉ kwargs.*1 →
  let out := handler run_id ev w in
  (∃ msg, out.1 = Ok (response 400 msg VNone)) ∧
  stored out.2 ck = None ∧
  bucket out.2 = bucket w ∧
  trace out.2 =
    [unlock_call d ck (clock w); GetItem ck; lock_call d ck (clock w)]
      ++ trace w.
Proof.
  intros d Hck Hfree Hstored Hkwargs Hmiss. cbn zeta.
  rewrite (handler_finish _ _ ck) by done. fold d.
  assert (∃ e, handler_body d ev (after_lock d w)
               = (Raise e, log (GetItem ck) (after_lock d w))) as [e ->].
  { rewrite (handler_body_submits d ev w) by done.
    cbn [Dynamo.cache_key d].
    destruct (submit_arguments_missing kwargs Hmiss) as [e He].
    unfold submit_branch, submit_arguments in *.
    rewrite Hkwargs. unfold bind at 1, getitem at 1, ret at 1.
    unfold bind at 1, lift at 1.
    destruct (last_of_each kwargs []) as [kw|e']; [|by eexists].
    unfold bind at 1, getitem at 1.
    destruct (ev_dump ev) as [dump|]; [|by eexists].
    unfold ret at 1. unfold bind at 1, lift at 1. rewrite He. by eexists. }
  unfold finish. cbn [fst snd].
  rewrite unlock_owned by apply holds_lease_log, holds_lease_after_lock.
  split_and!; [by eexists| |done..].
  unfold stored. cbn. rewrite !lookup_insert_eq. cbn. apply Hstored.
Qed.

Lemma incomplete_request_makes_no_call_witness :
  let ev := {| ev_cache_key := Some "k1"; ev_dump := Some (VStr "payload");
               ev_kwargs := Some [("script", [VStr "print(1)"])] |} in
  let w := example_world None "RUNNING" ∅ ∅ 102 in
  let out := @handler example_lib "me" ev w in
  (∃ msg, out.1 = Ok (response 400 msg VNone)) ∧
  stored out.2 "k1" = None ∧
  bucket out.2 = ∅ ∧
  trace out.2 =
    [unlock_call (example_dynamo "me") "k1" 102; GetItem "k1";
     lock_call (example_dynamo "me") "k1" 102].
Proof.
  assert ("script" ∉ [("script", [VStr "print(1)"])].*1
          ∨ "image" ∉ [("script", [VStr "print(1)"])].*1) as Hmiss.
  { right. cbn. apply not_elem_of_cons. split; [done|apply not_elem_of_nil]. }
  pose proof (@incomplete_request_makes_no_call example_lib "me"
                {| ev_cache_key := Some "k1"; ev_dump := Some (VStr "payload");
                   ev_kwargs := Some [("script", [VStr "print(1)"])] |}
                "k1" (example_world None "RUNNING" ∅ ∅ 102) _
                eq_refl (or_introl eq_refl) eq_refl eq_refl Hmiss)
    as H.
  exact H.
Defined.

(** * The deployment tool *)

(** A response is that of an absent stack, or has one of the statuses. *)
Lemma describe_stack_status (client : batch_dag.CloudFormation) (name : string)
    (h h' : list batch_dag.CfnCall) (r : val) :
  batch_dag.describe_stack client name h = (Ok r, h') →
  r = VNone ∨
  ∃ st, getitem_str r "status" = Ok (VStr st) ∧
        st ∈ ["success"; "failed"; "creating"].
Proof.
  unfold batch_dag.describe_stack.
  destruct (batch_dag.describe_stacks client _) as [stacks|e].
  - destruct (first_item stacks) as [stack|e]; [|done].
    destruct (batch_dag.StackStatus stack) as [status|]; [|done].
    destruct (bool_decide (status ∈ batch_dag.COMPLETE)).
    { destruct (batch_dag.StackId stack) as [id|]; [|done].
      destruct (batch_dag.outputs_dict _ _); [|done].
      intros [= <- _]. right. exists "success". split; [done|]. by left. }
    destruct (bool_decide (status ∈ batch_dag.FAILED)).
    { destruct (batch_dag.describe_stack_events client _); [|done].
      intros [= <- _]. right. exists "failed". split; [done|]. right. by left. }
    intros [= <- _]. right. exists "creating". split; [done|].
    do 2 right. by left.
  - destruct e; try done. destruct (str_contains _ _); [|done].
    intros [= <- _]. by left.
Qed.

Lemma poll_status (client : batch_dag.CloudFormation) (name : string)
    (fuel : nat) (r0 r : val) (h h' : list batch_dag.CfnCall) :
  (r0 = VNone ∨
   ∃ st, getitem_str r0 "status" = Ok (VStr st) ∧
         st ∈ ["success"; "failed"; "creating"]) →
  batch_dag.poll client name fuel r0 h = Some (Ok r, h') →
  ∃ st, getitem_str r "status" = Ok (VStr st) ∧
        st ∈ ["success"; "failed"; "error"].
Proof.
  revert r0 h. induction fuel as [|fuel IH]; intros r0 h Hr0; cbn [batch_dag.poll].
  - destruct Hr0 as [->|(st & Hget & Hst)]; [done|]. rewrite Hget.
    cbn [val_eq_str].
    destruct (String.eqb_spec st "creating") as [->|Hne]; [done|].
    intros [= <- _]. exists st. split; [done|].
    rewrite !elem_of_cons, elem_of_nil in Hst. rewrite !elem_of_cons. tauto.
  - destruct Hr0 as [->|(st & Hget & Hst)]; [done|]. rewrite Hget.
    cbn [val_eq_str].
    destruct (String.eqb_spec st "creating") as [->|Hne].
    + destruct (batch_dag.describe_stack client name _) as [[r1|e] h1] eqn:Hd.
      * apply IH. by eapply describe_stack_status.
      * destruct e; try done. intros [= <- _]. exists "error".
        split; [done|]. do 2 right. by left.
    + intros [= <- _]. exists st. split; [done|].
      rewrite !elem_of_cons, elem_of_nil in Hst. rewrite !elem_of_cons. tauto.
Qed.

(** What [deploy] returns has a status.  It is success, failed or error,
    with one exception: when an update is refused because there is
    nothing to update, the description of the stack is handed back as it
    is, and that may be "creating". *)
Theorem deploy_returns_a_final_status (client : batch_dag.CloudFormation)
    (template name : string) (update : bool) (fuel : nat)
    (h h' : list batch_dag.CfnCall) (r : val) :
  batch_dag.deploy client template name update fuel h = Some (Ok r, h') →
  ∃ st, getitem_str r "status" = Ok (VStr st) ∧
        (st ∈ ["success"; "failed"; "error"] ∨
         (st = "creating" ∧ update = true ∧
          head h' = Some (batch_dag.UpdateStack name template))).
Proof.
  unfold batch_dag.deploy.
  destruct (batch_dag.describe_stack client name h) as [[r0|e] h1] eqn:Hd;
    [|done].
  pose proof (describe_stack_status _ _ _ _ _ Hd) as Hr0.
  destruct (is_none r0 || update) eqn:Hnew.
  - destruct (if update && negb (is_none r0) then _ else _) as [[]|e] eqn:Hcall.
    + intros Hpoll. eapply poll_status in Hpoll as (st & Hst & Hin).
      * exists st. by split; [|left].
      * right. exists "creating". split; [done|]. do 2 right. by left.
    + destruct e as [| | | | |code msg op]; try done.
      destruct (batch_dag.str_ends_with _ msg && negb (is_none r0)) eqn:Hno; [|done].
      apply andb_true_iff in Hno as [_ Hsome%negb_true_iff].
      intros [= <- <-].
      destruct Hr0 as [->|(st & Hget & Hin)]; [done|].
      exists st. split; [done|].
      rewrite Hsome in Hnew. cbn in Hnew. subst update.
      rewrite Hsome. cbn [negb andb head].
      rewrite !elem_of_cons, elem_of_nil in Hin. rewrite !elem_of_cons.
      destruct Hin as [->|[->|[->|[]]]]; tauto.
  - intros Hpoll. eapply poll_status in Hpoll as (st & Hst & Hin); [|done].
    exists st. by split; [|left].
Qed.

Lemma deploy_returns_a_final_status_witness :
  let r := VDict [("status", VStr "success");
                  ("stack_id", VStr "arn:stack/dml-batch");
                  ("outputs",
                   VDict [("LambdaFunctionArn", VStr "arn:lambda/fn")])] in
  let h' := [batch_dag.DescribeStacks "dml-batch"] in
  batch_dag.deploy (batch_dag.example_cloudformation "CREATE_COMPLETE")
    "{}" "dml-batch" false 0 [] = Some (Ok r, h') ∧
  ∃ st, getitem_str r "status" = Ok (VStr st) ∧
        (st ∈ ["success"; "failed"; "error"] ∨
         (st = "creating" ∧ false = true ∧
          head h' = Some (batch_dag.UpdateStack "dml-batch" "{}"))).
Proof.
  split; [reflexivity|].
  exact (deploy_returns_a_final_status
           (batch_dag.example_cloudformation "CREATE_COMPLETE")
           "{}" "dml-batch" false 0 [] _ _ eq_refl).
Defined.

(** A stack that is already complete is left alone when no update is
    asked for: [deploy] describes it once and returns its identifier and
    outputs, without creating, updating or waiting. *)
Theorem deploy_leaves_a_complete_stack_alone (client : batch_dag.CloudFormation)
    (template name : string) (fuel : nat) (h : list batch_dag.CfnCall)
    (stack : batch_dag.Stack) (rest : list batch_dag.Stack)
    (status id : string) (outputs : list (string * val)) :
  batch_dag.describe_stacks client (batch_dag.DescribeStacks name :: h)
    = Ok (stack :: rest) →
  batch_dag.StackStatus stack = Some status →
  status = "CREATE_COMPLETE" ∨ status = "UPDATE_COMPLETE" →
  batch_dag.StackId stack = Some id →
  batch_dag.outputs_dict (default [] (batch_dag.Outputs stack)) [] = Ok outputs →
  batch_dag.deploy client template name false fuel h =
    Some (Ok (VDict [("status", VStr "success"); ("stack_id", VStr id);
                     ("outputs", VDict outputs)]),
          batch_dag.DescribeStacks name :: h).
Proof.
  intros Hdescribe Hstatus Hcomplete Hid Houtputs.
  unfold batch_dag.deploy, batch_dag.describe_stack.
  rewrite Hdescribe. cbn [first_item]. rewrite Hstatus.
  rewrite bool_decide_eq_true_2.
  2:{ unfold batch_dag.COMPLETE. rewrite !elem_of_cons. tauto. }
  rewrite Hid, Houtputs. cbn [is_none orb].
  by destruct fuel.
Qed.

Lemma deploy_leaves_a_complete_stack_alone_witness :
  batch_dag.deploy (batch_dag.example_cloudformation "UPDATE_COMPLETE")
    "{}" "dml-batch" false 0 [] =
    Some (Ok (VDict [("status", VStr "success");
                     ("stack_id", VStr "arn:stack/dml-batch");
                     ("outputs",
                      VDict [("LambdaFunctionArn", VStr "arn:lambda/fn")])]),
          [batch_dag.DescribeStacks "dml-batch"]).
Proof.
  exact (deploy_leaves_a_complete_stack_alone
           (batch_dag.example_cloudformation "UPDATE_COMPLETE")
           "{}" "dml-batch" 0 [] _ [] "UPDATE_COMPLETE" "arn:stack/dml-batch" _
           eq_refl eq_refl (or_intror eq_refl) eq_refl eq_refl).
Defined.

Lemma describe_stack_unlisted (client : batch_dag.CloudFormation)
    (name : string) (h : list batch_dag.CfnCall) :
  (∀ h', ∃ stack rest status,
     batch_dag.describe_stacks client h' = Ok (stack :: rest) ∧
     batch_dag.StackStatus stack = Some status ∧
     (status ∉ batch_dag.COMPLETE) ∧ (status ∉ batch_dag.FAILED)) →
  batch_dag.describe_stack client name h
  = (Ok batch_dag.creating, batch_dag.DescribeStacks name :: h).
Proof.
  intros Hany. unfold batch_dag.describe_stack.
  destruct (Hany (batch_dag.DescribeStacks name :: h))
    as (stack & rest & status & -> & Hstatus & Hc & Hf).
  cbn [first_item]. rewrite Hstatus.
  by rewrite !bool_decide_eq_false_2.
Qed.

(** As long as the stack is reported in a status that is in neither of
    the two lists, the loop of [deploy] goes on: whatever the number of
    rounds, it has not returned after them.  UPDATE_ROLLBACK_COMPLETE
    and DELETE_COMPLETE, in which a stack stays, are such statuses. *)
Theorem deploy_waits_while_status_is_unlisted (client : batch_dag.CloudFormation)
    (template name : string) (fuel : nat) (h : list batch_dag.CfnCall) :
  (∀ h', ∃ stack rest status,
     batch_dag.describe_stacks client h' = Ok (stack :: rest) ∧
     batch_dag.StackStatus stack = Some status ∧
     (status ∉ batch_dag.COMPLETE) ∧ (status ∉ batch_dag.FAILED)) →
  batch_dag.deploy client template name false fuel h = None.
Proof.
  intros Hany. unfold batch_dag.deploy.
  rewrite describe_stack_unlisted by done. cbn [is_none batch_dag.creating orb].
  generalize (batch_dag.DescribeStacks name :: h). clear h.
  induction fuel as [|fuel IH]; intros h; [done|].
  cbn [batch_dag.poll getitem_str dict_get String.eqb Ascii.eqb Bool.eqb
         val_eq_str].
  change (String.eqb "status" "status") with true. cbn iota.
  change (String.eqb "creating" "creating") with true. cbn iota.
  rewrite describe_stack_unlisted by done. apply IH.
Qed.

Lemma deploy_waits_while_status_is_unlisted_witness :
  batch_dag.deploy (batch_dag.example_cloudformation "UPDATE_ROLLBACK_COMPLETE")
    "{}" "dml-batch" false 100 [] = None.
Proof.
  apply (deploy_waits_while_status_is_unlisted
           (batch_dag.example_cloudformation "UPDATE_ROLLBACK_COMPLETE")
           "{}" "dml-batch" 100 []).
  intros h'. eexists _, _, _. split_and!; [reflexivity|reflexivity| |].
  - apply (bool_decide_unpack _). by vm_compute.
  - apply (bool_decide_unpack _). by vm_compute.
Defined.

Lemma describe_stack_absent (client : batch_dag.CloudFormation) (name : string)
    (h : list batch_dag.CfnCall) (code msg op : string) :
  batch_dag.describe_stacks client (batch_dag.DescribeStacks name :: h)
    = Raise (ClientError code msg op) →
  batch_dag.describe_stack client name h =
    (if str_contains "does not exist" (exn_str (ClientError code msg op))
     then Ok VNone else Raise (ClientError code msg op),
     batch_dag.DescribeStacks name :: h).
Proof.
  intros Hdescribe. unfold batch_dag.describe_stack. rewrite Hdescribe.
  by destruct (str_contains _ _).
Qed.

(** The first rounds of [deploy] for a stack that does not exist: the
    stack is created, also when an update was asked for, and after a
    wait of ten seconds it is described again. *)
Lemma deploy_creates (client : batch_dag.CloudFormation)
    (template name : string) (update : bool) (fuel : nat)
    (h : list batch_dag.CfnCall) (code msg op : string) :
  let h1 := batch_dag.CreateStack name template
            :: batch_dag.DescribeStacks name :: h in
  batch_dag.describe_stacks client (batch_dag.DescribeStacks name :: h)
    = Raise (ClientError code msg op) →
  str_contains "does not exist" (exn_str (ClientError code msg op)) = true →
  batch_dag.create_stack client h1 = Ok () →
  batch_dag.deploy client template name update (S fuel) h =
    match batch_dag.describe_stack client name (batch_dag.Sleep 10 :: h1) with
    | (Ok r, h') => batch_dag.poll client name fuel r h'
    | (Raise (ClientError c m o), h') =>
        Some (Ok (VDict [("status", VStr "error");
                         ("message", VStr (exn_str (ClientError c m o)))]), h')
    | (Raise e, h') => Some (Raise e, h')
    end.
Proof.
  intros h1 Hdescribe Habsent Hcreate. unfold batch_dag.deploy.
  rewrite (describe_stack_absent _ _ _ code msg op) by done. rewrite Habsent.
  cbn [is_none orb negb]. rewrite andb_false_r. fold h1. rewrite Hcreate.
  cbn [batch_dag.poll batch_dag.creating getitem_str dict_get val_eq_str].
  change (String.eqb "status" "status") with true. cbn iota.
  change (String.eqb "creating" "creating") with true. cbn iota.
  destruct (batch_dag.describe_stack client name _) as [[r|e] h']; [done|].
  by destruct e.
Qed.

(** A stack that does not exist is created; when the first description
    after the wait shows it complete, [deploy] returns its identifier and
    outputs after exactly these calls: describe, create, a wait of ten
    seconds, describe. *)
Theorem deploy_creates_an_absent_stack (client : batch_dag.CloudFormation)
    (template name : string) (update : bool) (fuel : nat)
    (h : list batch_dag.CfnCall) (code msg op : string)
    (stack : batch_dag.Stack) (rest : list batch_dag.Stack)
    (status id : string) (outputs : list (string * val)) :
  let h1 := batch_dag.CreateStack name template
            :: batch_dag.DescribeStacks name :: h in
  let h2 := batch_dag.DescribeStacks name :: batch_dag.Sleep 10 :: h1 in
  batch_dag.describe_stacks client (batch_dag.DescribeStacks name :: h)
    = Raise (ClientError code msg op) →
  str_contains "does not exist" (exn_str (ClientError code msg op)) = true →
  batch_dag.create_stack client h1 = Ok () →
  batch_dag.describe_stacks client h2 = Ok (stack :: rest) →
  batch_dag.StackStatus stack = Some status →
  status = "CREATE_COMPLETE" ∨ status = "UPDATE_COMPLETE" →
  batch_dag.StackId stack = Some id →
  batch_dag.outputs_dict (default [] (batch_dag.Outputs stack)) [] = Ok outputs →
  batch_dag.deploy client template name update (S fuel) h =
    Some (Ok (VDict [("status", VStr "success"); ("stack_id", VStr id);
                     ("outputs", VDict outputs)]), h2).
Proof.
  intros h1 h2 Hdescribe Habsent Hcreate Hagain Hstatus Hcomplete Hid Houtputs.
  rewrite (deploy_creates _ _ _ _ _ _ code msg op) by done. fold h1.
  unfold batch_dag.describe_stack. fold h2. rewrite Hagain.
  cbn [first_item]. rewrite Hstatus.
  rewrite bool_decide_eq_true_2.
  2:{ unfold batch_dag.COMPLETE. rewrite !elem_of_cons. tauto. }
  rewrite Hid, Houtputs. by destruct fuel.
Qed.

Lemma deploy_creates_an_absent_stack_witness :
  let stack := {| batch_dag.StackStatus := Some "CREATE_COMPLETE";
                  batch_dag.StackId := Some "arn:stack/dml-batch";
                  batch_dag.Outputs := None |} in
  batch_dag.deploy (batch_dag.fresh_cloudformation (Ok [stack]))
    "{}" "dml-batch" true 1 [] =
    Some (Ok (VDict [("status", VStr "success");
                     ("stack_id", VStr "arn:stack/dml-batch");
                     ("outputs", VDict [])]),
          [batch_dag.DescribeStacks "dml-batch"; batch_dag.Sleep 10;
           batch_dag.CreateStack "dml-batch" "{}";
           batch_dag.DescribeStacks "dml-batch"]).
Proof.
  exact (deploy_creates_an_absent_stack
           (batch_dag.fresh_cloudformation
              (Ok [{| batch_dag.StackStatus := Some "CREATE_COMPLETE";
                      batch_dag.StackId := Some "arn:stack/dml-batch";
                      batch_dag.Outputs := None |}]))
           "{}" "dml-batch" true 0 [] _ _ _ _ [] "CREATE_COMPLETE"
           "arn:stack/dml-batch" [] eq_refl eq_refl eq_refl eq_refl eq_refl
           (or_introl eq_refl) eq_refl eq_refl).
Defined.

(** When the stack is gone again at the first description after its
    creation, [deploy] does not return a response: reading the status of
    the missing description raises a [TypeError]. *)
Theorem deploy_raises_when_the_stack_disappears
    (client : batch_dag.CloudFormation) (template name : string)
    (update : bool) (fuel : nat) (h : list batch_dag.CfnCall)
    (code msg op code' msg' op' : string) :
  let h1 := batch_dag.CreateStack name template
            :: batch_dag.DescribeStacks name :: h in
  let h2 := batch_dag.DescribeStacks name :: batch_dag.Sleep 10 :: h1 in
  batch_dag.describe_stacks client (batch_dag.DescribeStacks name :: h)
    = Raise (ClientError code msg op) →
  str_contains "does not exist" (exn_str (ClientError code msg op)) = true →
  batch_dag.create_stack client h1 = Ok () →
  batch_dag.describe_stacks client h2 = Raise (ClientError code' msg' op') →
  str_contains "does not exist" (exn_str (ClientError code' msg' op')) = true →
  batch_dag.deploy client template name update (S fuel) h =
    Some (Raise (TypeError "'NoneType' object is not subscriptable"), h2).
Proof.
  intros h1 h2 Hdescribe Habsent Hcreate Hagain Hgone.
  rewrite (deploy_creates _ _ _ _ _ _ code msg op) by done. fold h1.
  rewrite (describe_stack_absent _ _ _ code' msg' op') by done.
  rewrite Hgone. by destruct fuel.
Qed.

Lemma deploy_raises_when_the_stack_disappears_witness :
  let gone := ClientError "ValidationError"
                "Stack with id dml-batch does not exist" "DescribeStacks" in
  batch_dag.deploy (batch_dag.fresh_cloudformation (Raise gone))
    "{}" "dml-batch" false 1 [] =
    Some (Raise (TypeError "'NoneType' object is not subscriptable"),
          [batch_dag.DescribeStacks "dml-batch"; batch_dag.Sleep 10;
           batch_dag.CreateStack "dml-batch" "{}";
           batch_dag.DescribeStacks "dml-batch"]).
Proof.
  exact (deploy_raises_when_the_stack_disappears
           (batch_dag.fresh_cloudformation
              (Raise (ClientError "ValidationError"
                        "Stack with id dml-batch does not exist"
                        "DescribeStacks")))
           "{}" "dml-batch" false 0 [] _ _ _ _ _ _
           eq_refl eq_refl eq_refl eq_refl eq_refl).
Defined.

(** Any other service error at the first description after the creation
    is not raised: [deploy] returns a response with status error and the
    text of the error as message. *)
Theorem deploy_reports_an_error_while_waiting
    (client : batch_dag.CloudFormation) (template name : string)
    (update : bool) (fuel : nat) (h : list batch_dag.CfnCall)
    (code msg op code' msg' op' : string) :
  let h1 := batch_dag.CreateStack name template
            :: batch_dag.DescribeStacks name :: h in
  let h2 := batch_dag.DescribeStacks name :: batch_dag.Sleep 10 :: h1 in
  batch_dag.describe_stacks client (batch_dag.DescribeStacks name :: h)
    = Raise (ClientError code msg op) →
  str_contains "does not exist" (exn_str (ClientError code msg op)) = true →
  batch_dag.create_stack client h1 = Ok () →
  batch_dag.describe_stacks client h2 = Raise (ClientError code' msg' op') →
  str_contains "does not exist" (exn_str (ClientError code' msg' op')) = false →
  batch_dag.deploy client template name update (S fuel) h =
    Some (Ok (VDict [("status", VStr "error");
                     ("message", VStr (exn_str (ClientError code' msg' op')))]),
          h2).
Proof.
  intros h1 h2 Hdescribe Habsent Hcreate Hagain Hother.
  rewrite (deploy_creates _ _ _ _ _ _ code msg op) by done. fold h1.
  rewrite (describe_stack_absent _ _ _ code' msg' op') by done.
  by rewrite Hother.
Qed.

Lemma deploy_reports_an_error_while_waiting_witness :
  let e := ClientError "Throttling" "Rate exceeded" "DescribeStacks" in
  batch_dag.deploy (batch_dag.fresh_cloudformation (Raise e))
    "{}" "dml-batch" false 1 [] =
    Some (Ok (VDict [("status", VStr "error"); ("message", VStr (exn_str e))]),
          [batch_dag.DescribeStacks "dml-batch"; batch_dag.Sleep 10;
           batch_dag.CreateStack "dml-batch" "{}";
           batch_dag.DescribeStacks "dml-batch"]).
Proof.
  exact (deploy_reports_an_error_while_waiting
           (batch_dag.fresh_cloudformation
              (Raise (ClientError "Throttling" "Rate exceeded" "DescribeStacks")))
           "{}" "dml-batch" false 0 [] _ _ _ _ _ _
           eq_refl eq_refl eq_refl eq_refl eq_refl).
Defined.

(** An update of an existing stack that CloudFormation refuses because
    there is nothing to update is no error: [deploy] returns what the
    description of the stack said before, without waiting. *)
Theorem deploy_without_changes_returns_the_description
    (client : batch_dag.CloudFormation) (template name : string) (fuel : nat)
    (h h1 : list batch_dag.CfnCall) (r : val) (code msg op : string) :
  batch_dag.describe_stack client name h = (Ok r, h1) →
  r ≠ VNone →
  batch_dag.update_stack client (batch_dag.UpdateStack name template :: h1)
    = Raise (ClientError code msg op) →
  batch_dag.str_ends_with "No updates are to be performed." msg = true →
  batch_dag.deploy client template name true fuel h =
    Some (Ok r, batch_dag.UpdateStack name template :: h1).
Proof.
  intros Hdescribe Hsome Hupdate Hmsg. unfold batch_dag.deploy.
  rewrite Hdescribe. rewrite orb_true_r.
  assert (is_none r = false) as -> by by destruct r.
  cbn [andb negb]. by rewrite Hupdate, Hmsg.
Qed.

Lemma deploy_without_changes_returns_the_description_witness :
  batch_dag.deploy (batch_dag.settled_cloudformation "UPDATE_COMPLETE")
    "{}" "dml-batch" true 0 [] =
    Some (Ok (VDict [("status", VStr "success");
                     ("stack_id", VStr "arn:stack/dml-batch");
                     ("outputs",
                      VDict [("LambdaFunctionArn", VStr "arn:lambda/fn")])]),
          [batch_dag.UpdateStack "dml-batch" "{}";
           batch_dag.DescribeStacks "dml-batch"]).
Proof.
  assert (VDict [("status", VStr "success");
                 ("stack_id", VStr "arn:stack/dml-batch");
                 ("outputs", VDict [("LambdaFunctionArn", VStr "arn:lambda/fn")])]
          ≠ VNone) as Hsome by discriminate.
  exact (deploy_without_changes_returns_the_description
           (batch_dag.settled_cloudformation "UPDATE_COMPLETE")
           "{}" "dml-batch" 0 [] _ _ _ _ _ eq_refl Hsome eq_refl eq_refl).
Defined.

(** * The record as an invocation sees it *)

(** ** Loading the stored state (C9) *)

Lemma finish_finally (d : Dynamo.t) (m : M val) (w : World) :
  finish d (m w) =
    finally (catch m (λ e, ret (response 400 (exn_str e) VNone)))
      (Dynamo.unlock d None) w.
Proof.
  unfold finish, finally, catch.
  destruct (m w) as [[r|e] w2]; cbn [fst snd ret].
  all: rewrite unlock_unfold; cbn zeta; by destruct (eval_cond _ _).
Qed.

(** An invocation that takes the lease is the lock, the read of the row
    and [resume] on the object built from the stored state. *)
Lemma handler_resumes `{!PyLib} (run_id : string) (ev : Event) (ck : string)
    (w : World) (b : Batch.t) :
  ev_cache_key ev = Some ck →
  lease_available run_id (clock w) (table w !! ck) →
  load ck w = Ok b →
  let d := {| Dynamo.cache_key := ck; Dynamo.run_id := run_id |} in
  handler run_id ev w = resume d ev b (log (GetItem ck) (after_lock d w)).
Proof.
  intros Hck Hfree Hload. cbn zeta.
  rewrite (handler_finish _ _ ck) by done.
  set (d := {| Dynamo.cache_key := ck; Dynamo.run_id := run_id |}).
  rewrite (handler_body_loaded d ev w) by done.
  cbn [Dynamo.cache_key d]. rewrite Hload. unfold resume.
  destruct (is_none (Batch.status b)); apply finish_finally.
Qed.

(** C9.  A state blob that the engine writes is a JSON object with
    exactly the keys [job_id], [job_def] and [status]: this is the shape
    of [state_dict], and every write of an invocation to the table
    carries either no state or a state of that shape.  [Batch] built
    from such a blob has the job identifier, the job definition and the
    status of the blob, the default client and the counter [iters] at
    its default, 0; and an invocation that finds such a blob stored runs
    its branch on exactly that object. *)
Theorem stored_state_has_no_iterations `{!PyLib} :
  (∀ b, is_state_blob (Batch.state_dict b)) ∧
  (∀ run_id ev w, extends writes_state_blobs w (handler run_id ev w).2) ∧
  (∀ ck v, is_state_blob v →
     ∃ j jd st,
       v = VDict [("job_id", j); ("job_def", jd); ("status", st)] ∧
       Batch.init ck (if truthy v then v else VDict []) =
         Ok {| Batch.cache_key := ck; Batch.job_id := j; Batch.job_def := jd;
               Batch.status := st; Batch.iters := VInt 0;
               Batch.client := None |}) ∧
  (∀ run_id ev ck w j jd st,
     ev_cache_key ev = Some ck →
     lease_available run_id (clock w) (table w !! ck) →
     stored w ck = Some (VDict [("job_id", j); ("job_def", jd); ("status", st)]) →
     let d := {| Dynamo.cache_key := ck; Dynamo.run_id := run_id |} in
     let b := {| Batch.cache_key := ck; Batch.job_id := j; Batch.job_def := jd;
                 Batch.status := st; Batch.iters := VInt 0;
                 Batch.client := None |} in
     handler run_id ev w = resume d ev b (log (GetItem ck) (after_lock d w))).
Proof.
  split_and!.
  - apply state_dict_is_state_blob.
  - intros run_id ev w. apply handler_calls.
    intros ck c _. apply engine_call_writes_state_blobs.
  - intros ck v (d & -> & Hkeys).
    destruct d as [|[k1 v1] [|[k2 v2] [|[k3 v3] [|]]]]; try done.
    cbn in Hkeys. injection Hkeys as -> -> ->. by exists v1, v2, v3.
  - intros run_id ev ck w j jd st Hck Hfree Hstored. cbn zeta.
    apply handler_resumes; [done..|].
    unfold load. rewrite Hstored. apply init_state.
Qed.

(** ** The exhausted budget, through the handler (C6) *)

(** C6.  The budget is 10.  The result pipeline entered with a counter
    above it and no output answers 422 "task failed to write output"
    with a null dump, hands the object back with its counter unchanged
    and makes one call, the probe for the output: nothing is written to
    the table and nothing is deleted.  The handler enters it in two
    ways, with the counter it loaded.  For a record stored as SUCCEEDED
    the invocation answers 422 after the lock, the read, the probe and
    the unlock, and the stored state is the one it found.  For a record
    whose job the poll finds finished, it first stores the new status as
    on every poll, then answers 422 after the probe alone. *)
Theorem exhausted_budget_is_final `{!PyLib}
    (run_id : string) (ev : Event) (ck : string) (w : World) (b : Batch.t)
    (n : Z) :
  let d := {| Dynamo.cache_key := ck; Dynamo.run_id := run_id |} in
  let key := Batch.result_key (environ w) b in
  let giving_up := response 422 "task failed to write output" VNone in
  let out := handler run_id ev w in
  ev_cache_key ev = Some ck →
  lease_available run_id (clock w) (table w !! ck) →
  load ck w = Ok b →
  Batch.iters b = VInt n →
  n > MAX_ITERS →
  bucket w !! key = None →
  MAX_ITERS = 10 ∧
  (∀ d' b' w',
     Batch.iters b' = VInt n →
     bucket w' !! Batch.result_key (environ w') b' = None →
     success_pipeline d' b' w' =
       (Ok (giving_up, b'),
        log (HeadObject (Batch.result_key (environ w') b')) w') ∧
     table (success_pipeline d' b' w').2 = table w') ∧
  (Batch.status b = VStr SUCCESS_STATE →
     out.1 = Ok giving_up ∧
     stored out.2 ck = stored w ck ∧
     trace out.2 =
       [unlock_call d ck (clock w); HeadObject key; GetItem ck;
        lock_call d ck (clock w)] ++ trace w) ∧
  (∀ job jobs s,
     Batch.status b ≠ VNone →
     Batch.status b ≠ VStr SUCCESS_STATE →
     Batch.client b = None →
     describe_jobs (batch_api w)
       (DescribeJobs (Batch.job_id b) :: GetItem ck
          :: lock_call d ck (clock w) :: trace w) = Ok (job :: jobs) →
     jd_status job = Some s →
     s ∉ PENDING_STATES →
     s ≠ FAILED_STATE →
     let state := Batch.state_dict (Batch.set_status (VStr s) b) in
     out.1 = Ok giving_up ∧
     stored out.2 ck = Some state ∧
     trace out.2 =
       [unlock_call d ck (clock w); HeadObject key;
        put_call d (clock w) state; DescribeJobs (Batch.job_id b);
        GetItem ck; lock_call d ck (clock w)] ++ trace w).
Proof.
  intros d key giving_up out Hck Hfree Hload Hiters Hover Habsent.
  subst out. split_and!.
  - done.
  - intros d' b' w' Hiters' Habsent'.
    by apply (exhausted_budget_run d' b' w' n).
  - intros Hstatus. rewrite (handler_resumes _ _ ck w b) by done. fold d.
    set (w1 := log (GetItem ck) (after_lock d w)).
    assert (resume d ev b w1
            = (Ok giving_up, after_unlock d (log (HeadObject key) w1))) as ->.
    { unfold resume. rewrite Hstatus. cbn [is_none]. unfold poll_branch.
      rewrite Hstatus. cbn [val_eq_str]. rewrite String.eqb_refl.
      unfold finally, catch, bind at 1.
      destruct (exhausted_budget_run d b w1 n) as [-> _]; [done..|].
      cbn [fst snd ret].
      by rewrite unlock_owned
        by apply holds_lease_log, holds_lease_log, holds_lease_after_lock. }
    split_and!; [done| |done].
    unfold stored. cbn. by rewrite !lookup_insert_eq.
  - intros job jobs s Hst0 Hst1 Hclient Hdescribe Hstatus Hpend Hfail. cbn zeta.
    rewrite (handler_resumes _ _ ck w b) by done. fold d.
    set (w1 := log (GetItem ck) (after_lock d w)).
    set (b1 := Batch.set_status (VStr s) b).
    assert (resume d ev b w1
            = (Ok giving_up,
               after_unlock d
                 (log (HeadObject key)
                    (after_put d (Batch.state_dict b1)
                       (log (DescribeJobs (Batch.job_id b)) w1))))) as ->.
    { unfold resume.
      replace (is_none (Batch.status b)) with false
        by by destruct (Batch.status b).
      unfold poll_branch. rewrite not_succeeded by done.
      unfold finally, catch, bind at 1.
      destruct (update_finished b w1 job jobs s) as [msg ->];
        [done|exact Hdescribe|done..|].
      unfold bind at 1.
      rewrite put_owned by apply holds_lease_log, holds_lease_after_lock.
      fold b1. cbn [Batch.status Batch.set_status b1].
      replace (existsb (val_eq_str (VStr s)) PENDING_STATES) with false.
      2:{ symmetry. apply not_true_is_false.
          intros (x & Hx & Heq)%existsb_exists.
          apply String.eqb_eq in Heq as ->. by apply Hpend, list_elem_of_In. }
      cbn [val_eq_str]. rewrite (proj2 (String.eqb_neq _ _) Hfail).
      unfold bind at 1.
      destruct (exhausted_budget_run d b1
                  (after_put d (Batch.state_dict b1)
                     (log (DescribeJobs (Batch.job_id b)) w1)) n)
        as [-> _]; [done..|].
      cbn [fst snd ret].
      by rewrite unlock_owned by apply holds_lease_log, holds_lease_after_put. }
    split_and!; [done| |done].
    unfold stored. cbn. by rewrite !lookup_insert_eq.
Qed.

Lemma exhausted_budget_is_final_witness :
  let state := VDict [("job_id", VStr "job-1");
                      ("job_def", VStr "arn:job-definition/fn-k1:1");
                      ("status", VStr SUCCESS_STATE); ("iters", VInt 11)] in
  let w := example_world None "SUCCEEDED"
             {["k1" := example_row None 100 (Some state)]} ∅ 102 in
  let out := @handler example_lib "me" example_event w in
  MAX_ITERS = 10 ∧
  out.1 = Ok (response 422 "task failed to write output" VNone) ∧
  stored out.2 "k1" = Some state ∧
  trace out.2 =
    [unlock_call (example_dynamo "me") "k1" 102; HeadObject "k1/result.dump";
     GetItem "k1"; lock_call (example_dynamo "me") "k1" 102].
Proof.
  assert (11 > MAX_ITERS) as Hover by (unfold MAX_ITERS; lia).
  pose proof (@exhausted_budget_is_final example_lib "me" example_event "k1"
                (example_world None "SUCCEEDED"
                   {["k1" := example_row None 100
                               (Some (VDict [("job_id", VStr "job-1");
                                             ("job_def",
                                              VStr "arn:job-definition/fn-k1:1");
                                             ("status", VStr SUCCESS_STATE);
                                             ("iters", VInt 11)]))]} ∅ 102)
                _ 11 eq_refl (or_introl eq_refl) eq_refl eq_refl Hover eq_refl)
    as H.
  destruct H as (Hmax & _ & Hdirect & _).
  split; [exact Hmax|]. exact (Hdirect eq_refl).
Defined.

(** ** Two submissions for one cache key (C4) *)

(** C4 as stated fails in two ways.  With cleanup on failure switched
    on, the job is submitted, a later invocation sees it FAILED and
    deletes the record, and the next invocation submits again.  With
    cleanup off, two invocations that overlap both submit: the first
    takes the lease and loads a record without status; more than
    [TIMEOUT] seconds later, before the first has gone on, a second
    invocation takes the stale lease over, submits and answers 201; the
    first then goes on from where it was ([resume]), submits as well and
    answers 201, since the result of its write is not looked at. *)
Lemma submission_is_repeated :
  (let w := example_world (Some "1") "FAILED" ∅ ∅ 102 in
   let out := @run example_lib
                [Invoke "run-1" example_event; Outside 110 ∅;
                 Invoke "run-2" example_event; Outside 120 ∅;
                 Invoke "run-3" example_event] w in
   created "k1" <$> out.1 = [true; false; true] ∧
   count_calls (is_submit_job "k1") (trace out.2) = 2%nat ∧
   ¬ (count_calls (is_submit_job "k1") (trace out.2) ≤ 1)%nat) ∧
  (let w := example_world None "RUNNING" ∅ ∅ 100 in
   let first := example_dynamo "run-1" in
   let b := Batch.new "k1" in
   let loaded := log (GetItem "k1") (after_lock first w) in
   let second := @handler example_lib "run-2" example_event
                   (set_outside 106 ∅ loaded) in
   let out := @resume example_lib first example_event b second.2 in
   env_flag (DELETE_DYNAMO_ON_FAIL (environ w)) = false ∧
   load "k1" w = Ok b ∧
   @handler example_lib "run-1" example_event w
     = @resume example_lib first example_event b loaded ∧
   created "k1" (example_event, second.1) = true ∧
   created "k1" (example_event, out.1) = true ∧
   count_calls (is_submit_job "k1") (trace out.2) = 2%nat ∧
   ¬ (count_calls (is_submit_job "k1") (trace out.2) ≤ 1)%nat).
Proof.
  split.
  - cbn zeta. split; [by vm_compute|]. split; [by vm_compute|].
    vm_compute. lia.
  - cbn zeta. split_and!; [done|done| |by vm_compute..|vm_compute; lia].
    apply (@handler_resumes example_lib "run-1" example_event "k1"
             (example_world None "RUNNING" ∅ ∅ 100) (Batch.new "k1"));
      [done|by left|done].
Qed.
